(** * HSEConsultBot: the rate limiter and the FAQ knowledge base

    Shallow embedding of [src/utils/rate_limiter.py] and
    [src/services/knowledge_base.py], together with the part of Python's
    [difflib.SequenceMatcher] that [_calculate_similarity] relies on.

    Modelling conventions:
    - a Python [str] is its list of Unicode code points ([list Z]); string
      literals of the source are written as UTF-8 Rocq literals and decoded
      by [py];
    - timestamps ([datetime], naive) are integers counting microseconds,
      the resolution of [datetime.now()], from 1970-01-01 00:00; the clock
      reads times more than 300 s away from [datetime.min] and
      [datetime.max], so the window arithmetic of the checks (windows of
      at most 300 s) never overflows, while the [OverflowError] of
      [cleanup_old_history], whose [days] are unbounded, is modelled;
    - Python floats produced by the similarity scorer are modelled as exact
      rationals ([Q]); the comparisons the code makes on them are the
      comparisons of [Q];
    - network access (the HEAD request) and the FAQ file are inputs of the
      model: their outcome is passed as an argument. *)

From Stdlib Require Import String Ascii ZArith QArith Qround Qfield Sorted Lia.
From stdpp Require Import base list gmap.

Open Scope Z_scope.

(* ------------------------------------------------------------------ *)
(** ** Python strings *)

Definition str := list Z.

Fixpoint bytes_of (s : string) : list Z :=
  match s with
  | EmptyString => []
  | String c r => Z.of_N (N_of_ascii c) :: bytes_of r
  end.

(** UTF-8 decoding of the bytes of a Rocq literal into code points. *)
Fixpoint utf8_decode (bs : list Z) : str :=
  match bs with
  | [] => []
  | b0 :: r =>
      if b0 <? 128 then b0 :: utf8_decode r
      else match r with
           | [] => []
           | b1 :: r1 =>
               if b0 <? 224 then (Z.land b0 31 * 64 + Z.land b1 63) :: utf8_decode r1
               else match r1 with
                    | [] => []
                    | b2 :: r2 =>
                        if b0 <? 240 then
                          ((Z.land b0 15 * 64 + Z.land b1 63) * 64 + Z.land b2 63)
                            :: utf8_decode r2
                        else match r2 with
                             | [] => []
                             | b3 :: r3 =>
                                 (((Z.land b0 7 * 64 + Z.land b1 63) * 64
                                   + Z.land b2 63) * 64 + Z.land b3 63) :: utf8_decode r3
                             end
                    end
           end
  end.

Definition py (s : string) : str := utf8_decode (bytes_of s).
Arguments py s%_string.

Definition nl : str := [10].

(** Strict order on scores. *)
Definition Qlt_bool (x y : Q) : bool := negb (Qle_bool y x).

(** [str.isspace]: the characters Python's [str.split()], [str.strip()]
    and the regular expression class [\s] treat as white space. *)
Definition is_space (c : Z) : bool :=
  ((9 <=? c) && (c <=? 13)) || ((28 <=? c) && (c <=? 32)) || (c =? 133) || (c =? 160)
  || (c =? 5760) || ((8192 <=? c) && (c <=? 8202)) || (c =? 8232) || (c =? 8233)
  || (c =? 8239) || (c =? 8287) || (c =? 12288).

(** Membership in a list of closed ranges [(lo, hi)] of code points. *)
Definition in_ranges (rs : list (Z * Z)) (c : Z) : bool :=
  existsb (fun r => (fst r <=? c) && (c <=? snd r)) rs.

(** The character tables below are those of Python 3.11 (Unicode 14.0.0,
    [unicodedata.unidata_version]). *)

(** [_PyUnicode_IsCaseIgnorable]: the code points with the Unicode
    property Case_Ignorable. *)
Definition case_ignorable_ranges : list (Z * Z) :=
[
  (39, 39); (46, 46); (58, 58); (94, 94); (96, 96); (168, 168); (173, 173); (175, 175);
  (180, 180); (183, 184); (688, 879); (884, 885); (890, 890); (900, 901); (903, 903); (1155, 1161);
  (1369, 1369); (1375, 1375); (1425, 1469); (1471, 1471); (1473, 1474); (1476, 1477); (1479, 1479); (1524, 1524);
  (1536, 1541); (1552, 1562); (1564, 1564); (1600, 1600); (1611, 1631); (1648, 1648); (1750, 1757); (1759, 1768);
  (1770, 1773); (1807, 1807); (1809, 1809); (1840, 1866); (1958, 1968); (2027, 2037); (2042, 2042); (2045, 2045);
  (2070, 2093); (2137, 2139); (2184, 2184); (2192, 2193); (2200, 2207); (2249, 2306); (2362, 2362); (2364, 2364);
  (2369, 2376); (2381, 2381); (2385, 2391); (2402, 2403); (2417, 2417); (2433, 2433); (2492, 2492); (2497, 2500);
  (2509, 2509); (2530, 2531); (2558, 2558); (2561, 2562); (2620, 2620); (2625, 2626); (2631, 2632); (2635, 2637);
  (2641, 2641); (2672, 2673); (2677, 2677); (2689, 2690); (2748, 2748); (2753, 2757); (2759, 2760); (2765, 2765);
  (2786, 2787); (2810, 2815); (2817, 2817); (2876, 2876); (2879, 2879); (2881, 2884); (2893, 2893); (2901, 2902);
  (2914, 2915); (2946, 2946); (3008, 3008); (3021, 3021); (3072, 3072); (3076, 3076); (3132, 3132); (3134, 3136);
  (3142, 3144); (3146, 3149); (3157, 3158); (3170, 3171); (3201, 3201); (3260, 3260); (3263, 3263); (3270, 3270);
  (3276, 3277); (3298, 3299); (3328, 3329); (3387, 3388); (3393, 3396); (3405, 3405); (3426, 3427); (3457, 3457);
  (3530, 3530); (3538, 3540); (3542, 3542); (3633, 3633); (3636, 3642); (3654, 3662); (3761, 3761); (3764, 3772);
  (3782, 3782); (3784, 3789); (3864, 3865); (3893, 3893); (3895, 3895); (3897, 3897); (3953, 3966); (3968, 3972);
  (3974, 3975); (3981, 3991); (3993, 4028); (4038, 4038); (4141, 4144); (4146, 4151); (4153, 4154); (4157, 4158);
  (4184, 4185); (4190, 4192); (4209, 4212); (4226, 4226); (4229, 4230); (4237, 4237); (4253, 4253); (4348, 4348);
  (4957, 4959); (5906, 5908); (5938, 5939); (5970, 5971); (6002, 6003); (6068, 6069); (6071, 6077); (6086, 6086);
  (6089, 6099); (6103, 6103); (6109, 6109); (6155, 6159); (6211, 6211); (6277, 6278); (6313, 6313); (6432, 6434);
  (6439, 6440); (6450, 6450); (6457, 6459); (6679, 6680); (6683, 6683); (6742, 6742); (6744, 6750); (6752, 6752);
  (6754, 6754); (6757, 6764); (6771, 6780); (6783, 6783); (6823, 6823); (6832, 6862); (6912, 6915); (6964, 6964);
  (6966, 6970); (6972, 6972); (6978, 6978); (7019, 7027); (7040, 7041); (7074, 7077); (7080, 7081); (7083, 7085);
  (7142, 7142); (7144, 7145); (7149, 7149); (7151, 7153); (7212, 7219); (7222, 7223); (7288, 7293); (7376, 7378);
  (7380, 7392); (7394, 7400); (7405, 7405); (7412, 7412); (7416, 7417); (7468, 7530); (7544, 7544); (7579, 7679);
  (8125, 8125); (8127, 8129); (8141, 8143); (8157, 8159); (8173, 8175); (8189, 8190); (8203, 8207); (8216, 8217);
  (8228, 8228); (8231, 8231); (8234, 8238); (8288, 8292); (8294, 8303); (8305, 8305); (8319, 8319); (8336, 8348);
  (8400, 8432); (11388, 11389); (11503, 11505); (11631, 11631); (11647, 11647); (11744, 11775); (11823, 11823); (12293, 12293);
  (12330, 12333); (12337, 12341); (12347, 12347); (12441, 12446); (12540, 12542); (40981, 40981); (42232, 42237); (42508, 42508);
  (42607, 42610); (42612, 42621); (42623, 42623); (42652, 42655); (42736, 42737); (42752, 42785); (42864, 42864); (42888, 42890);
  (42994, 42996); (43000, 43001); (43010, 43010); (43014, 43014); (43019, 43019); (43045, 43046); (43052, 43052); (43204, 43205);
  (43232, 43249); (43263, 43263); (43302, 43309); (43335, 43345); (43392, 43394); (43443, 43443); (43446, 43449); (43452, 43453);
  (43471, 43471); (43493, 43494); (43561, 43566); (43569, 43570); (43573, 43574); (43587, 43587); (43596, 43596); (43632, 43632);
  (43644, 43644); (43696, 43696); (43698, 43700); (43703, 43704); (43710, 43711); (43713, 43713); (43741, 43741); (43756, 43757);
  (43763, 43764); (43766, 43766); (43867, 43871); (43881, 43883); (44005, 44005); (44008, 44008); (44013, 44013); (64286, 64286);
  (64434, 64450); (65024, 65039); (65043, 65043); (65056, 65071); (65106, 65106); (65109, 65109); (65279, 65279); (65287, 65287);
  (65294, 65294); (65306, 65306); (65342, 65342); (65344, 65344); (65392, 65392); (65438, 65439); (65507, 65507); (65529, 65531);
  (66045, 66045); (66272, 66272); (66422, 66426); (67456, 67461); (67463, 67504); (67506, 67514); (68097, 68099); (68101, 68102);
  (68108, 68111); (68152, 68154); (68159, 68159); (68325, 68326); (68900, 68903); (69291, 69292); (69446, 69456); (69506, 69509);
  (69633, 69633); (69688, 69702); (69744, 69744); (69747, 69748); (69759, 69761); (69811, 69814); (69817, 69818); (69821, 69821);
  (69826, 69826); (69837, 69837); (69888, 69890); (69927, 69931); (69933, 69940); (70003, 70003); (70016, 70017); (70070, 70078);
  (70089, 70092); (70095, 70095); (70191, 70193); (70196, 70196); (70198, 70199); (70206, 70206); (70367, 70367); (70371, 70378);
  (70400, 70401); (70459, 70460); (70464, 70464); (70502, 70508); (70512, 70516); (70712, 70719); (70722, 70724); (70726, 70726);
  (70750, 70750); (70835, 70840); (70842, 70842); (70847, 70848); (70850, 70851); (71090, 71093); (71100, 71101); (71103, 71104);
  (71132, 71133); (71219, 71226); (71229, 71229); (71231, 71232); (71339, 71339); (71341, 71341); (71344, 71349); (71351, 71351);
  (71453, 71455); (71458, 71461); (71463, 71467); (71727, 71735); (71737, 71738); (71995, 71996); (71998, 71998); (72003, 72003);
  (72148, 72151); (72154, 72155); (72160, 72160); (72193, 72202); (72243, 72248); (72251, 72254); (72263, 72263); (72273, 72278);
  (72281, 72283); (72330, 72342); (72344, 72345); (72752, 72758); (72760, 72765); (72767, 72767); (72850, 72871); (72874, 72880);
  (72882, 72883); (72885, 72886); (73009, 73014); (73018, 73018); (73020, 73021); (73023, 73029); (73031, 73031); (73104, 73105);
  (73109, 73109); (73111, 73111); (73459, 73460); (78896, 78904); (92912, 92916); (92976, 92982); (92992, 92995); (94031, 94031);
  (94095, 94111); (94176, 94177); (94179, 94180); (110576, 110579); (110581, 110587); (110589, 110590); (113821, 113822); (113824, 113827);
  (118528, 118573); (118576, 118598); (119143, 119145); (119155, 119170); (119173, 119179); (119210, 119213); (119362, 119364); (121344, 121398);
  (121403, 121452); (121461, 121461); (121476, 121476); (121499, 121503); (121505, 121519); (122880, 122886); (122888, 122904); (122907, 122913);
  (122915, 122916); (122918, 122922); (123184, 123197); (123566, 123566); (123628, 123631); (125136, 125142); (125252, 125259); (127995, 127999);
  (917505, 917505); (917536, 917631); (917760, 917999)].

(** [_PyUnicode_IsCased]: the code points with the Unicode property Cased. *)
Definition cased_ranges : list (Z * Z) :=
[
  (65, 90); (97, 122); (170, 170); (181, 181); (186, 186); (192, 214); (216, 246); (248, 442);
  (444, 447); (452, 659); (661, 696); (704, 705); (736, 740); (837, 837); (880, 883); (886, 887);
  (890, 893); (895, 895); (902, 902); (904, 906); (908, 908); (910, 929); (931, 1013); (1015, 1153);
  (1162, 1327); (1329, 1366); (1376, 1416); (4256, 4293); (4295, 4295); (4301, 4301); (4304, 4346); (4349, 4351);
  (5024, 5109); (5112, 5117); (7296, 7304); (7312, 7354); (7357, 7359); (7424, 7615); (7680, 7957); (7960, 7965);
  (7968, 8005); (8008, 8013); (8016, 8023); (8025, 8025); (8027, 8027); (8029, 8029); (8031, 8061); (8064, 8116);
  (8118, 8124); (8126, 8126); (8130, 8132); (8134, 8140); (8144, 8147); (8150, 8155); (8160, 8172); (8178, 8180);
  (8182, 8188); (8305, 8305); (8319, 8319); (8336, 8348); (8450, 8450); (8455, 8455); (8458, 8467); (8469, 8469);
  (8473, 8477); (8484, 8484); (8486, 8486); (8488, 8488); (8490, 8493); (8495, 8500); (8505, 8505); (8508, 8511);
  (8517, 8521); (8526, 8526); (8544, 8575); (8579, 8580); (9398, 9449); (11264, 11492); (11499, 11502); (11506, 11507);
  (11520, 11557); (11559, 11559); (11565, 11565); (42560, 42605); (42624, 42653); (42786, 42887); (42891, 42894); (42896, 42954);
  (42960, 42961); (42963, 42963); (42965, 42969); (42997, 42998); (43000, 43002); (43824, 43866); (43868, 43880); (43888, 43967);
  (64256, 64262); (64275, 64279); (65313, 65338); (65345, 65370); (66560, 66639); (66736, 66771); (66776, 66811); (66928, 66938);
  (66940, 66954); (66956, 66962); (66964, 66965); (66967, 66977); (66979, 66993); (66995, 67001); (67003, 67004); (67456, 67456);
  (67459, 67461); (67463, 67504); (67506, 67514); (68736, 68786); (68800, 68850); (71840, 71903); (93760, 93823); (119808, 119892);
  (119894, 119964); (119966, 119967); (119970, 119970); (119973, 119974); (119977, 119980); (119982, 119993); (119995, 119995); (119997, 120003);
  (120005, 120069); (120071, 120074); (120077, 120084); (120086, 120092); (120094, 120121); (120123, 120126); (120128, 120132); (120134, 120134);
  (120138, 120144); (120146, 120485); (120488, 120512); (120514, 120538); (120540, 120570); (120572, 120596); (120598, 120628); (120630, 120654);
  (120656, 120686); (120688, 120712); (120714, 120744); (120746, 120770); (120772, 120779); (122624, 122633); (122635, 122654); (125184, 125251);
  (127280, 127305); (127312, 127337); (127344, 127369)].

(** The one-code-point lower-case mappings of [_PyUnicode_ToLowerFull],
    as runs [(lo, hi, step, delta)]: each code point [lo + k * step] up to
    [hi] is mapped to itself plus [delta]. U+03A3 (capital sigma), handled
    by [handle_capital_sigma], is left out. *)
Definition lower_runs : list (Z * Z * Z * Z) :=
[
  (65, 90, 1, 32); (192, 214, 1, 32); (216, 222, 1, 32); (256, 302, 2, 1); (306, 310, 2, 1);
  (313, 327, 2, 1); (330, 374, 2, 1); (376, 376, 1, -121); (377, 381, 2, 1); (385, 385, 1, 210);
  (386, 388, 2, 1); (390, 390, 1, 206); (391, 391, 1, 1); (393, 394, 1, 205); (395, 395, 1, 1);
  (398, 398, 1, 79); (399, 399, 1, 202); (400, 400, 1, 203); (401, 401, 1, 1); (403, 403, 1, 205);
  (404, 404, 1, 207); (406, 406, 1, 211); (407, 407, 1, 209); (408, 408, 1, 1); (412, 412, 1, 211);
  (413, 413, 1, 213); (415, 415, 1, 214); (416, 420, 2, 1); (422, 422, 1, 218); (423, 423, 1, 1);
  (425, 425, 1, 218); (428, 428, 1, 1); (430, 430, 1, 218); (431, 431, 1, 1); (433, 434, 1, 217);
  (435, 437, 2, 1); (439, 439, 1, 219); (440, 440, 1, 1); (444, 444, 1, 1); (452, 452, 1, 2);
  (453, 453, 1, 1); (455, 455, 1, 2); (456, 456, 1, 1); (458, 458, 1, 2); (459, 475, 2, 1);
  (478, 494, 2, 1); (497, 497, 1, 2); (498, 500, 2, 1); (502, 502, 1, -97); (503, 503, 1, -56);
  (504, 542, 2, 1); (544, 544, 1, -130); (546, 562, 2, 1); (570, 570, 1, 10795); (571, 571, 1, 1);
  (573, 573, 1, -163); (574, 574, 1, 10792); (577, 577, 1, 1); (579, 579, 1, -195); (580, 580, 1, 69);
  (581, 581, 1, 71); (582, 590, 2, 1); (880, 882, 2, 1); (886, 886, 1, 1); (895, 895, 1, 116);
  (902, 902, 1, 38); (904, 906, 1, 37); (908, 908, 1, 64); (910, 911, 1, 63); (913, 929, 1, 32);
  (932, 939, 1, 32); (975, 975, 1, 8); (984, 1006, 2, 1); (1012, 1012, 1, -60); (1015, 1015, 1, 1);
  (1017, 1017, 1, -7); (1018, 1018, 1, 1); (1021, 1023, 1, -130); (1024, 1039, 1, 80); (1040, 1071, 1, 32);
  (1120, 1152, 2, 1); (1162, 1214, 2, 1); (1216, 1216, 1, 15); (1217, 1229, 2, 1); (1232, 1326, 2, 1);
  (1329, 1366, 1, 48); (4256, 4293, 1, 7264); (4295, 4295, 1, 7264); (4301, 4301, 1, 7264); (5024, 5103, 1, 38864);
  (5104, 5109, 1, 8); (7312, 7354, 1, -3008); (7357, 7359, 1, -3008); (7680, 7828, 2, 1); (7838, 7838, 1, -7615);
  (7840, 7934, 2, 1); (7944, 7951, 1, -8); (7960, 7965, 1, -8); (7976, 7983, 1, -8); (7992, 7999, 1, -8);
  (8008, 8013, 1, -8); (8025, 8031, 2, -8); (8040, 8047, 1, -8); (8072, 8079, 1, -8); (8088, 8095, 1, -8);
  (8104, 8111, 1, -8); (8120, 8121, 1, -8); (8122, 8123, 1, -74); (8124, 8124, 1, -9); (8136, 8139, 1, -86);
  (8140, 8140, 1, -9); (8152, 8153, 1, -8); (8154, 8155, 1, -100); (8168, 8169, 1, -8); (8170, 8171, 1, -112);
  (8172, 8172, 1, -7); (8184, 8185, 1, -128); (8186, 8187, 1, -126); (8188, 8188, 1, -9); (8486, 8486, 1, -7517);
  (8490, 8490, 1, -8383); (8491, 8491, 1, -8262); (8498, 8498, 1, 28); (8544, 8559, 1, 16); (8579, 8579, 1, 1);
  (9398, 9423, 1, 26); (11264, 11311, 1, 48); (11360, 11360, 1, 1); (11362, 11362, 1, -10743); (11363, 11363, 1, -3814);
  (11364, 11364, 1, -10727); (11367, 11371, 2, 1); (11373, 11373, 1, -10780); (11374, 11374, 1, -10749); (11375, 11375, 1, -10783);
  (11376, 11376, 1, -10782); (11378, 11378, 1, 1); (11381, 11381, 1, 1); (11390, 11391, 1, -10815); (11392, 11490, 2, 1);
  (11499, 11501, 2, 1); (11506, 11506, 1, 1); (42560, 42604, 2, 1); (42624, 42650, 2, 1); (42786, 42798, 2, 1);
  (42802, 42862, 2, 1); (42873, 42875, 2, 1); (42877, 42877, 1, -35332); (42878, 42886, 2, 1); (42891, 42891, 1, 1);
  (42893, 42893, 1, -42280); (42896, 42898, 2, 1); (42902, 42920, 2, 1); (42922, 42922, 1, -42308); (42923, 42923, 1, -42319);
  (42924, 42924, 1, -42315); (42925, 42925, 1, -42305); (42926, 42926, 1, -42308); (42928, 42928, 1, -42258); (42929, 42929, 1, -42282);
  (42930, 42930, 1, -42261); (42931, 42931, 1, 928); (42932, 42946, 2, 1); (42948, 42948, 1, -48); (42949, 42949, 1, -42307);
  (42950, 42950, 1, -35384); (42951, 42953, 2, 1); (42960, 42960, 1, 1); (42966, 42968, 2, 1); (42997, 42997, 1, 1);
  (65313, 65338, 1, 32); (66560, 66599, 1, 40); (66736, 66771, 1, 40); (66928, 66938, 1, 39); (66940, 66954, 1, 39);
  (66956, 66962, 1, 39); (66964, 66965, 1, 39); (68736, 68786, 1, 64); (71840, 71871, 1, 32); (93760, 93791, 1, 32);
  (125184, 125217, 1, 34)].

Fixpoint lower_run (rs : list (Z * Z * Z * Z)) (c : Z) : Z :=
  match rs with
  | [] => c
  | (lo, hi, step, delta) :: r =>
      if (lo <=? c) && (c <=? hi) && (Z.modulo (c - lo) step =? 0) then c + delta
      else lower_run r c
  end.

(** [_PyUnicode_ToLowerFull]: U+0130 is the one code point whose lower
    case has two code points. *)
Definition lower_full (c : Z) : str :=
  if c =? 304 then [105; 775] else [lower_run lower_runs c].

(** The first code point of [s] that is not case-ignorable. *)
Fixpoint first_not_case_ignorable (s : str) : option Z :=
  match s with
  | [] => None
  | c :: r => if in_ranges case_ignorable_ranges c then first_not_case_ignorable r else Some c
  end.

(** [handle_capital_sigma]: [before] is the text preceding the sigma,
    reversed, [after] the text following it. Skipping case-ignorable code
    points, the sigma is final when a cased code point precedes it and no
    cased code point follows it. *)
Definition final_sigma (before after : str) : bool :=
  match first_not_case_ignorable before with
  | Some c =>
      in_ranges cased_ranges c &&
      match first_not_case_ignorable after with
      | None => true
      | Some c' => negb (in_ranges cased_ranges c')
      end
  | None => false
  end.

(** [lower_ucs4] applied along the string; [before] is the part already
    read, reversed. *)
Fixpoint lower_aux (before s : str) : str :=
  match s with
  | [] => []
  | c :: r =>
      (if c =? 931 then [if final_sigma before r then 962 else 963] else lower_full c)
      ++ lower_aux (c :: before) r
  end.

(** [str.lower]. *)
Definition py_lower (s : str) : str := lower_aux [] s.

(** [str.split()] without arguments: runs of white space separate words,
    empty words are dropped. [cur] is the current word, reversed. *)
Fixpoint split_aux (s : str) (cur : str) : list str :=
  match s with
  | [] => match cur with [] => [] | _ => [rev cur] end
  | c :: r =>
      if is_space c then
        match cur with
        | [] => split_aux r []
        | _ => rev cur :: split_aux r []
        end
      else split_aux r (c :: cur)
  end.

Definition py_split (s : str) : list str := split_aux s [].

(** [str.strip() == ""]: the string is empty or white space only. *)
Definition is_blank (s : str) : bool := forallb is_space s.

Fixpoint is_prefix (p s : str) : bool :=
  match p, s with
  | [], _ => true
  | x :: p', y :: s' => (x =? y) && is_prefix p' s'
  | _ :: _, [] => false
  end.

(** The substring test [p in s]. *)
Fixpoint contains (p s : str) : bool :=
  is_prefix p s || match s with [] => false | _ :: s' => contains p s' end.

Fixpoint dec_aux (fuel : nat) (n : Z) (acc : str) : str :=
  match fuel with
  | O => acc
  | S f =>
      let d := n mod 10 in
      let q := n / 10 in
      if q =? 0 then (48 + d) :: acc else dec_aux f q ((48 + d) :: acc)
  end.

(** [str(n)] for a Python [int]. *)
Definition py_str_int (n : Z) : str :=
  if n <? 0 then 45 :: dec_aux (S (Z.to_nat (Z.log2 (- n)))) (- n) []
  else dec_aux (S (Z.to_nat (Z.log2 n))) n [].

Fixpoint py_join (sep : str) (parts : list str) : str :=
  match parts with
  | [] => []
  | [p] => p
  | p :: ps => p ++ sep ++ py_join sep ps
  end.

(* ------------------------------------------------------------------ *)
(** ** difflib.SequenceMatcher(None, a, b) *)

Module SequenceMatcher.

(** [isjunk] is [None], so the junk set [bjunk] is empty. *)
Definition bjunk (c : Z) : bool := false.

Definition count_in (c : Z) (b : str) : nat := length (List.filter (Z.eqb c) b).

(** [autojunk=True]: in a sequence [b] of 200 elements or more, an element
    occurring more than [len(b) // 100 + 1] times is "popular". *)
Definition bpopular (b : str) (c : Z) : bool :=
  (200 <=? length b)%nat && (length b / 100 + 1 <? count_in c b)%nat.

Fixpoint indices_from (c : Z) (b : str) (k : nat) : list nat :=
  match b with
  | [] => []
  | x :: r => if x =? c then k :: indices_from c r (S k) else indices_from c r (S k)
  end.

(** [b2j.get(c, [])] after [__chain_b]: the ascending positions of [c] in
    [b], or nothing when [c] is junk or popular (deleted from [b2j]). *)
Definition b2j_get (b : str) (c : Z) : list nat :=
  if bjunk c || bpopular b c then [] else indices_from c b 0.

(** The inner [for j in b2j.get(a[i], nothing)] loop of
    [find_longest_match]; [j2len] is the previous row's dictionary read
    with default 0, [newj2len] the one being built. *)
Fixpoint flm_inner (blo bhi i : nat) (j2len : nat -> nat) (js : list nat)
    (newj2len : nat -> nat) (best : nat * nat * nat) : (nat -> nat) * (nat * nat * nat) :=
  match js with
  | [] => (newj2len, best)
  | j :: js' =>
      if (j <? blo)%nat then flm_inner blo bhi i j2len js' newj2len best
      else if (bhi <=? j)%nat then (newj2len, best)
      else
        let k := (match j with O => O | S j' => j2len j' end + 1)%nat in
        let newj2len' := fun x => if (x =? j)%nat then k else newj2len x in
        let '(bi, bj, bs) := best in
        if (bs <? k)%nat then
          flm_inner blo bhi i j2len js' newj2len' ((i + 1 - k)%nat, (j + 1 - k)%nat, k)
        else flm_inner blo bhi i j2len js' newj2len' best
  end.

(** The outer [for i in range(alo, ahi)] loop: [cnt] rows from row [i]. *)
Fixpoint flm_rows (a b : str) (blo bhi i cnt : nat) (j2len : nat -> nat)
    (best : nat * nat * nat) : nat * nat * nat :=
  match cnt with
  | O => best
  | S c =>
      let '(nj, best') := flm_inner blo bhi i j2len (b2j_get b (nth i a 0)) (fun _ => O) best in
      flm_rows a b blo bhi (S i) c nj best'
  end.

(** The two [while] loops extending the block to the left, over non-junk
    ([junk = false]) or junk ([junk = true]) elements. *)
Fixpoint extend_left (fuel : nat) (a b : str) (alo blo : nat) (junk : bool)
    (best : nat * nat * nat) : nat * nat * nat :=
  match fuel with
  | O => best
  | S f =>
      let '(bi, bj, bs) := best in
      if (alo <? bi)%nat && (blo <? bj)%nat && Bool.eqb (bjunk (nth (bj - 1) b 0)) junk
         && (nth (bi - 1) a 0 =? nth (bj - 1) b 0)
      then extend_left f a b alo blo junk ((bi - 1)%nat, (bj - 1)%nat, S bs)
      else best
  end.

Fixpoint extend_right (fuel : nat) (a b : str) (ahi bhi : nat) (junk : bool)
    (best : nat * nat * nat) : nat * nat * nat :=
  match fuel with
  | O => best
  | S f =>
      let '(bi, bj, bs) := best in
      if (bi + bs <? ahi)%nat && (bj + bs <? bhi)%nat
         && Bool.eqb (bjunk (nth (bj + bs) b 0)) junk
         && (nth (bi + bs) a 0 =? nth (bj + bs) b 0)
      then extend_right f a b ahi bhi junk (bi, bj, S bs)
      else best
  end.

(** Each extension loop runs at most [len(a)] times, so the fuel
    [len(a) + len(b) + 1] never runs out. *)
Definition find_longest_match (a b : str) (alo ahi blo bhi : nat) : nat * nat * nat :=
  let fuel := S (length a + length b) in
  let best := flm_rows a b blo bhi alo (ahi - alo) (fun _ => O) (alo, blo, O) in
  let best := extend_left fuel a b alo blo false best in
  let best := extend_right fuel a b ahi bhi false best in
  let best := extend_left fuel a b alo blo true best in
  extend_right fuel a b ahi bhi true best.

(** The [while queue] loop of [get_matching_blocks]. The Python list
    [queue] is used as a stack ([append]/[pop()]); here its last element
    is the head of the list. Each iteration either matches at least one
    element or pushes nothing, so [1 + len(a) + len(b)] iterations
    suffice. *)
Fixpoint gmb_loop (a b : str) (fuel : nat) (queue : list (nat * nat * nat * nat))
    (acc : list (nat * nat * nat)) : list (nat * nat * nat) :=
  match fuel with
  | O => acc
  | S f =>
      match queue with
      | [] => acc
      | (alo, ahi, blo, bhi) :: rest =>
          let '(i, j, k) := find_longest_match a b alo ahi blo bhi in
          if (k =? 0)%nat then gmb_loop a b f rest acc
          else
            let q1 := if (alo <? i)%nat && (blo <? j)%nat then (alo, i, blo, j) :: rest else rest in
            let q2 := if (i + k <? ahi)%nat && (j + k <? bhi)%nat
                      then ((i + k)%nat, ahi, (j + k)%nat, bhi) :: q1 else q1 in
            gmb_loop a b f q2 (acc ++ [(i, j, k)])
      end
  end.

Definition triple_ltb (x y : nat * nat * nat) : bool :=
  let '(i1, j1, k1) := x in
  let '(i2, j2, k2) := y in
  (i1 <? i2)%nat || ((i1 =? i2)%nat && ((j1 <? j2)%nat || ((j1 =? j2)%nat && (k1 <? k2)%nat))).

Fixpoint triple_insert (x : nat * nat * nat) (l : list (nat * nat * nat)) :=
  match l with
  | [] => [x]
  | y :: l' => if triple_ltb y x then y :: triple_insert x l' else x :: y :: l'
  end.

(** [matching_blocks.sort()]: tuples in lexicographic order. *)
Definition triple_sort (l : list (nat * nat * nat)) : list (nat * nat * nat) :=
  fold_right triple_insert [] l.

(** The loop merging adjacent blocks into [non_adjacent]. *)
Fixpoint collapse (blocks : list (nat * nat * nat)) (cur : nat * nat * nat)
    : list (nat * nat * nat) :=
  let '(i1, j1, k1) := cur in
  match blocks with
  | [] => if (k1 =? 0)%nat then [] else [cur]
  | (i2, j2, k2) :: rest =>
      if (i1 + k1 =? i2)%nat && (j1 + k1 =? j2)%nat then collapse rest (i1, j1, (k1 + k2)%nat)
      else (if (k1 =? 0)%nat then [] else [cur]) ++ collapse rest (i2, j2, k2)
  end.

Definition get_matching_blocks (a b : str) : list (nat * nat * nat) :=
  let la := length a in
  let lb := length b in
  let raw := gmb_loop a b (S (la + lb)) [(O, la, O, lb)] [] in
  collapse (triple_sort raw) (O, O, O) ++ [(la, lb, O)].

Definition sum_sizes (l : list (nat * nat * nat)) : nat :=
  fold_right (fun '(_, _, k) acc => (k + acc)%nat) O l.

(** [_calculate_ratio(matches, length)] and [ratio()]. *)
Definition calculate_ratio (matches length : nat) : Q :=
  if (length =? 0)%nat then 1%Q
  else ((2 * inject_Z (Z.of_nat matches)) / inject_Z (Z.of_nat length))%Q.

Definition ratio (a b : str) : Q :=
  calculate_ratio (sum_sizes (get_matching_blocks a b)) (length a + length b).

End SequenceMatcher.

(* ------------------------------------------------------------------ *)
(** ** KnowledgeBase (src/services/knowledge_base.py) *)

Module KB.
Import SequenceMatcher.

(** The stop-word set of [_calculate_similarity]. *)
Definition stop_words : gset str :=
  list_to_set (map py ["что"; "как"; "где"; "когда"; "кто"; "какой"; "какая";
    "какие"; "нужно"; "можно"; "ли"; "в"; "на"; "по"; "с";
    "и"; "или"; "а"; "но"; "это"; "то"; "да"; "нет"; "для";
    "при"; "о"; "об"; "от"; "до"; "из"; "у"; "к"])%string.

(** [KnowledgeBase._calculate_similarity]. *)
Definition calculate_similarity (text1 text2 : str) : Q :=
  let text1_lower := py_lower text1 in
  let text2_lower := py_lower text2 in
  let similarity := ratio text1_lower text2_lower in
  let words1 : gset str := list_to_set (py_split text1_lower) in
  let words2 : gset str := list_to_set (py_split text2_lower) in
  let words1_filtered := words1 ∖ stop_words in
  let words2_filtered := words2 ∖ stop_words in
  if bool_decide (words1_filtered ≠ ∅) && bool_decide (words2_filtered ≠ ∅) then
    let intersection := size (words1_filtered ∩ words2_filtered) in
    let union := size (words1_filtered ∪ words2_filtered) in
    let keyword_similarity :=
      if (0 <? union)%nat
      then (inject_Z (Z.of_nat intersection) / inject_Z (Z.of_nat union))%Q
      else 0%Q in
    (similarity * (6 # 10) + keyword_similarity * (4 # 10))%Q
  else similarity.

(** An item of [faq_data] (a JSON object of the corpus). *)
Record FAQEntry := {
  question : str;
  short_answer : str;
  legal_reference : str;
  legal_url : str;
  block : str;
  current_as_of : str
}.

(** [similarities.sort(key=lambda x: x[1], reverse=True)]: Python's sort is
    stable, and with [reverse=True] equal keys keep their original order.
    Insertion places an element before the first one of strictly smaller
    score. *)
Fixpoint insert_desc (x : FAQEntry * Q) (l : list (FAQEntry * Q)) : list (FAQEntry * Q) :=
  match l with
  | [] => [x]
  | y :: l' => if Qlt_bool (snd y) (snd x) then x :: y :: l' else y :: insert_desc x l'
  end.

Definition sort_desc (l : list (FAQEntry * Q)) : list (FAQEntry * Q) :=
  fold_left (fun acc x => insert_desc x acc) l [].

(** The slice [l[:k]] for a Python [int] [k] (negative [k] counts from the
    end). *)
Definition py_slice_to {A} (l : list A) (k : Z) : list A :=
  if 0 <=? k then firstn (Z.to_nat k) l
  else firstn (Z.to_nat (Z.of_nat (length l) + k)) l.

(** [KnowledgeBase.find_relevant_questions]. *)
Definition find_relevant_questions (faq_data : list FAQEntry) (query : str)
    (threshold : Q) (top_k : Z) : list (FAQEntry * Q) :=
  match faq_data with
  | [] => []
  | _ =>
      let similarities :=
        List.filter (fun p => Qle_bool threshold (snd p))
          (map (fun item => (item, calculate_similarity query (question item))) faq_data) in
      py_slice_to (sort_desc similarities) top_k
  end.

(** Outcome of the HEAD request of [check_url_validity]: a response, an
    [aiohttp.ClientError] (connection failure, timeout) or another
    exception; both exceptions are caught. *)
Inductive head_outcome :=
| HeadResponse (status : Z)
| HeadClientError
| HeadOtherError.

(** [KnowledgeBase.check_url_validity]. *)
Definition check_url_validity (url : str) (head : head_outcome) : bool * option Z :=
  if is_blank url then (false, None)
  else match head with
       | HeadResponse status => ((200 <=? status) && (status <? 400), Some status)
       | HeadClientError => (false, None)
       | HeadOtherError => (false, None)
       end.

(** The dictionary returned by [get_answer_with_validation]; field
    [ad_k] is the key ['k']. *)
Record AnswerData := {
  ad_question : str;
  ad_answer : str;
  ad_legal_reference : str;
  ad_legal_url : str;
  ad_block : str;
  ad_current_as_of : str;
  ad_similarity_score : Q;
  ad_url_valid : option bool;
  ad_url_status : option Z
}.

(** [KnowledgeBase.get_answer_with_validation]; [head] is the outcome the
    HEAD request would have if it is issued. *)
Definition get_answer_with_validation (faq_data : list FAQEntry) (query : str)
    (check_urls : bool) (head : head_outcome) : option AnswerData :=
  match find_relevant_questions faq_data query (1 # 2) 1 with
  | [] => None
  | (best_match, similarity) :: _ =>
      if Qlt_bool similarity (3 # 10) then None
      else
        let '(url_valid, url_status) :=
          if check_urls && negb (bool_decide (legal_url best_match = [])) then
            let '(v, s) := check_url_validity (legal_url best_match) head in (Some v, s)
          else (None, None) in
        Some {| ad_question := question best_match;
                ad_answer := short_answer best_match;
                ad_legal_reference := legal_reference best_match;
                ad_legal_url := legal_url best_match;
                ad_block := block best_match;
                ad_current_as_of := current_as_of best_match;
                ad_similarity_score := similarity;
                ad_url_valid := url_valid;
                ad_url_status := url_status |}
  end.

(** [government_domains] of [_is_government_source], in source order. *)
Definition government_domains : list str :=
  (map py ["kremlin.ru"; "government.ru"; "duma.gov.ru"; "council.gov.ru";
    "minjust.gov.ru"; "mintrud.gov.ru"; "rostrud.gov.ru"; "gks.ru";
    "consultant.ru"; "pravo.gov.ru"; "fzrf.sudrf.ru"; "docs.cntd.ru";
    "rulaws.ru"; "zakonrf.info"; "fstec.ru"; "fsb.ru"; "mvd.ru";
    "rosgvard.ru"; "gost.ru"; "rospotrebnadzor.ru"; "roszdravnadzor.gov.ru";
    "gost.ru"; "minzdrav.gov.ru"; "edu.gov.ru"; "minobrnauki.gov.ru"])%string.

(** [KnowledgeBase._is_government_source]. *)
Definition is_government_source (url : str) : bool :=
  match url with
  | [] => false
  | _ =>
      let url_lower := py_lower url in
      if existsb (fun domain => contains domain url_lower) government_domains then true
      else if contains (py ".gov.ru") url_lower then true
      else if existsb (fun keyword => contains keyword url_lower)
                [py "pravo.gov.ru"; py "fzrf.sudrf.ru"] then true
      else false
  end.

(** The decimal digits, which [\d] matches in a [str] pattern: the code
    points of Unicode category Nd. *)
Definition digit_ranges : list (Z * Z) :=
[
  (48, 57); (1632, 1641); (1776, 1785); (1984, 1993); (2406, 2415); (2534, 2543); (2662, 2671); (2790, 2799);
  (2918, 2927); (3046, 3055); (3174, 3183); (3302, 3311); (3430, 3439); (3558, 3567); (3664, 3673); (3792, 3801);
  (3872, 3881); (4160, 4169); (4240, 4249); (6112, 6121); (6160, 6169); (6470, 6479); (6608, 6617); (6784, 6793);
  (6800, 6809); (6992, 7001); (7088, 7097); (7232, 7241); (7248, 7257); (42528, 42537); (43216, 43225); (43264, 43273);
  (43472, 43481); (43504, 43513); (43600, 43609); (44016, 44025); (65296, 65305); (66720, 66729); (68912, 68921); (69734, 69743);
  (69872, 69881); (69942, 69951); (70096, 70105); (70384, 70393); (70736, 70745); (70864, 70873); (71248, 71257); (71360, 71369);
  (71472, 71481); (71904, 71913); (72016, 72025); (72784, 72793); (73040, 73049); (73120, 73129); (92768, 92777); (92864, 92873);
  (93008, 93017); (120782, 120831); (123200, 123209); (123632, 123641); (125264, 125273); (130032, 130041)].

(** The regular expression [ст\.\s*(\d+(?:\.\d+)?)] of
    [_extract_article_number]. *)
Definition is_digit (c : Z) : bool := in_ranges digit_ranges c.

Fixpoint span_digits (s : str) : str * str :=
  match s with
  | c :: r => if is_digit c then let '(d, rest) := span_digits r in (c :: d, rest) else ([], s)
  | [] => ([], [])
  end.

Fixpoint drop_spaces (s : str) : str :=
  match s with
  | c :: r => if is_space c then drop_spaces r else s
  | [] => []
  end.

(** Group 1 of a match starting exactly at the head of [s]. *)
Definition article_match_at (s : str) : option str :=
  if is_prefix (py "ст.") s then
    let '(d, r) := span_digits (drop_spaces (skipn 3 s)) in
    match d with
    | [] => None
    | _ =>
        match r with
        | 46 :: r' =>
            let '(d2, _) := span_digits r' in
            match d2 with [] => Some d | _ => Some (d ++ 46 :: d2) end
        | _ => Some d
        end
    end
  else None.

(** [re.search]: the leftmost position where the pattern matches. *)
Fixpoint article_search (s : str) : option str :=
  match article_match_at s with
  | Some g => Some g
  | None => match s with [] => None | _ :: s' => article_search s' end
  end.

(** [KnowledgeBase._extract_article_number]. *)
Definition extract_article_number (legal_ref : str) : str :=
  match article_search legal_ref with
  | Some article_num => py "st-" ++ article_num
  | None => []
  end.

(** [format(x, '.0%')]: [100 * x] rounded half to even. *)
Definition round_half_even (q : Q) : Z :=
  let fl := Qfloor q in
  let frac := (q - inject_Z fl)%Q in
  if Qlt_bool (1 # 2) frac then fl + 1
  else if Qeq_bool frac (1 # 2) then (if Z.even fl then fl else fl + 1)
  else fl.

Definition format_percent0 (q : Q) : str :=
  py_str_int (round_half_even (100 * q)%Q) ++ py "%".

(** [str(answer_data.get('url_status', 'N/A'))]: the key is always present,
    so [None] prints as [None]. *)
Definition show_status (s : option Z) : str :=
  match s with Some c => py_str_int c | None => py "None" end.

Definition advisory_line : str :=
  py "<i>ℹ️ Для получения актуальной информации обратитесь к официальным источникам</i>".

Definition legal_ref_line (legal_ref : str) : str := py "<b>Правовая база:</b> " ++ legal_ref.

(** The lines [text_parts] of [format_answer_for_user]. *)
Definition format_lines (answer_data : AnswerData) : list str :=
  let legal_ref := ad_legal_reference answer_data in
  let legal_url := ad_legal_url answer_data in
  let legal_part :=
    if negb (bool_decide (legal_ref = [])) && contains (py "ТК РФ") legal_ref then
      let article_match := extract_article_number legal_ref in
      if negb (bool_decide (article_match = [])) then
        let correct_url := py "https://www.consultant.ru/document/cons_doc_LAW_34683/"
                           ++ article_match ++ py "/" in
        [legal_ref_line legal_ref; py "✅ <b>Ссылка:</b> " ++ correct_url]
      else [legal_ref_line legal_ref; advisory_line]
    else if negb (bool_decide (legal_url = [])) && is_government_source legal_url then
      let url_emoji := if bool_decide (ad_url_valid answer_data = Some true)
                       then py "✅" else py "⚠️" in
      [legal_ref_line legal_ref; url_emoji ++ py " <b>Ссылка:</b> " ++ legal_url]
      ++ (if bool_decide (ad_url_valid answer_data = Some false)
          then [py "<i>⚠️ Внимание: ссылка может быть недоступна (код "
                ++ show_status (ad_url_status answer_data) ++ py ")</i>"]
          else [])
    else if negb (bool_decide (legal_ref = [])) then
      [legal_ref_line legal_ref; advisory_line]
    else [advisory_line] in
  [py "📚 <b>Найдено в базе знаний</b>";
   py "<b>Категория:</b> " ++ ad_block answer_data;
   [];
   py "<b>Вопрос:</b> " ++ ad_question answer_data;
   [];
   py "<b>Ответ:</b> " ++ ad_answer answer_data;
   []]
  ++ legal_part
  ++ [[];
      py "<i>Актуально на: " ++ ad_current_as_of answer_data ++ py "</i>";
      py "<i>Степень совпадения: " ++ format_percent0 (ad_similarity_score answer_data)
        ++ py "</i>"].

(** [KnowledgeBase.format_answer_for_user]: ["\n".join(text_parts)]. *)
Definition format_answer_for_user (answer_data : AnswerData) : str :=
  py_join nl (format_lines answer_data).

(** Outcome of reading the FAQ file in [_load_faq]. *)
Inductive load_outcome :=
| FileMissing                      (* [not self.faq_file_path.exists()] *)
| LoadError                        (* [open] or [json.load] raised *)
| Loaded (data : list FAQEntry).   (* [json.load] returned the corpus *)

(** [KnowledgeBase._load_faq] on the current [faq_data]: both failures are
    logged and leave [faq_data] as it was; every exception is caught. *)
Definition load_faq (faq_data : list FAQEntry) (src : load_outcome) : list FAQEntry :=
  match src with
  | FileMissing => faq_data
  | LoadError => faq_data
  | Loaded data => data
  end.

(** [KnowledgeBase.__init__]: [faq_data = []], then [_load_faq()]. *)
Definition init (src : load_outcome) : list FAQEntry := load_faq [] src.

(** [KnowledgeBase.reload_faq]. *)
Definition reload_faq (faq_data : list FAQEntry) (src : load_outcome) : list FAQEntry :=
  load_faq faq_data src.

(** [KnowledgeBase.get_all_questions]. *)
Definition get_all_questions (faq_data : list FAQEntry) : list str := map question faq_data.

(** [KnowledgeBase.get_questions_by_block]. *)
Definition get_questions_by_block (faq_data : list FAQEntry) (block_name : str)
    : list FAQEntry :=
  List.filter (fun item => bool_decide (block item = block_name)) faq_data.

(** Python's [<] on [str]: lexicographic order of the code points. *)
Fixpoint str_ltb (a b : str) : bool :=
  match a, b with
  | [], [] => false
  | [], _ :: _ => true
  | _ :: _, [] => false
  | x :: a', y :: b' => (x <? y) || ((x =? y) && str_ltb a' b')
  end.

(** [set(...)] built by iteration: an element is added when absent. The
    order of the set is immaterial to [sorted], whose result is fixed by
    its elements. *)
Definition py_set_of (l : list str) : list str :=
  fold_left (fun acc x => if existsb (fun y => bool_decide (y = x)) acc then acc
                          else acc ++ [x]) l [].

Fixpoint insert_str (x : str) (l : list str) : list str :=
  match l with
  | [] => [x]
  | y :: r => if str_ltb y x then y :: insert_str x r else x :: l
  end.

(** [sorted(...)]. *)
Definition py_sorted_str (l : list str) : list str := fold_right insert_str [] l.

(** [KnowledgeBase.get_blocks]. *)
Definition get_blocks (faq_data : list FAQEntry) : list str :=
  py_sorted_str (py_set_of (map block faq_data)).

(** The value of ['blocks'] in [get_statistics]: a list for the empty
    corpus, a dictionary (insertion ordered) otherwise. *)
Inductive stats_blocks :=
| BlocksList (l : list str)
| BlocksDict (d : list (str * Z)).

Record Statistics := {
  total_questions : Z;
  stat_blocks : stats_blocks;
  questions_with_urls : Z;
  questions_without_urls : Z
}.

(** [blocks[block] = blocks.get(block, 0) + 1] on an insertion-ordered
    dictionary. *)
Fixpoint dict_incr (d : list (str * Z)) (k : str) : list (str * Z) :=
  match d with
  | [] => [(k, 1)]
  | (k', v) :: r => if bool_decide (k' = k) then (k', v + 1) :: r else (k', v) :: dict_incr r k
  end.

(** [item.get('legal_url') and item['legal_url'].strip()]. *)
Definition has_url (item : FAQEntry) : bool :=
  negb (bool_decide (legal_url item = [])) && negb (is_blank (legal_url item)).

(** [KnowledgeBase.get_statistics]. *)
Definition get_statistics (faq_data : list FAQEntry) : Statistics :=
  match faq_data with
  | [] => {| total_questions := 0; stat_blocks := BlocksList [];
             questions_with_urls := 0; questions_without_urls := 0 |}
  | _ =>
      let '(blocks, urls_count) :=
        fold_left (fun '(blocks, urls_count) item =>
                     (dict_incr blocks (block item),
                      if has_url item then urls_count + 1 else urls_count))
                  faq_data ([], 0) in
      {| total_questions := Z.of_nat (length faq_data);
         stat_blocks := BlocksDict blocks;
         questions_with_urls := urls_count;
         questions_without_urls := Z.of_nat (length faq_data) - urls_count |}
  end.

End KB.

(* ------------------------------------------------------------------ *)
(** ** RateLimiter (src/utils/rate_limiter.py) *)

Module RL.

(** [@dataclass RateLimit]. *)
Record RateLimit := {
  max_requests : Z;
  window_seconds : Z;
  name : str
}.

Definition question_limit : RateLimit :=
  {| max_requests := 10; window_seconds := 60; name := py "обычные вопросы" |}.
Definition assistant_question_limit : RateLimit :=
  {| max_requests := 5; window_seconds := 60; name := py "вопросы к нейроассистенту" |}.
Definition expand_answer_limit : RateLimit :=
  {| max_requests := 3; window_seconds := 60; name := py "расширенные ответы" |}.
Definition global_limit : RateLimit :=
  {| max_requests := 20; window_seconds := 300; name := py "все запросы" |}.

Definition GLOBAL : str := py "global".

(** [self.limits], fixed by [__init__]: [self.limits[limit_type]], or
    [None] when [limit_type not in self.limits]. *)
Definition limits (limit_type : str) : option RateLimit :=
  if bool_decide (limit_type = py "question") then Some question_limit
  else if bool_decide (limit_type = py "assistant_question") then Some assistant_question_limit
  else if bool_decide (limit_type = py "expand_answer") then Some expand_answer_limit
  else if bool_decide (limit_type = GLOBAL) then Some global_limit
  else None.

(** [self.request_history]: [{user_id: {limit_name: [timestamp, ...]}}]. *)
Abbreviation History := (gmap Z (gmap str (list Z))).

(** Records written through the module's [logger]. *)
Inductive log_entry :=
| LogInfo (msg : str)
| LogWarning (msg : str)
| LogDebug (msg : str).

(** A Python call either returns or raises. *)
Inductive py_result (A : Type) :=
| Ok (v : A)
| Raise (exc : str).
Arguments Ok {A} v.
Arguments Raise {A} exc.

(** Microseconds per second: [timedelta(seconds=s)] is [s * usec]. *)
Definition usec : Z := 1000000.

(** [self.request_history[user_id][limit_type]], the empty list when one of
    the keys is absent. *)
Definition hist (h : History) (user_id : Z) (limit_type : str) : list Z :=
  match h !! user_id with
  | Some uh => match uh !! limit_type with Some l => l | None => [] end
  | None => []
  end.

(** Store [l] as [self.request_history[user_id][limit_type]], creating the
    user's dictionary and the list when absent. *)
Definition set_hist (h : History) (user_id : Z) (limit_type : str) (l : list Z) : History :=
  let uh := match h !! user_id with Some uh => uh | None => ∅ end in
  <[user_id := <[limit_type := l]> uh]> h.

(** [[ts for ts in history if ts > cutoff_time]]. *)
Definition purge (cutoff : Z) (l : list Z) : list Z := List.filter (fun ts => cutoff <? ts) l.

Definition limit_message (limit : RateLimit) (wait_seconds : Z) : str :=
  py "⏱ <b>Превышен лимит запросов!</b>" ++ nl ++ nl
  ++ py "Тип: " ++ name limit ++ nl
  ++ py "Лимит: " ++ py_str_int (max_requests limit) ++ py " запросов за "
  ++ py_str_int (window_seconds limit / 60) ++ py " мин." ++ nl
  ++ py "Попробуйте через: " ++ py_str_int wait_seconds ++ py " сек.".

(** [RateLimiter._check_specific_limit] at time [now] ([datetime.now()]).
    [int((wait_until - now).total_seconds())] truncates toward zero; the
    float [total_seconds()] of a whole number of microseconds below 2^53 is
    never rounded across an integer, so the truncation is [Z.quot]. *)
Definition check_specific_limit (user_id : Z) (limit_type : str) (now : Z) (h : History)
    : py_result (bool * option str) * History * list log_entry :=
  match limits limit_type with
  | None => (Ok (true, None), h, [LogWarning (py "Неизвестный тип лимита: " ++ limit_type)])
  | Some limit =>
      let cutoff_time := now - window_seconds limit * usec in
      let history := purge cutoff_time (hist h user_id limit_type) in
      let h' := set_hist h user_id limit_type history in
      if max_requests limit <=? Z.of_nat (length history) then
        match history with
        | [] => (Raise (py "IndexError"), h', [])
        | oldest_request :: _ =>
            let wait_until := oldest_request + window_seconds limit * usec in
            let wait_seconds := Z.quot (wait_until - now) usec + 1 in
            (Ok (false, Some (limit_message limit wait_seconds)), h',
             [LogWarning (py "Rate limit exceeded: user_id=" ++ py_str_int user_id
                          ++ py ", limit_type=" ++ limit_type
                          ++ py ", wait=" ++ py_str_int wait_seconds ++ py "s")])
        end
      else (Ok (true, None), h', [])
  end.

(** [RateLimiter.check_rate_limit]. Both policy checks read the clock at
    the same instant [now]. *)
Definition check_rate_limit (user_id : Z) (limit_type : str) (check_global : bool)
    (now : Z) (h : History) : py_result (bool * option str) * History * list log_entry :=
  let '(r, h1, l1) := check_specific_limit user_id limit_type now h in
  match r with
  | Raise e => (Raise e, h1, l1)
  | Ok (false, message) => (Ok (false, message), h1, l1)
  | Ok (true, _) =>
      if check_global then
        let '(r2, h2, l2) := check_specific_limit user_id GLOBAL now h1 in
        match r2 with
        | Raise e => (Raise e, h2, l1 ++ l2)
        | Ok (false, message) => (Ok (false, message), h2, l1 ++ l2)
        | Ok (true, _) => (Ok (true, None), h2, l1 ++ l2)
        end
      else (Ok (true, None), h1, l1)
  end.

(** [RateLimiter.record_request] at time [now]. *)
Definition record_request (user_id : Z) (limit_type : str) (record_global : bool)
    (now : Z) (h : History) : History * list log_entry :=
  let h1 := set_hist h user_id limit_type (hist h user_id limit_type ++ [now]) in
  let h2 := if record_global then set_hist h1 user_id GLOBAL (hist h1 user_id GLOBAL ++ [now])
            else h1 in
  (h2, [LogDebug (py "Request recorded: user_id=" ++ py_str_int user_id
                  ++ py ", limit_type=" ++ limit_type)]).

(** [RateLimiter.get_remaining_requests] at time [now]. *)
Definition get_remaining_requests (user_id : Z) (limit_type : str) (now : Z) (h : History)
    : Z * History :=
  match limits limit_type with
  | None => (0, h)
  | Some limit =>
      match h !! user_id with
      | None => (max_requests limit, h)
      | Some uh =>
          match uh !! limit_type with
          | None => (max_requests limit, h)
          | Some history =>
              let cutoff_time := now - window_seconds limit * usec in
              let history' := purge cutoff_time history in
              (Z.max 0 (max_requests limit - Z.of_nat (length history')),
               <[user_id := <[limit_type := history']> uh]> h)
          end
      end
  end.

(** [RateLimiter.clear_user_history]. *)
Definition clear_user_history (user_id : Z) (h : History) : History * list log_entry :=
  match h !! user_id with
  | Some _ => (delete user_id h,
               [LogInfo (py "Cleared rate limit history for user " ++ py_str_int user_id)])
  | None => (h, [])
  end.

(** [datetime.min] (0001-01-01 00:00) and [datetime.max]
    (9999-12-31 23:59:59.999999) in microseconds from 1970-01-01 00:00. *)
Definition datetime_min : Z := -62135596800 * usec.
Definition datetime_max : Z := 253402300799 * usec + 999999.

(** [cutoff_time = now - timedelta(days=days)] raises [OverflowError]:
    [timedelta] accepts [days] of magnitude at most 999999999, and the
    difference must be a datetime between [datetime.min] and
    [datetime.max]. *)
Definition cleanup_overflows (days : Z) (now : Z) : bool :=
  let cutoff_time := now - days * 86400 * usec in
  (999999999 <? Z.abs days)
  || negb ((datetime_min <=? cutoff_time) && (cutoff_time <=? datetime_max)).

(** [RateLimiter.cleanup_old_history] at time [now]: the cutoff is
    computed before any list is touched, so an [OverflowError] leaves the
    history as it was; otherwise purge every list, then delete the users
    whose lists are all empty. *)
Definition cleanup_old_history (days : Z) (now : Z) (h : History)
    : py_result unit * History * list log_entry :=
  if cleanup_overflows days now then (Raise (py "OverflowError"), h, [])
  else
  let cutoff_time := now - days * 86400 * usec in
  let h1 : History := (fun uh : gmap str (list Z) => purge cutoff_time <$> uh) <$> h in
  let kept : History := filter (fun kv : Z * gmap str (list Z) =>
                                  ~ map_Forall (fun _ l => l = []) kv.2) h1 in
  let removed := (size h1 - size kept)%nat in
  (Ok tt, kept,
   if (removed =? 0)%nat then []
   else [LogInfo (py "Cleaned up rate limit history for " ++ py_str_int (Z.of_nat removed)
                  ++ py " users")]).

(** [RateLimiter()]: an empty history. *)
Definition empty_history : History := ∅.

(** A sequence of [record_request(user_id, limit_type)] calls (default
    [record_global=True]) at the given times. *)
Definition record_all (user_id : Z) (limit_type : str) (times : list Z) (h : History) : History :=
  fold_left (fun acc t => fst (record_request user_id limit_type true t acc)) times h.

Definition result_of {A B C} (x : A * B * C) : A := fst (fst x).
Definition history_of {A B C} (x : A * B * C) : B := snd (fst x).

(** The request gate of the bot's handlers ([process_question] with
    ["question"], [process_assistant_question] with
    ["assistant_question"], the expand-answer callbacks with
    ["expand_answer"]): [check_rate_limit(user_id, limit_type)]; when it
    refuses, the handler answers with the message and stops; otherwise it
    calls [record_request(user_id, limit_type)]. Nothing is awaited between
    the two calls; both are given the same instant [now] of the request. *)
Definition handle_request (user_id : Z) (limit_type : str) (now : Z) (h : History)
    : py_result bool * History :=
  let '(r, h1, _) := check_rate_limit user_id limit_type true now h in
  match r with
  | Ok (true, _) => (Ok true, fst (record_request user_id limit_type true now h1))
  | Ok (false, _) => (Ok false, h1)
  | Raise e => (Raise e, h1)
  end.

(** A request: the user, the category and the time of [datetime.now()]. *)
Record request := { req_user : Z; req_type : str; req_time : Z }.

(** The requests admitted by the gate, in order, and the final history. *)
Fixpoint run_requests (reqs : list request) (h : History) : list request * History :=
  match reqs with
  | [] => ([], h)
  | r :: rest =>
      let '(res, h1) := handle_request (req_user r) (req_type r) (req_time r) h in
      let '(admitted, h2) := run_requests rest h1 in
      (match res with Ok true => r :: admitted | _ => admitted end, h2)
  end.

End RL.

(* ================================================================== *)
(** * Proofs *)

(* ------------------------------------------------------------------ *)
(** ** A sequence matched against itself *)

Module SelfMatch.
Import SequenceMatcher.

Section Self.
Variable s : str.

Local Abbreviation n := (length s).

(** [b2j] of [s] does not contain [c]. *)
Local Definition nonpop (c : Z) : bool := negb (bjunk c || bpopular s c).

(** The cell [(i, j)] of the dynamic programme extends a run: [a[i] == b[j]]
    and [b[j]] is kept in [b2j]. *)
Local Definition hit (i j : nat) : bool :=
  (i <? n)%nat && (j <? n)%nat && (nth i s 0 =? nth j s 0) && nonpop (nth j s 0).

(** Length of the run of kept, equal elements ending at [(i, j)]. *)
Fixpoint run (i j : nat) {struct i} : nat :=
  if hit i j then match i, j with S i', S j' => S (run i' j') | _, _ => 1%nat end else O.

(** The value [j2len.get(x, 0)] holds before row [i]. *)
Local Definition prevrow (i x : nat) : nat := match i with O => O | S i' => run i' x end.

Lemma indices_from_ge c b k x : In x (indices_from c b k) -> (k <= x)%nat.
Proof.
  revert k. induction b as [|y b IH]; simpl; intros k H; [done|].
  destruct (y =? c); [destruct H as [<-|H]; [lia|]|]; apply IH in H; lia.
Qed.

Lemma indices_from_sorted c b k : StronglySorted lt (indices_from c b k).
Proof.
  revert k. induction b as [|y b IH]; simpl; intros k; [constructor|].
  destruct (y =? c); [|apply IH].
  constructor; [apply IH|]. apply List.Forall_forall. intros x Hx.
  apply indices_from_ge in Hx. lia.
Qed.

Lemma indices_from_spec c b k x :
  In x (indices_from c b k) <-> (k <= x)%nat /\ (x < k + length b)%nat /\ nth (x - k) b 0 = c.
Proof.
  revert k. induction b as [|y b IH]; simpl; intros k.
  - split; [done|lia].
  - destruct (Z.eqb_spec y c) as [->|Hne].
    + simpl. rewrite IH. split.
      * intros [<-|(H1 & H2 & H3)]; [rewrite Nat.sub_diag; lia|].
        split; [lia|]. split; [lia|]. replace (x - k)%nat with (S (x - S k)) by lia. done.
      * intros (H1 & H2 & H3). destruct (decide (x = k)) as [->|Hxk]; [by left|right].
        split; [lia|]. split; [lia|].
        replace (x - k)%nat with (S (x - S k)) in H3 by lia. done.
    + rewrite IH. split.
      * intros (H1 & H2 & H3). split; [lia|]. split; [lia|].
        replace (x - k)%nat with (S (x - S k)) by lia. done.
      * intros (H1 & H2 & H3). destruct (decide (x = k)) as [->|Hxk].
        { rewrite Nat.sub_diag in H3. congruence. }
        split; [lia|]. split; [lia|].
        replace (x - k)%nat with (S (x - S k)) in H3 by lia. done.
Qed.

Lemma b2j_get_spec c j :
  In j (b2j_get s c) <-> (j < n)%nat /\ nth j s 0 = c /\ nonpop c = true.
Proof.
  unfold b2j_get, nonpop. destruct (bjunk c || bpopular s c); simpl.
  - split; [done|]. intros (_ & _ & H). done.
  - rewrite indices_from_spec, Nat.sub_0_r. naive_solver lia.
Qed.

Lemma hit_true_iff i j :
  hit i j = true <-> (i < n)%nat /\ (j < n)%nat /\ nth i s 0 = nth j s 0 /\ nonpop (nth j s 0) = true.
Proof.
  unfold hit. rewrite !andb_true_iff, !Nat.ltb_lt, Z.eqb_eq. tauto.
Qed.

Lemma run_le_diag_r i j : (run i j <= run j j)%nat.
Proof.
  revert j. induction i as [|i IH]; intros j; simpl.
  - destruct (hit 0 j) eqn:H; [|lia].
    apply hit_true_iff in H as (_ & Hj & _ & Hp).
    destruct j; simpl; (replace (hit _ _) with true; [lia|]); symmetry;
      apply hit_true_iff; done.
  - destruct (hit (S i) j) eqn:H; [|lia].
    pose proof H as H'.
    apply hit_true_iff in H as (_ & Hj & _ & Hp).
    assert (Hd : hit j j = true) by (apply hit_true_iff; done).
    destruct j as [|j]; simpl; rewrite Hd; [lia|]. specialize (IH j). lia.
Qed.

Lemma run_le_diag_l i j : (run i j <= run i i)%nat.
Proof.
  revert j. induction i as [|i IH]; intros j; simpl.
  - destruct (hit 0 j) eqn:H; [|lia].
    apply hit_true_iff in H as (Hi & _ & Heq & Hp).
    replace (hit 0 0) with true; [destruct j; lia|].
    symmetry. apply hit_true_iff. rewrite Heq. done.
  - destruct (hit (S i) j) eqn:H; [|lia].
    apply hit_true_iff in H as (Hi & _ & Heq & Hp).
    replace (hit (S i) (S i)) with true.
    2:{ symmetry. apply hit_true_iff. rewrite Heq. done. }
    destruct j as [|j]; [lia|]. specialize (IH j). lia.
Qed.

Lemma run_le_succ i j : (run i j <= S i)%nat.
Proof.
  revert j. induction i as [|i IH]; intros j; simpl.
  - destruct (hit 0 j); [destruct j|]; lia.
  - destruct (hit (S i) j); [destruct j as [|j]; [|specialize (IH j)]|]; lia.
Qed.

(** The length [k] computed at a cell of row [i]. *)
Lemma cell_length i j2len j :
  (i < n)%nat -> (forall x, (x < n)%nat -> j2len x = prevrow i x) ->
  In j (b2j_get s (nth i s 0)) ->
  (match j with O => O | S j' => j2len j' end + 1)%nat = run i j.
Proof.
  intros Hi HJ Hin. apply b2j_get_spec in Hin as (Hj & Heq & Hp).
  assert (Hh : hit i j = true) by (apply hit_true_iff; rewrite Heq; done).
  destruct i as [|i]; simpl; rewrite Hh; destruct j as [|j]; try lia.
  - rewrite HJ by lia. simpl. lia.
  - rewrite HJ by lia. simpl. lia.
Qed.

Lemma inner_j2len i j2len l nj best :
  (forall j, In j l -> (j < n)%nat) ->
  forall x, fst (flm_inner O n i j2len l nj best) x
            = if existsb (Nat.eqb x) l then (match x with O => O | S x' => j2len x' end + 1)%nat
              else nj x.
Proof.
  revert nj best. induction l as [|j l IH]; intros nj best Hl x; simpl; [done|].
  assert (Hj : (j < n)%nat) by (apply Hl; by left).
  replace (j <? 0)%nat with false by (symmetry; apply Nat.ltb_ge; lia).
  replace (n <=? j)%nat with false by (symmetry; apply Nat.leb_gt; lia).
  destruct best as [[bi bj] bs].
  assert (IH' : forall nj' best', fst (flm_inner O n i j2len l nj' best') x
     = if existsb (Nat.eqb x) l then (match x with O => O | S x' => j2len x' end + 1)%nat
       else nj' x) by (intros; apply IH; intros; apply Hl; by right).
  destruct (bs <? _)%nat; rewrite IH'; destruct (Nat.eqb_spec x j) as [->|]; simpl;
    destruct (existsb _ l); done.
Qed.

(** The row invariant on [(besti, bestj, bestsize)] before row [i]. *)
Local Definition best_inv (i : nat) (best : nat * nat * nat) : Prop :=
  let '(bi, bj, bs) := best in
  bi = bj /\ (bi + bs <= i)%nat /\ (forall i', (i' < i)%nat -> (run i' i' <= bs)%nat).

Local Definition best_inv' (i : nat) (best : nat * nat * nat) : Prop :=
  let '(bi, bj, bs) := best in
  bi = bj /\ (bi + bs <= S i)%nat /\ (forall i', (i' < i)%nat -> (run i' i' <= bs)%nat).

Lemma inner_no_update i j2len l nj best :
  (i < n)%nat -> (forall x, (x < n)%nat -> j2len x = prevrow i x) ->
  (forall j, In j l -> In j (b2j_get s (nth i s 0))) ->
  (run i i <= best.2)%nat ->
  snd (flm_inner O n i j2len l nj best) = best.
Proof.
  intros Hi HJ. revert nj. induction l as [|j l IH]; intros nj Hl Hb; simpl; [done|].
  assert (Hin : In j (b2j_get s (nth i s 0))) by (apply Hl; by left).
  pose proof Hin as Hj. apply b2j_get_spec in Hj as (Hj & _).
  replace (j <? 0)%nat with false by (symmetry; apply Nat.ltb_ge; lia).
  replace (n <=? j)%nat with false by (symmetry; apply Nat.leb_gt; lia).
  rewrite (cell_length i j2len j Hi HJ Hin).
  pose proof (run_le_diag_l i j).
  destruct best as [[bi bj] bs]. simpl in Hb.
  replace (bs <? run i j)%nat with false by (symmetry; apply Nat.ltb_ge; lia).
  apply IH; [intros; apply Hl; by right|done].
Qed.

Lemma inner_best i j2len l nj best :
  (i < n)%nat -> (forall x, (x < n)%nat -> j2len x = prevrow i x) ->
  (forall j, In j l -> In j (b2j_get s (nth i s 0))) ->
  StronglySorted lt l -> (In i l \/ run i i = O) ->
  best_inv' i best ->
  best_inv' i (snd (flm_inner O n i j2len l nj best))
  /\ (run i i <= (snd (flm_inner O n i j2len l nj best)).2)%nat.
Proof.
  intros Hi HJ. revert nj best. induction l as [|j l IH]; intros nj best Hl Hs Hii Hb.
  { simpl. destruct Hii as [Hf| ->]; [destruct Hf|]. destruct best as [[bi bj] bs]. split; [done|simpl; lia]. }
  assert (Hin : In j (b2j_get s (nth i s 0))) by (apply Hl; by left).
  pose proof Hin as Hj. apply b2j_get_spec in Hj as (Hj & _).
  apply StronglySorted_inv in Hs as [Hs Hall].
  assert (Hrest : forall j', In j' l -> In j' (b2j_get s (nth i s 0)))
    by (intros; apply Hl; by right).
  destruct (lt_eq_lt_dec j i) as [[Hlt| ->]|Hgt].
  - (* a cell left of the diagonal cannot beat the diagonal of row [j] *)
    simpl.
    replace (j <? 0)%nat with false by (symmetry; apply Nat.ltb_ge; lia).
    replace (n <=? j)%nat with false by (symmetry; apply Nat.leb_gt; lia).
    rewrite (cell_length i j2len j Hi HJ Hin).
    destruct best as [[bi bj] bs]. pose proof Hb as (_ & _ & Hd).
    pose proof (run_le_diag_r i j). specialize (Hd j Hlt).
    replace (bs <? run i j)%nat with false by (symmetry; apply Nat.ltb_ge; lia).
    apply IH; [done|done| |done].
    destruct Hii as [[Heq|Hin']|Hz]; [lia|by left|by right].
  - (* the diagonal cell *)
    simpl.
    replace (i <? 0)%nat with false by (symmetry; apply Nat.ltb_ge; lia).
    replace (n <=? i)%nat with false by (symmetry; apply Nat.leb_gt; lia).
    rewrite (cell_length i j2len i Hi HJ Hin).
    destruct best as [[bi bj] bs]. pose proof Hb as (Hij & Hle & Hd).
    pose proof (run_le_succ i i).
    destruct (Nat.ltb_spec bs (run i i)).
    + rewrite inner_no_update; [|done|done|done|simpl; lia].
      split; [|simpl; lia]. split; [done|]. split; [lia|].
      intros i' Hi'. specialize (Hd i' Hi'). lia.
    + rewrite inner_no_update; [|done|done|done|simpl; lia].
      split; [done|simpl; lia].
  - (* past the diagonal: row [i] has no diagonal cell *)
    assert (Hz : run i i = O).
    { destruct Hii as [[Heq|Hin']|Hz]; [lia| |done].
      rewrite List.Forall_forall in Hall. specialize (Hall i Hin'). lia. }
    rewrite inner_no_update; [|done|done|done|destruct best as [[bi0 bj0] bs0]; simpl; lia].
    split; [done|rewrite Hz; lia].
Qed.

Lemma b2j_sorted c : StronglySorted lt (b2j_get s c).
Proof. unfold b2j_get. destruct (_ || _); [constructor|apply indices_from_sorted]. Qed.

Lemma diag_in_or_zero i : (i < n)%nat -> In i (b2j_get s (nth i s 0)) \/ run i i = O.
Proof.
  intros Hi. destruct (nonpop (nth i s 0)) eqn:Hp.
  - left. apply b2j_get_spec. done.
  - right. assert (Hh : hit i i = false).
    { apply not_true_iff_false. rewrite hit_true_iff. intros (_ & _ & _ & H). congruence. }
    destruct i; simpl; rewrite Hh; done.
Qed.

Lemma row_j2len i j2len best x :
  (i < n)%nat -> (forall x, (x < n)%nat -> j2len x = prevrow i x) -> (x < n)%nat ->
  fst (flm_inner O n i j2len (b2j_get s (nth i s 0)) (fun _ => O) best) x = run i x.
Proof.
  intros Hi HJ Hx. rewrite inner_j2len by (intros j Hj; apply b2j_get_spec in Hj; lia).
  destruct (existsb (Nat.eqb x) _) eqn:E.
  - apply existsb_exists in E as (j & Hj & Hxj). apply Nat.eqb_eq in Hxj; subst j.
    apply cell_length; done.
  - destruct (hit i x) eqn:Hh.
    + exfalso. apply hit_true_iff in Hh as (_ & _ & Heq & Hp).
      assert (Hin : In x (b2j_get s (nth i s 0))) by (apply b2j_get_spec; rewrite Heq; done).
      assert (existsb (Nat.eqb x) (b2j_get s (nth i s 0)) = true)
        by (apply existsb_exists; exists x; split; [done|apply Nat.eqb_refl]).
      congruence.
    + destruct i; simpl; rewrite Hh; done.
Qed.

Lemma rows_best cnt i j2len best :
  (i + cnt = n)%nat -> (forall x, (x < n)%nat -> j2len x = prevrow i x) ->
  best_inv i best -> best_inv n (flm_rows s s O n i cnt j2len best).
Proof.
  revert i j2len best. induction cnt as [|cnt IH]; intros i j2len best Hc HJ Hb; simpl.
  { replace n with i by lia. done. }
  assert (Hi : (i < n)%nat) by lia.
  assert (Hbi' : best_inv' i best) by (destruct best as [[bi0 bj0] bs0]; simpl in *; naive_solver lia).
  pose proof (inner_best i j2len (b2j_get s (nth i s 0)) (fun _ => O) best Hi HJ
                (fun j H => H) (b2j_sorted _) (diag_in_or_zero i Hi) Hbi') as [H1 H2].
  pose proof (row_j2len i j2len best) as H3.
  destruct (flm_inner O n i j2len (b2j_get s (nth i s 0)) (fun _ => O) best) as [nj best'] eqn:E.
  simpl in H1, H2, H3. apply IH; [lia| |].
  - intros x Hx. unfold prevrow. apply H3; done.
  - destruct best' as [[bi bj] bs]. simpl in *. destruct H1 as (? & ? & Hd).
    split; [done|]. split; [lia|]. intros i' Hi'.
    destruct (decide (i' = i)) as [->|]; [done|apply Hd; lia].
Qed.

Lemma flm_rows_self : best_inv n (flm_rows s s O n O n (fun _ => O) (O, O, O)).
Proof.
  apply rows_best; [lia|intros; done|]. simpl. split; [done|]. split; [lia|]. intros; lia.
Qed.

Lemma extend_left_self fuel d m :
  (d < fuel)%nat -> extend_left fuel s s O O false (d, d, m) = (O, O, (d + m)%nat).
Proof.
  revert fuel m. induction d as [|d IH]; intros [|fuel] m Hf; try lia; simpl; [done|].
  replace (d - 0)%nat with d by lia. rewrite Z.eqb_refl. simpl.
  rewrite IH by lia. f_equal. lia.
Qed.

Lemma extend_right_self fuel m :
  (m <= n)%nat -> (n - m < fuel)%nat -> extend_right fuel s s n n false (O, O, m) = (O, O, n).
Proof.
  revert m. induction fuel as [|fuel IH]; intros m Hm Hf; [lia|]. simpl.
  destruct (Nat.ltb_spec m n).
  - rewrite Z.eqb_refl. simpl. apply IH; lia.
  - simpl. f_equal. lia.
Qed.

Lemma find_longest_match_self : find_longest_match s s O n O n = (O, O, n).
Proof.
  unfold find_longest_match. rewrite Nat.sub_0_r.
  pose proof flm_rows_self as H.
  destruct (flm_rows s s O n O n (fun _ => O) (O, O, O)) as [[bi bj] bs].
  destruct H as (<- & Hle & _).
  rewrite extend_left_self by lia. rewrite extend_right_self by lia.
  simpl. rewrite Nat.ltb_irrefl. simpl. done.
Qed.

Lemma gmb_self :
  gmb_loop s s (S (n + n)) [(O, n, O, n)] [] = if (n =? 0)%nat then [] else [(O, O, n)].
Proof.
  simpl. rewrite find_longest_match_self. destruct (n =? 0)%nat eqn:E.
  - destruct (n + n)%nat; done.
  - simpl. rewrite Nat.ltb_irrefl. simpl. destruct (n + n)%nat; done.
Qed.

Lemma matching_blocks_self : sum_sizes (get_matching_blocks s s) = n.
Proof.
  unfold get_matching_blocks. rewrite gmb_self. destruct (n =? 0)%nat eqn:E.
  - apply Nat.eqb_eq in E. simpl. lia.
  - simpl. rewrite E. simpl. lia.
Qed.

Lemma ratio_self : (ratio s s == 1)%Q.
Proof.
  unfold ratio, calculate_ratio. rewrite matching_blocks_self.
  destruct (n + n =? 0)%nat eqn:E; [reflexivity|]. apply Nat.eqb_neq in E.
  rewrite Nat2Z.inj_add, inject_Z_plus. field.
  intros H. unfold Qeq, Qplus, inject_Z in H. simpl in H. lia.
Qed.

End Self.
End SelfMatch.

(** [similarity(s, s)] for every [s]: the character ratio is 1 and, when
    the keyword step applies, the Jaccard index of a set with itself is 1. *)
Lemma calculate_similarity_self (s : str) : (KB.calculate_similarity s s == 1)%Q.
Proof.
  unfold KB.calculate_similarity. cbv beta zeta.
  remember (list_to_set (py_split (py_lower s)) ∖ KB.stop_words : gset str) as W eqn:HW.
  clear HW.
  destruct (bool_decide (W ≠ ∅)) eqn:E; simpl.
  - apply bool_decide_eq_true in E.
    assert (Hi : W ∩ W = W) by set_solver. assert (Hu : W ∪ W = W) by set_solver.
    rewrite Hi, Hu.
    assert (Hsz : size W ≠ 0%nat).
    { apply size_non_empty_iff. intros Heq. apply E. by apply leibniz_equiv. }
    replace (0 <? size W)%nat with true by (symmetry; apply Nat.ltb_lt; lia).
    rewrite SelfMatch.ratio_self. field.
    intros H. unfold Qeq, inject_Z in H. simpl in H. lia.
  - apply SelfMatch.ratio_self.
Qed.

(* ------------------------------------------------------------------ *)
(** ** Ranking of [find_relevant_questions] *)

Module Ranking.
Import KB.

Local Definition score_ge (x y : FAQEntry * Q) : Prop := (snd y <= snd x)%Q.

Local Definition with_score (v : Q) (l : list (FAQEntry * Q)) : list (FAQEntry * Q) :=
  List.filter (fun p => Qeq_bool (snd p) v) l.

Lemma Qlt_bool_iff x y : Qlt_bool x y = true <-> (x < y)%Q.
Proof.
  unfold Qlt_bool. rewrite negb_true_iff, <- not_true_iff_false, Qle_bool_iff.
  split; [apply Qnot_le_lt|apply Qlt_not_le].
Qed.

Lemma insert_desc_in x y l : In y (insert_desc x l) <-> x = y \/ In y l.
Proof.
  induction l as [|z l IH]; simpl; [tauto|].
  destruct (Qlt_bool (snd z) (snd x)); simpl; [tauto|]. rewrite IH. tauto.
Qed.

Lemma insert_desc_sorted x l :
  StronglySorted score_ge l -> StronglySorted score_ge (insert_desc x l).
Proof.
  induction l as [|y l IH]; simpl; intros Hs.
  { repeat constructor. }
  apply StronglySorted_inv in Hs as [Hs Hall].
  destruct (Qlt_bool (snd y) (snd x)) eqn:E.
  - apply Qlt_bool_iff in E. constructor; [by constructor|].
    constructor; [unfold score_ge; simpl; apply Qlt_le_weak; done|].
    eapply List.Forall_impl; [|exact Hall]. unfold score_ge. intros z Hz.
    eapply Qle_trans; [exact Hz|apply Qlt_le_weak; done].
  - constructor; [by apply IH|]. apply List.Forall_forall. intros z Hz.
    apply insert_desc_in in Hz as [<-|Hz].
    + unfold score_ge. apply Qnot_lt_le. intros Hlt. apply Qlt_bool_iff in Hlt. congruence.
    + rewrite List.Forall_forall in Hall. by apply Hall.
Qed.

Lemma sort_desc_aux_sorted l acc :
  StronglySorted score_ge acc ->
  StronglySorted score_ge (fold_left (fun acc x => insert_desc x acc) l acc).
Proof.
  revert acc. induction l as [|x l IH]; simpl; intros acc Hs; [done|].
  apply IH, insert_desc_sorted, Hs.
Qed.

Lemma sort_desc_sorted l : StronglySorted score_ge (sort_desc l).
Proof. apply sort_desc_aux_sorted. constructor. Qed.

Lemma sort_desc_aux_in l acc y :
  In y (fold_left (fun acc x => insert_desc x acc) l acc) <-> In y acc \/ In y l.
Proof.
  revert acc. induction l as [|x l IH]; simpl; intros acc; [tauto|].
  rewrite IH, insert_desc_in. tauto.
Qed.

Lemma sort_desc_in l y : In y (sort_desc l) <-> In y l.
Proof. unfold sort_desc. rewrite sort_desc_aux_in. simpl. tauto. Qed.

Lemma filter_none {A} (f : A -> bool) (l : list A) :
  (forall z, In z l -> f z = false) -> List.filter f l = [].
Proof.
  induction l as [|z l IH]; simpl; intros H; [done|].
  rewrite H by (by left). apply IH. intros; apply H; by right.
Qed.

Lemma with_score_cons v x l :
  with_score v (x :: l) = (if Qeq_bool (snd x) v then [x] else []) ++ with_score v l.
Proof. unfold with_score. simpl. destruct (Qeq_bool _ _); done. Qed.

Lemma with_score_app v l1 l2 : with_score v (l1 ++ l2) = with_score v l1 ++ with_score v l2.
Proof. apply List.filter_app. Qed.

(** Insertion keeps the elements of equal score in arrival order. *)
Lemma insert_desc_with_score v x l :
  StronglySorted score_ge l ->
  with_score v (insert_desc x l)
  = with_score v l ++ (if Qeq_bool (snd x) v then [x] else []).
Proof.
  induction l as [|y l IH]; intros Hs.
  { unfold with_score. simpl. destruct (Qeq_bool (snd x) v); done. }
  simpl insert_desc.
  apply StronglySorted_inv in Hs as [Hs Hall].
  destruct (Qlt_bool (snd y) (snd x)) eqn:E.
  - apply Qlt_bool_iff in E. rewrite with_score_cons.
    destruct (Qeq_bool (snd x) v) eqn:Ex.
    + pose proof Ex as Exq. apply Qeq_bool_iff in Exq.
      assert (Hnone : with_score v (y :: l) = []).
      { apply filter_none. intros z Hz. apply not_true_iff_false. rewrite Qeq_bool_iff.
        intros Hzv.
        assert (Hzy : (snd z <= snd y)%Q).
        { destruct Hz as [<-|Hz]; [apply Qle_refl|].
          rewrite List.Forall_forall in Hall. by apply Hall. }
        apply (Qlt_not_le (snd y) (snd x) E). rewrite Exq, <- Hzv. done. }
      rewrite Hnone. done.
    + rewrite app_nil_r. done.
  - rewrite !with_score_cons, IH by done. rewrite app_assoc. done.
Qed.

Lemma sort_desc_aux_with_score v l acc :
  StronglySorted score_ge acc ->
  with_score v (fold_left (fun acc x => insert_desc x acc) l acc)
  = with_score v acc ++ with_score v l.
Proof.
  revert acc. induction l as [|x l IH]; intros acc Hs; cbn [fold_left].
  { change (with_score v []) with (@nil (FAQEntry * Q)). rewrite app_nil_r. done. }
  rewrite IH by (by apply insert_desc_sorted).
  rewrite insert_desc_with_score by done. rewrite with_score_cons, app_assoc. done.
Qed.

Lemma sort_desc_with_score v l : with_score v (sort_desc l) = with_score v l.
Proof. unfold sort_desc. rewrite sort_desc_aux_with_score by constructor. done. Qed.

Lemma py_slice_to_split {A} (l : list A) k : exists l', l = py_slice_to l k ++ l'.
Proof. unfold py_slice_to. destruct (0 <=? k); eexists; symmetry; apply firstn_skipn. Qed.

Lemma py_slice_to_length {A} (l : list A) k :
  0 <= k -> Z.of_nat (length (py_slice_to l k)) <= k.
Proof.
  intros Hk. unfold py_slice_to. replace (0 <=? k) with true by (symmetry; apply Z.leb_le; lia).
  pose proof (firstn_le_length (Z.to_nat k) l). lia.
Qed.

Lemma py_slice_to_in {A} (l : list A) k x : In x (py_slice_to l k) -> In x l.
Proof.
  destruct (py_slice_to_split l k) as [l' Hl]. intros H. rewrite Hl. apply in_or_app. by left.
Qed.

Lemma StronglySorted_app_l {A} (R : A -> A -> Prop) l1 l2 :
  StronglySorted R (l1 ++ l2) -> StronglySorted R l1.
Proof.
  induction l1 as [|x l1 IH]; simpl; intros H; [constructor|].
  apply StronglySorted_inv in H as [H1 H2]. constructor; [by apply IH|].
  rewrite List.Forall_forall in H2 |- *. intros y Hy. apply H2, in_or_app. by left.
Qed.

(** The four properties of the result of [find_relevant_questions]. *)
Lemma find_relevant_questions_props faq_data query threshold top_k :
  let res := find_relevant_questions faq_data query threshold top_k in
  let candidates := List.filter (fun p => Qle_bool threshold (snd p))
                      (map (fun e => (e, calculate_similarity query (question e))) faq_data) in
  (0 <= top_k -> Z.of_nat (length res) <= top_k) /\
  (forall p, In p res -> (threshold <= snd p)%Q) /\
  StronglySorted score_ge res /\
  (forall v, prefix (with_score v res) (with_score v candidates)).
Proof.
  cbv zeta. unfold find_relevant_questions.
  destruct faq_data as [|e faq_data].
  { simpl. split; [intros; simpl; lia|]. split; [done|]. split; [constructor|].
    intros v. unfold with_score. simpl. apply prefix_nil. }
  set (c := List.filter _ _).
  destruct (py_slice_to_split (sort_desc c) top_k) as [rest Hsplit].
  split; [apply py_slice_to_length|].
  split.
  { intros p Hp. apply py_slice_to_in in Hp. rewrite sort_desc_in in Hp.
    unfold c in Hp. apply filter_In in Hp as [_ Hp]. by apply Qle_bool_iff. }
  split.
  { apply (StronglySorted_app_l _ _ rest). rewrite <- Hsplit. apply sort_desc_sorted. }
  intros v. exists (with_score v rest).
  rewrite <- with_score_app, <- Hsplit, sort_desc_with_score. done.
Qed.

End Ranking.

(* ------------------------------------------------------------------ *)
(** ** The rate limiter *)

Module Limiter.
Import RL.

Lemma hist_set_hist (h : History) (u u' : Z) (k k' : str) (l : list Z) :
  hist (set_hist h u k l) u' k' =
  if decide (u = u' /\ k = k') then l else hist h u' k'.
Proof.
  unfold hist, set_hist.
  destruct (decide (u = u')) as [<-|Hu].
  - rewrite lookup_insert_eq.
    destruct (decide (k = k')) as [<-|Hk].
    + rewrite lookup_insert_eq, decide_True by auto. reflexivity.
    + rewrite lookup_insert_ne by auto.
      rewrite decide_False by tauto.
      destruct (h !! u); [reflexivity|]. rewrite lookup_empty. reflexivity.
  - rewrite lookup_insert_ne by auto. rewrite decide_False by tauto. reflexivity.
Qed.

Lemma hist_set_hist_eq (h : History) (u : Z) (k : str) (l : list Z) :
  hist (set_hist h u k l) u k = l.
Proof. rewrite hist_set_hist, decide_True by auto. reflexivity. Qed.

Lemma hist_set_hist_ne (h : History) (u u' : Z) (k k' : str) (l : list Z) :
  k <> k' -> hist (set_hist h u k l) u' k' = hist h u' k'.
Proof. intros Hk. rewrite hist_set_hist, decide_False by tauto. reflexivity. Qed.

Lemma limits_max_pos (lt : str) (limit : RateLimit) :
  limits lt = Some limit -> 0 < max_requests limit.
Proof.
  unfold limits. intros H.
  repeat (case_bool_decide; [injection H as <-; reflexivity|]). discriminate.
Qed.

Lemma limits_global : limits GLOBAL = Some global_limit.
Proof. reflexivity. Qed.

Definition warning (limit_type : str) : log_entry :=
  LogWarning (py "Неизвестный тип лимита: " ++ limit_type).

Lemma check_specific_unknown (user_id : Z) (limit_type : str) (now : Z) (h : History) :
  limits limit_type = None ->
  check_specific_limit user_id limit_type now h = (Ok (true, None), h, [warning limit_type]).
Proof. intros H. unfold check_specific_limit. rewrite H. reflexivity. Qed.

(** Whatever the verdict, a known category's list is replaced by its purged
    copy. *)
Lemma check_specific_history (user_id : Z) (limit_type : str) (now : Z) (h : History)
    (limit : RateLimit) :
  limits limit_type = Some limit ->
  history_of (check_specific_limit user_id limit_type now h) =
  set_hist h user_id limit_type
    (purge (now - window_seconds limit * usec) (hist h user_id limit_type)).
Proof.
  intros H. unfold check_specific_limit. rewrite H.
  destruct (_ <=? _); [|reflexivity].
  destruct (purge _ _); reflexivity.
Qed.

Lemma check_specific_no_raise (user_id : Z) (limit_type : str) (now : Z) (h : History)
    (e : str) :
  result_of (check_specific_limit user_id limit_type now h) <> Raise e.
Proof.
  unfold check_specific_limit.
  destruct (limits limit_type) as [limit|] eqn:Hl; [|discriminate].
  pose proof (limits_max_pos _ _ Hl) as Hpos.
  destruct (max_requests limit <=? _) eqn:Hle; [|discriminate].
  destruct (purge _ _) eqn:Hp; [|discriminate].
  apply Z.leb_le in Hle. simpl in Hle. lia.
Qed.

Lemma check_rate_limit_no_raise (user_id : Z) (limit_type : str) (check_global : bool)
    (now : Z) (h : History) (e : str) :
  result_of (check_rate_limit user_id limit_type check_global now h) <> Raise e.
Proof.
  unfold check_rate_limit.
  destruct (check_specific_limit user_id limit_type now h) as [[r h1] l1] eqn:E1.
  pose proof (check_specific_no_raise user_id limit_type now h e) as N1.
  rewrite E1 in N1. unfold result_of in N1. simpl in N1.
  destruct r as [[[] m]|e1]; [| discriminate | unfold result_of; simpl; congruence].
  destruct check_global; [|discriminate].
  destruct (check_specific_limit user_id GLOBAL now h1) as [[r2 h2] l2] eqn:E2.
  pose proof (check_specific_no_raise user_id GLOBAL now h1 e) as N2.
  rewrite E2 in N2. unfold result_of in N2. simpl in N2.
  destruct r2 as [[[] m2]|e2]; [discriminate | discriminate | unfold result_of; simpl; congruence].
Qed.

(** After [check_rate_limit] the history is the one left by the category's
    check, or the one left after it by the global check. *)
Lemma check_rate_limit_history (user_id : Z) (limit_type : str) (check_global : bool)
    (now : Z) (h : History) :
  let h1 := history_of (check_specific_limit user_id limit_type now h) in
  history_of (check_rate_limit user_id limit_type check_global now h) = h1 \/
  history_of (check_rate_limit user_id limit_type check_global now h) =
  history_of (check_specific_limit user_id GLOBAL now h1).
Proof.
  simpl. unfold check_rate_limit.
  destruct (check_specific_limit user_id limit_type now h) as [[r h1] l1].
  unfold history_of at 2 4. simpl.
  destruct r as [[[] m]|e1]; [| left; reflexivity | left; reflexivity].
  destruct check_global; [|left; reflexivity].
  right. unfold history_of; cbn [fst snd].
  destruct (check_specific_limit user_id GLOBAL now h1) as [[r2 h2] l2].
  destruct r2 as [[[] m2]|e2]; reflexivity.
Qed.

Lemma purge_spec (cutoff ts : Z) (l : list Z) :
  In ts (purge cutoff l) <-> In ts l /\ cutoff < ts.
Proof. unfold purge. rewrite filter_In, Z.ltb_lt. tauto. Qed.

(** The verdict of [check_rate_limit] for a category that is not configured:
    the category passes, and what is left is the global check. *)
Lemma check_rate_limit_unknown (user_id : Z) (limit_type : str) (check_global : bool)
    (now : Z) (h : History) :
  limits limit_type = None ->
  result_of (check_rate_limit user_id limit_type check_global now h) =
  if check_global then
    match result_of (check_specific_limit user_id GLOBAL now h) with
    | Ok (true, _) => Ok (true, None)
    | r => r
    end
  else Ok (true, None).
Proof.
  intros H. unfold check_rate_limit. rewrite check_specific_unknown by exact H.
  destruct check_global; [|reflexivity].
  unfold result_of at 2.
  destruct (check_specific_limit user_id GLOBAL now h) as [[r2 h2] l2].
  destruct r2 as [[[] m2]|e2]; reflexivity.
Qed.

Lemma remaining_unknown (user_id : Z) (limit_type : str) (now : Z) (h : History) :
  limits limit_type = None -> fst (get_remaining_requests user_id limit_type now h) = 0.
Proof. intros H. unfold get_remaining_requests. rewrite H. reflexivity. Qed.

Lemma remaining_fresh (user_id : Z) (limit_type : str) (now : Z) (h : History)
    (limit : RateLimit) :
  limits limit_type = Some limit -> hist h user_id limit_type = [] ->
  fst (get_remaining_requests user_id limit_type now h) = max_requests limit.
Proof.
  intros Hl He. pose proof (limits_max_pos _ _ Hl).
  unfold get_remaining_requests, hist in *. rewrite Hl.
  destruct (h !! user_id) as [uh|]; [|reflexivity].
  destruct (uh !! limit_type) as [l|]; [|reflexivity].
  subst l. simpl. lia.
Qed.

(** One [record_request(user_id, limit_type)] call (default
    [record_global=True]) appends [now] once to the category's list and once
    to the global list; for [limit_type = "global"] these are the same list. *)
Lemma record_request_hist (user_id : Z) (limit_type : str) (now : Z) (h : History) :
  let h' := fst (record_request user_id limit_type true now h) in
  (limit_type <> GLOBAL ->
     hist h' user_id limit_type = hist h user_id limit_type ++ [now] /\
     hist h' user_id GLOBAL = hist h user_id GLOBAL ++ [now]) /\
  (limit_type = GLOBAL ->
     hist h' user_id GLOBAL = hist h user_id GLOBAL ++ [now; now]).
Proof.
  simpl. split.
  - intros Hne. split.
    + rewrite hist_set_hist_ne by congruence. apply hist_set_hist_eq.
    + rewrite hist_set_hist_eq, hist_set_hist_ne by congruence. reflexivity.
  - intros ->. rewrite !hist_set_hist_eq, <- app_assoc. reflexivity.
Qed.

Lemma record_all_hist (user_id : Z) (limit_type : str) (times : list Z) (h : History) :
  (limit_type <> GLOBAL ->
     hist (record_all user_id limit_type times h) user_id limit_type =
       hist h user_id limit_type ++ times /\
     hist (record_all user_id limit_type times h) user_id GLOBAL =
       hist h user_id GLOBAL ++ times) /\
  (limit_type = GLOBAL ->
     hist (record_all user_id limit_type times h) user_id GLOBAL =
       hist h user_id GLOBAL ++ flat_map (fun t => [t; t]) times).
Proof.
  revert h. induction times as [|t times IH]; intros h.
  - simpl. rewrite !app_nil_r. auto.
  - pose proof (record_request_hist user_id limit_type t h) as Hr. cbv zeta in Hr.
    destruct Hr as [Hn Hg].
    destruct (IH (fst (record_request user_id limit_type true t h))) as [IHn IHg].
    unfold record_all in *. cbn [fold_left flat_map]. split.
    + intros Hne. destruct (Hn Hne) as [H1 H2]. destruct (IHn Hne) as [H3 H4].
      rewrite H3, H4, H1, H2, <- !app_assoc. auto.
    + intros Heq. rewrite (IHg Heq), (Hg Heq), <- app_assoc. reflexivity.
Qed.

Lemma purge_all (cutoff : Z) (l : list Z) :
  (forall t, In t l -> cutoff < t) -> purge cutoff l = l.
Proof.
  induction l as [|x l IH]; intros H; [reflexivity|]. simpl.
  rewrite (proj2 (Z.ltb_lt _ _)) by (apply H; left; reflexivity).
  f_equal. apply IH. intros t Ht. apply H. right. exact Ht.
Qed.

Lemma purge_length_le (cutoff : Z) (l : list Z) :
  (length (purge cutoff l) <= length l)%nat.
Proof.
  induction l as [|x l IH]; [reflexivity|]. simpl.
  destruct (cutoff <? x); simpl; lia.
Qed.

Lemma purge_length_lt (cutoff : Z) (l : list Z) (t : Z) :
  In t l -> t <= cutoff -> (length (purge cutoff l) < length l)%nat.
Proof.
  induction l as [|x l IH]; intros Ht Hle; [destruct Ht|]. simpl.
  destruct Ht as [<-|Ht].
  - rewrite (proj2 (Z.ltb_ge _ _)) by exact Hle.
    pose proof (purge_length_le cutoff l). lia.
  - pose proof (IH Ht Hle). destruct (cutoff <? x); simpl; lia.
Qed.

Lemma limits_category (lt : str) (limit : RateLimit) :
  limits lt = Some limit -> lt <> GLOBAL ->
  max_requests limit <= 10 /\ window_seconds limit = 60.
Proof.
  unfold limits. intros H Hg.
  repeat (case_bool_decide; [try (injection H as <-; split; [discriminate|reflexivity]); try congruence|]).
  discriminate.
Qed.

(** For a configured category other than ["global"], the policy reads as
    intended: after [max_requests] recorded requests of a fresh user, a check
    refuses while all of them are inside the window, and allows once one of
    them has left it. *)
Lemma record_then_check_category (user_id : Z) (limit_type : str) (limit : RateLimit)
    (times : list Z) (now : Z) :
  limits limit_type = Some limit -> limit_type <> GLOBAL ->
  Z.of_nat (length times) = max_requests limit ->
  let h := record_all user_id limit_type times empty_history in
  ((forall t, In t times -> now - window_seconds limit * usec < t) ->
     exists m, result_of (check_rate_limit user_id limit_type true now h) = Ok (false, Some m)) /\
  ((exists t, In t times /\ t <= now - window_seconds limit * usec) ->
     result_of (check_rate_limit user_id limit_type true now h) = Ok (true, None)).
Proof.
  intros Hl Hg Hlen. cbv zeta.
  destruct (limits_category _ _ Hl Hg) as [Hmax Hw].
  pose proof (limits_max_pos _ _ Hl) as Hpos.
  destruct (proj1 (record_all_hist user_id limit_type times empty_history) Hg) as [Hc HG].
  change (hist empty_history user_id limit_type) with (@nil Z) in Hc.
  change (hist empty_history user_id GLOBAL) with (@nil Z) in HG.
  simpl in Hc, HG.
  set (h := record_all user_id limit_type times empty_history) in *.
  split.
  - intros Hin. unfold check_rate_limit, check_specific_limit. rewrite Hl, Hc.
    rewrite (purge_all _ _ Hin).
    rewrite (proj2 (Z.leb_le _ _)) by lia.
    destruct times as [|t0 rest]; [simpl in Hlen; lia|].
    eexists. reflexivity.
  - intros [t [Ht Hle]]. unfold check_rate_limit. unfold check_specific_limit at 1.
    rewrite Hl, Hc.
    pose proof (purge_length_lt _ _ _ Ht Hle) as Hlt.
    rewrite (proj2 (Z.leb_gt _ _)) by lia.
    unfold check_specific_limit. rewrite limits_global.
    rewrite hist_set_hist_ne by congruence. rewrite HG.
    pose proof (purge_length_le (now - window_seconds global_limit * usec) times).
    change (max_requests global_limit) with 20.
    rewrite (proj2 (Z.leb_gt _ _)) by lia.
    reflexivity.
Qed.

End Limiter.

(* ------------------------------------------------------------------ *)
(** ** Answers and their rendering *)

Module Answer.
Import KB Ranking.

Lemma find_relevant_questions_in faq_data query threshold top_k p :
  In p (find_relevant_questions faq_data query threshold top_k) ->
  In (fst p) faq_data /\ snd p = calculate_similarity query (question (fst p)) /\
  (threshold <= snd p)%Q.
Proof.
  unfold find_relevant_questions. destruct faq_data as [|e0 rest]; [done|].
  intros H. apply py_slice_to_in in H. rewrite sort_desc_in in H.
  apply filter_In in H as [Hm Hq]. apply Qle_bool_iff in Hq.
  apply in_map_iff in Hm as [e [<- He]]. simpl. auto.
Qed.

(** With every score below the search threshold [0.5] there is no answer. *)
Lemma get_answer_below_threshold faq_data query check_urls head :
  (forall e, In e faq_data -> (calculate_similarity query (question e) < 1 # 2)%Q) ->
  get_answer_with_validation faq_data query check_urls head = None.
Proof.
  intros Hlow. unfold get_answer_with_validation.
  destruct (find_relevant_questions faq_data query (1 # 2) 1) as [|p rest] eqn:Hf;
    [reflexivity|].
  destruct (find_relevant_questions_in faq_data query (1 # 2) 1 p) as [Hin [Hs Hge]].
  { rewrite Hf. left. reflexivity. }
  specialize (Hlow _ Hin). rewrite <- Hs in Hlow.
  exfalso. apply (Qlt_not_le _ _ Hlow Hge).
Qed.

Lemma get_answer_below_floor faq_data query check_urls head best similarity rest :
  find_relevant_questions faq_data query (1 # 2) 1 = (best, similarity) :: rest ->
  (similarity < 3 # 10)%Q ->
  get_answer_with_validation faq_data query check_urls head = None.
Proof.
  intros Hf Hs. unfold get_answer_with_validation. rewrite Hf.
  apply Qlt_bool_iff in Hs. rewrite Hs. reflexivity.
Qed.

(** The answer built from a qualifying match whose link check raised. *)
Definition answer_of (best : FAQEntry) (similarity : Q) (url_valid : option bool)
    (url_status : option Z) : AnswerData :=
  {| ad_question := question best;
     ad_answer := short_answer best;
     ad_legal_reference := legal_reference best;
     ad_legal_url := legal_url best;
     ad_block := block best;
     ad_current_as_of := current_as_of best;
     ad_similarity_score := similarity;
     ad_url_valid := url_valid;
     ad_url_status := url_status |}.

Lemma get_answer_link_error faq_data query head best similarity rest :
  find_relevant_questions faq_data query (1 # 2) 1 = (best, similarity) :: rest ->
  ~ (similarity < 3 # 10)%Q ->
  legal_url best <> [] ->
  head = HeadClientError \/ head = HeadOtherError ->
  get_answer_with_validation faq_data query true head =
  Some (answer_of best similarity (Some false) None).
Proof.
  intros Hf Hs Hu Hh. unfold get_answer_with_validation. rewrite Hf.
  destruct (Qlt_bool similarity (3 # 10)) eqn:Hb.
  { apply Qlt_bool_iff in Hb. contradiction. }
  rewrite bool_decide_false by exact Hu. simpl.
  unfold check_url_validity.
  destruct (is_blank (legal_url best)); [reflexivity|].
  destruct Hh as [-> | ->]; reflexivity.
Qed.

End Answer.

(* ================================================================== *)
(** * The claims *)

Module Claims.
Import KB RL Limiter Answer.

(** A corpus entry with the given question and link; the other fields are
    empty. *)
Definition entry (q url : str) : FAQEntry :=
  {| question := q; short_answer := py "Ответ"; legal_reference := [];
     legal_url := url; block := py "Общие"; current_as_of := py "2025-01-01" |}.

(** An answer citing only the link [url]. *)
Definition answer_with_url (url : str) : AnswerData :=
  {| ad_question := py "Вопрос"; ad_answer := py "Ответ"; ad_legal_reference := [];
     ad_legal_url := url; ad_block := py "Общие"; ad_current_as_of := py "2025-01-01";
     ad_similarity_score := 1; ad_url_valid := None; ad_url_status := None |}.

(** The domain (host) of a URL, as the specification reads the word:
    the text after the scheme up to the first [/], [?], [#] or [:]. *)
Fixpoint host_prefix (s : str) : str :=
  match s with
  | c :: r => if (c =? 47) || (c =? 63) || (c =? 35) || (c =? 58) then [] else c :: host_prefix r
  | [] => []
  end.

Definition spec_url_host (url : str) : str :=
  let rest := if is_prefix (py "https://") url then skipn 8 url
              else if is_prefix (py "http://") url then skipn 7 url
              else url in
  host_prefix (py_lower rest).

(** Twenty requests of one user in the category ["expand_answer"], all at
    [t = 0]: each is also recorded in the user's global list. *)
Definition busy_history : History :=
  record_all 7 (py "expand_answer") (repeat 0 20) empty_history.

(* ------------------------------------------------------------------ *)
(** C1 *)

(** C1 (code bug). [record_request(user_id, "global")] with the default
    [record_global=True] appends every timestamp twice to the global list.
    Twenty such records at t = 0 s, 1 s, ..., 19 s leave forty entries, and
    a check at t = 301 s, when the oldest record is older than the 300 s
    window, still refuses the request. *)
Theorem record_global_counts_twice :
  (forall (user_id : Z) (times : list Z) (h : History),
     hist (record_all user_id GLOBAL times h) user_id GLOBAL =
     hist h user_id GLOBAL ++ flat_map (fun t => [t; t]) times) /\
  let h := record_all 42 GLOBAL (map (fun k => Z.of_nat k * usec) (seq 0 20)) empty_history in
  length (hist h 42 GLOBAL) = 40%nat /\
  exists m, result_of (check_rate_limit 42 GLOBAL true (301 * usec) h) = Ok (false, Some m).
Proof.
  split.
  - intros user_id times h. apply (proj2 (record_all_hist user_id GLOBAL times h)). reflexivity.
  - cbv zeta. split; [vm_compute; reflexivity|]. eexists. vm_compute. reflexivity.
Qed.

(* ------------------------------------------------------------------ *)
(** C2 *)

(** C2 (amended). For every corpus, query and threshold and every
    [top_k >= 0], [find_relevant_questions] returns at most [top_k] results,
    each with a score at least [threshold], in non-increasing score order;
    for every score [v], the results with score [v] are a prefix of the
    corpus entries with score [v] that pass the threshold, in corpus order
    (stable ties). *)
Theorem find_relevant_questions_spec (faq_data : list FAQEntry) (query : str)
    (threshold : Q) (top_k : Z) (Hk : 0 <= top_k) :
  let res := find_relevant_questions faq_data query threshold top_k in
  let passing := List.filter (fun p => Qle_bool threshold (snd p))
                   (map (fun e => (e, calculate_similarity query (question e))) faq_data) in
  Z.of_nat (length res) <= top_k /\
  (forall p, In p res -> (threshold <= snd p)%Q) /\
  StronglySorted (fun x y => (snd y <= snd x)%Q) res /\
  (forall v, prefix (List.filter (fun p => Qeq_bool (snd p) v) res)
                    (List.filter (fun p => Qeq_bool (snd p) v) passing)).
Proof.
  destruct (Ranking.find_relevant_questions_props faq_data query threshold top_k)
    as [Hlen [Hth [Hsort Hstable]]].
  cbv zeta. split; [exact (Hlen Hk)|]. split; [exact Hth|]. split.
  - exact Hsort.
  - exact Hstable.
Qed.

Lemma find_relevant_questions_spec_witness :
  0 <= 1 /\
  let res := find_relevant_questions [entry (py "инструктаж") []; entry (py "инструктаж") []]
               (py "инструктаж") (1 # 2) 1 in
  let passing := List.filter (fun p => Qle_bool (1 # 2) (snd p))
                   (map (fun e => (e, calculate_similarity (py "инструктаж") (question e)))
                      [entry (py "инструктаж") []; entry (py "инструктаж") []]) in
  Z.of_nat (length res) <= 1 /\
  (forall p, In p res -> (1 # 2 <= snd p)%Q) /\
  StronglySorted (fun x y => (snd y <= snd x)%Q) res /\
  (forall v, prefix (List.filter (fun p => Qeq_bool (snd p) v) res)
                    (List.filter (fun p => Qeq_bool (snd p) v) passing)).
Proof.
  split; [lia|].
  exact (find_relevant_questions_spec _ _ _ 1 ltac:(lia)).
Defined.

(** C2 (counterexample). A negative [top_k] is a Python slice bound
    [[:top_k]]: with two matching entries and [top_k = -1] one result is
    returned, more than [top_k]. *)
Lemma find_relevant_questions_negative_top_k :
  let res := find_relevant_questions [entry (py "инструктаж") []; entry (py "инструктаж") []]
               (py "инструктаж") (1 # 2) (-1) in
  length res = 1%nat /\ -1 < Z.of_nat (length res).
Proof. cbv zeta. split; [vm_compute; reflexivity | vm_compute; reflexivity]. Qed.

(* ------------------------------------------------------------------ *)
(** C3 *)

(** C3. [get_answer_with_validation] returns [None] when no entry scores at
    least 0.5, and when the best match at threshold 0.5 scores below 0.3;
    when a match qualifies, [check_urls] holds, the entry has a link and the
    HEAD request raises (client error, timeout or any other exception), the
    match is still returned, with [url_valid = False] and
    [url_status = None]. *)
Theorem get_answer_with_validation_spec (faq_data : list FAQEntry) (query : str) :
  (forall check_urls head,
     (forall e, In e faq_data -> (calculate_similarity query (question e) < 1 # 2)%Q) ->
     get_answer_with_validation faq_data query check_urls head = None) /\
  (forall check_urls head best similarity rest,
     find_relevant_questions faq_data query (1 # 2) 1 = (best, similarity) :: rest ->
     (similarity < 3 # 10)%Q ->
     get_answer_with_validation faq_data query check_urls head = None) /\
  (forall head best similarity rest,
     find_relevant_questions faq_data query (1 # 2) 1 = (best, similarity) :: rest ->
     ~ (similarity < 3 # 10)%Q ->
     legal_url best <> [] ->
     head = HeadClientError \/ head = HeadOtherError ->
     get_answer_with_validation faq_data query true head =
     Some {| ad_question := question best;
             ad_answer := short_answer best;
             ad_legal_reference := legal_reference best;
             ad_legal_url := legal_url best;
             ad_block := block best;
             ad_current_as_of := current_as_of best;
             ad_similarity_score := similarity;
             ad_url_valid := Some false;
             ad_url_status := None |}).
Proof.
  split; [|split].
  - intros check_urls head. apply get_answer_below_threshold.
  - intros check_urls head best similarity rest. apply get_answer_below_floor.
  - intros head best similarity rest Hf Hs Hu Hh.
    exact (get_answer_link_error faq_data query head best similarity rest Hf Hs Hu Hh).
Qed.

Lemma get_answer_with_validation_spec_witness :
  let e := entry (py "Как часто проводится вводный инструктаж?")
                 (py "https://www.consultant.ru/document/cons_doc_LAW_34683/") in
  let q := py "как часто проводится вводный инструктаж?" in
  get_answer_with_validation [e] q true HeadOtherError =
  Some {| ad_question := question e;
          ad_answer := short_answer e;
          ad_legal_reference := legal_reference e;
          ad_legal_url := legal_url e;
          ad_block := block e;
          ad_current_as_of := current_as_of e;
          ad_similarity_score := calculate_similarity q (question e);
          ad_url_valid := Some false;
          ad_url_status := None |}.
Proof.
  cbv zeta.
  apply (proj2 (proj2 (get_answer_with_validation_spec _ _)) HeadOtherError _ _ []).
  - vm_compute. reflexivity.
  - intros H. vm_compute in H. discriminate.
  - vm_compute. discriminate.
  - right. reflexivity.
Defined.

(* ------------------------------------------------------------------ *)
(** C4 *)

(** C4 (code bug). The wait is [int(seconds) + 1], not the ceiling: ten
    question records at t = 0 checked at t = 0 leave exactly 60 s until the
    oldest one expires, and the message says 61 s. *)
Theorem wait_seconds_exact_is_one_more :
  let h := record_all 42 (py "question") (repeat 0 10) empty_history in
  hist h 42 (py "question") = repeat 0 10 /\
  0 + window_seconds question_limit * usec - 0 = 60 * usec /\
  result_of (check_rate_limit 42 (py "question") true 0 h) =
  Ok (false, Some (limit_message question_limit 61)).
Proof. cbv zeta. split; [|split]; vm_compute; reflexivity. Qed.

(* ------------------------------------------------------------------ *)
(** C5 *)

(** C5. [calculate_similarity(s, s)] is 1 for every string [s] (also for the
    empty string, long strings and strings made only of stop words). *)
Theorem calculate_similarity_refl (s : str) : (calculate_similarity s s == 1)%Q.
Proof. apply calculate_similarity_self. Qed.

(* ------------------------------------------------------------------ *)
(** C6 *)

(** C6 (amended). After a check of a configured category, by
    [_check_specific_limit] or by [check_rate_limit], every timestamp stored
    for the pair (user, category) is newer than the window before the time
    of the check. A [record_request] call, with either value of
    [record_global], purges nothing: it appends the current time to the
    pair's list, twice when the category is ["global"] and [record_global]
    is [True] (the default the handlers use). *)
Theorem check_purges_category (user_id : Z) (limit_type : str) (check_global : bool)
    (now : Z) (h : History) (limit : RateLimit) (Hl : limits limit_type = Some limit) :
  (forall ts, In ts (hist (history_of (check_specific_limit user_id limit_type now h))
                       user_id limit_type) ->
     now - window_seconds limit * usec < ts) /\
  (forall ts, In ts (hist (history_of (check_rate_limit user_id limit_type check_global now h))
                       user_id limit_type) ->
     now - window_seconds limit * usec < ts) /\
  (forall record_global t,
     hist (fst (record_request user_id limit_type record_global t h)) user_id limit_type =
     hist h user_id limit_type ++
       (if record_global && bool_decide (limit_type = GLOBAL) then [t; t] else [t])).
Proof.
  assert (Hs : forall ts, In ts (hist (history_of (check_specific_limit user_id limit_type now h))
                                  user_id limit_type) ->
                 now - window_seconds limit * usec < ts).
  { intros ts. rewrite (check_specific_history _ _ _ _ _ Hl), hist_set_hist_eq.
    rewrite purge_spec. tauto. }
  split; [exact Hs|]. split.
  - intros ts.
    destruct (check_rate_limit_history user_id limit_type check_global now h) as [E|E];
      rewrite E; [exact (Hs ts)|].
    rewrite (check_specific_history _ _ _ _ _ limits_global), hist_set_hist.
    destruct (decide (user_id = user_id /\ GLOBAL = limit_type)) as [[_ <-]|_].
    + rewrite purge_spec. intros [Hin _]. exact (Hs ts Hin).
    + exact (Hs ts).
  - intros [|] t; cbn [andb].
    + destruct (bool_decide_reflect (limit_type = GLOBAL)) as [->|Hne].
      * exact (proj2 (record_request_hist user_id GLOBAL t h) eq_refl).
      * exact (proj1 (proj1 (record_request_hist user_id limit_type t h) Hne)).
    + apply hist_set_hist_eq.
Qed.

Lemma check_purges_category_witness :
  limits (py "question") = Some question_limit /\
  (forall ts, In ts (hist (history_of (check_specific_limit 1 (py "question") (100 * usec)
                                         busy_history)) 1 (py "question")) ->
     100 * usec - window_seconds question_limit * usec < ts) /\
  (forall ts, In ts (hist (history_of (check_rate_limit 1 (py "question") true (100 * usec)
                                         busy_history)) 1 (py "question")) ->
     100 * usec - window_seconds question_limit * usec < ts) /\
  (forall record_global t,
     hist (fst (record_request 1 (py "question") record_global t busy_history)) 1 (py "question") =
     hist busy_history 1 (py "question") ++
       (if record_global && bool_decide (py "question" = GLOBAL) then [t; t] else [t])).
Proof.
  split; [reflexivity|].
  exact (check_purges_category 1 (py "question") true (100 * usec) busy_history question_limit
           ltac:(reflexivity)).
Defined.

(** C6 (counterexample). [record_request] does not purge: after question
    records at t = 0 s and t = 100 s the record at 0 s, older than the 60 s
    window before 100 s, is still stored. *)
Lemma record_request_keeps_expired :
  let h := record_all 1 (py "question") [0; 100 * usec] empty_history in
  hist h 1 (py "question") = [0; 100 * usec] /\
  0 <= 100 * usec - window_seconds question_limit * usec.
Proof. cbv zeta. split; [vm_compute; reflexivity | vm_compute; discriminate]. Qed.

(* ------------------------------------------------------------------ *)
(** C7 *)

(** C7. A link outside the allow-list is shown: the link
    [https://example-blog.ru/article?from=consultant.ru] has the host
    [example-blog.ru], which is neither allow-listed nor under [.gov.ru],
    and the rendered answer still shows it, marked ⚠️, because
    [_is_government_source] tests whether the allow-listed names occur
    anywhere in the whole link. *)
Lemma format_answer_shows_substring_match :
  let url := py "https://example-blog.ru/article?from=consultant.ru" in
  let d := answer_with_url url in
  spec_url_host url = py "example-blog.ru" /\
  existsb (fun domain => bool_decide (spec_url_host url = domain)) government_domains = false /\
  contains (py ".gov.ru") (spec_url_host url) = false /\
  In (py "⚠️ <b>Ссылка:</b> " ++ url) (format_lines d).
Proof.
  cbv zeta. split; [|split; [|split]]; [vm_compute; reflexivity ..|].
  vm_compute. right. right. right. right. right. right. right. right. left. reflexivity.
Qed.

(* ------------------------------------------------------------------ *)
(** C8 *)

(** C8 (amended). For a category without a policy, the category check
    returns [(True, None)], leaves the history as it is and logs a warning,
    and so does [check_rate_limit] with [check_global=False]; with
    [check_global=True] the verdict is the one of the global check.
    [check_rate_limit] never raises. *)
Theorem unknown_category_check (user_id : Z) (limit_type : str) (now : Z) (h : History)
    (Hu : limits limit_type = None) :
  check_specific_limit user_id limit_type now h = (Ok (true, None), h, [warning limit_type]) /\
  check_rate_limit user_id limit_type false now h = (Ok (true, None), h, [warning limit_type]) /\
  result_of (check_rate_limit user_id limit_type true now h) =
    match result_of (check_specific_limit user_id GLOBAL now h) with
    | Ok (true, _) => Ok (true, None)
    | r => r
    end /\
  (forall lt check_global t h' e,
     result_of (check_rate_limit user_id lt check_global t h') <> Raise e).
Proof.
  split; [exact (check_specific_unknown _ _ _ _ Hu)|]. split.
  - unfold check_rate_limit. rewrite (check_specific_unknown _ _ _ _ Hu). reflexivity.
  - split; [exact (check_rate_limit_unknown _ _ true _ _ Hu)|].
    intros lt check_global t h' e. apply check_rate_limit_no_raise.
Qed.

Lemma unknown_category_check_witness :
  limits (py "voice") = None /\
  check_specific_limit 7 (py "voice") usec busy_history
    = (Ok (true, None), busy_history, [warning (py "voice")]) /\
  check_rate_limit 7 (py "voice") false usec busy_history
    = (Ok (true, None), busy_history, [warning (py "voice")]) /\
  result_of (check_rate_limit 7 (py "voice") true usec busy_history) =
    match result_of (check_specific_limit 7 GLOBAL usec busy_history) with
    | Ok (true, _) => Ok (true, None)
    | r => r
    end /\
  (forall lt check_global t h' e,
     result_of (check_rate_limit 7 lt check_global t h') <> Raise e).
Proof.
  split; [reflexivity|].
  exact (unknown_category_check 7 (py "voice") usec busy_history ltac:(reflexivity)).
Defined.

(** C8 (counterexample). With the default [check_global=True] a category
    without a policy is refused once the global list is full: after twenty
    ["expand_answer"] records at t = 0, [check_rate_limit(7, "voice")] at
    t = 1 s returns [False] and a message. *)
Lemma unknown_category_refused_by_global :
  limits (py "voice") = None /\
  exists m, result_of (check_rate_limit 7 (py "voice") true usec busy_history) = Ok (false, Some m).
Proof. split; [reflexivity|]. eexists. vm_compute. reflexivity. Qed.

(* ------------------------------------------------------------------ *)
(** C9 *)

(** C9 (amended). A failed load (missing file or read/parse error) leaves
    the corpus as it was: at construction it is empty and every
    [find_relevant_questions] call returns no result; on reload the previous
    corpus is kept. *)
Theorem load_failure_keeps_corpus (src : load_outcome)
    (Hf : src = FileMissing \/ src = LoadError) (faq_data : list FAQEntry) (query : str)
    (threshold : Q) (top_k : Z) :
  init src = [] /\
  find_relevant_questions (init src) query threshold top_k = [] /\
  reload_faq faq_data src = faq_data.
Proof. destruct Hf as [-> | ->]; repeat split. Qed.

Lemma load_failure_keeps_corpus_witness :
  init FileMissing = [] /\
  find_relevant_questions (init FileMissing) (py "инструктаж") (1 # 2) 1 = [] /\
  reload_faq [entry (py "инструктаж") []] FileMissing = [entry (py "инструктаж") []].
Proof. exact (load_failure_keeps_corpus FileMissing (or_introl eq_refl) _ _ _ _). Defined.

(** C9 (counterexample). A reload whose file is missing does not empty a
    loaded knowledge base: the entry loaded at construction is still found. *)
Lemma reload_failure_keeps_old_corpus :
  let e := entry (py "инструктаж") [] in
  let kb := reload_faq (init (Loaded [e])) FileMissing in
  kb = [e] /\
  length (find_relevant_questions kb (py "инструктаж") (1 # 2) 5) = 1%nat.
Proof. cbv zeta. split; [reflexivity | vm_compute; reflexivity]. Qed.

(* ------------------------------------------------------------------ *)
(** C10 *)

(** C10 (amended). For a category without a policy
    [get_remaining_requests] returns 0 while the category check of
    [check_rate_limit] with [check_global=False] allows; for a configured
    category whose list for the user is empty or absent it returns the
    category's [max_requests]. *)
Theorem remaining_requests_spec (user_id : Z) (limit_type : str) (now : Z) (h : History)
    (Hu : limits limit_type = None) (limit_type' : str) (limit : RateLimit)
    (Hl : limits limit_type' = Some limit) (Hnone : hist h user_id limit_type' = []) :
  fst (get_remaining_requests user_id limit_type now h) = 0 /\
  result_of (check_rate_limit user_id limit_type false now h) = Ok (true, None) /\
  fst (get_remaining_requests user_id limit_type' now h) = max_requests limit.
Proof.
  split; [exact (remaining_unknown _ _ _ _ Hu)|]. split.
  - rewrite (check_rate_limit_unknown _ _ false _ _ Hu). reflexivity.
  - exact (remaining_fresh _ _ _ _ _ Hl Hnone).
Qed.

Lemma remaining_requests_spec_witness :
  fst (get_remaining_requests 1 (py "voice") 0 empty_history) = 0 /\
  result_of (check_rate_limit 1 (py "voice") false 0 empty_history) = Ok (true, None) /\
  fst (get_remaining_requests 1 (py "question") 0 empty_history) = max_requests question_limit.
Proof.
  exact (remaining_requests_spec 1 (py "voice") 0 empty_history ltac:(reflexivity)
           (py "question") question_limit ltac:(reflexivity) ltac:(reflexivity)).
Defined.

(** C10 (counterexample). The unknown category ["voice"] has 0 remaining
    requests, and the default [check_rate_limit(7, "voice")] refuses it when
    the user's global list is full. *)
Lemma remaining_unknown_check_refused :
  fst (get_remaining_requests 7 (py "voice") usec busy_history) = 0 /\
  exists m, result_of (check_rate_limit 7 (py "voice") true usec busy_history) = Ok (false, Some m).
Proof. split; [reflexivity|]. eexists. vm_compute. reflexivity. Qed.

End Claims.

(* ------------------------------------------------------------------ *)
(** ** The handlers' request gate *)

Module Gate.
Import RL Limiter.

Lemma purge_purge (cut cut' : Z) (l : list Z) :
  cut <= cut' -> purge cut' (purge cut l) = purge cut' l.
Proof.
  intros Hc. induction l as [|x l IH]; [reflexivity|]. simpl.
  destruct (cut <? x) eqn:E1; simpl.
  - destruct (cut' <? x); [f_equal|]; exact IH.
  - rewrite IH. apply Z.ltb_ge in E1.
    rewrite (proj2 (Z.ltb_ge cut' x)) by lia. reflexivity.
Qed.

Lemma purge_app (cut : Z) (l1 l2 : list Z) :
  purge cut (l1 ++ l2) = purge cut l1 ++ purge cut l2.
Proof. apply List.filter_app. Qed.

Lemma filter_length_mono {A} (f g : A -> bool) (l : list A) :
  (forall x, In x l -> f x = true -> g x = true) ->
  (length (List.filter f l) <= length (List.filter g l))%nat.
Proof.
  induction l as [|x l IH]; intros H; [reflexivity|]. simpl.
  assert (IH' : (length (List.filter f l) <= length (List.filter g l))%nat).
  { apply IH. intros y Hy. apply H. right. exact Hy. }
  destruct (f x) eqn:Ef.
  - rewrite (H x (or_introl eq_refl) Ef). simpl. lia.
  - destruct (g x); simpl; lia.
Qed.

Section Window.
Variables (u : Z) (c : str) (limit : RateLimit).
Hypothesis Hl : limits c = Some limit.
Hypothesis Hg : c <> GLOBAL.

Local Abbreviation W := (window_seconds limit * usec).

Lemma W_pos : 0 < W.
Proof. destruct (limits_category _ _ Hl Hg) as [_ ->]. reflexivity. Qed.

Definition is_uc (r : request) : bool :=
  bool_decide (req_user r = u) && bool_decide (req_type r = c).

Definition times_of (adm : list request) : list Z := map req_time (List.filter is_uc adm).

Definition in_window (t x : Z) : bool := (t - W <? x) && (x <=? t).

Definition Inv (T : Z) (h : History) (adm : list request) : Prop :=
  (exists cut, cut <= T - W /\ hist h u c = purge cut (times_of adm)) /\
  (forall x, In x (times_of adm) -> x <= T) /\
  (forall t, Z.of_nat (length (List.filter (in_window t) (times_of adm))) <= max_requests limit).

Lemma is_uc_iff (r : request) : is_uc r = true <-> req_user r = u /\ req_type r = c.
Proof. unfold is_uc. rewrite andb_true_iff, !bool_decide_eq_true. tauto. Qed.

Lemma times_of_app (adm : list request) (r : request) :
  times_of (adm ++ [r]) = times_of adm ++ (if is_uc r then [req_time r] else []).
Proof.
  unfold times_of. rewrite List.filter_app, map_app. simpl.
  destruct (is_uc r); reflexivity.
Qed.

Lemma check_rate_limit_hist_cat (user_id : Z) (limit_type : str) (now : Z) (h : History) :
  hist (history_of (check_rate_limit user_id limit_type true now h)) u c =
  if decide (user_id = u /\ limit_type = c) then purge (now - W) (hist h u c)
  else hist h u c.
Proof.
  assert (H1 : hist (history_of (check_specific_limit user_id limit_type now h)) u c =
               if decide (user_id = u /\ limit_type = c) then purge (now - W) (hist h u c)
               else hist h u c).
  { destruct (limits limit_type) as [lim'|] eqn:E.
    - rewrite (check_specific_history _ _ _ _ _ E), hist_set_hist.
      destruct (decide (user_id = u /\ limit_type = c)) as [[-> ->]|]; [|reflexivity].
      rewrite Hl in E. injection E as <-. reflexivity.
    - rewrite (check_specific_unknown _ _ _ _ E).
      destruct (decide (user_id = u /\ limit_type = c)) as [[_ ->]|]; [congruence|reflexivity]. }
  destruct (check_rate_limit_history user_id limit_type true now h) as [E|E];
    rewrite E; [exact H1|].
  rewrite (check_specific_history _ _ _ _ _ limits_global), hist_set_hist.
  rewrite decide_False by (intros [_ HG]; apply Hg; symmetry; exact HG).
  exact H1.
Qed.

Lemma check_rate_limit_ok_cat (now : Z) (h : History) (m : option str) :
  result_of (check_rate_limit u c true now h) = Ok (true, m) ->
  Z.of_nat (length (purge (now - W) (hist h u c))) < max_requests limit.
Proof.
  intros H. unfold check_rate_limit in H. unfold check_specific_limit at 1 in H.
  rewrite Hl in H.
  destruct (max_requests limit <=? Z.of_nat (length (purge (now - W) (hist h u c)))) eqn:E.
  - destruct (purge (now - W) (hist h u c)); unfold result_of in H; cbn [fst] in H;
      discriminate H.
  - apply Z.leb_gt in E. exact E.
Qed.

Lemma record_request_hist_cat (user_id : Z) (limit_type : str) (now : Z) (h : History) :
  hist (fst (record_request user_id limit_type true now h)) u c =
  if decide (user_id = u /\ limit_type = c) then hist h u c ++ [now] else hist h u c.
Proof.
  unfold record_request. cbn [fst]. rewrite !hist_set_hist.
  rewrite decide_False by (intros [_ HG]; apply Hg; symmetry; exact HG).
  destruct (decide (user_id = u /\ limit_type = c)) as [[-> ->]|]; reflexivity.
Qed.

Lemma Inv_same (T t' : Z) (h h' : History) (adm : list request) :
  Inv T h adm -> T <= t' -> hist h' u c = hist h u c -> Inv t' h' adm.
Proof.
  intros [[cut [Hc Hh]] [Hle Hcnt]] HT E. split; [|split].
  - exists cut. split; [lia|]. rewrite E. exact Hh.
  - intros x Hx. specialize (Hle x Hx). lia.
  - exact Hcnt.
Qed.

Lemma Inv_purged (T t' : Z) (h h' : History) (adm : list request) :
  Inv T h adm -> T <= t' -> hist h' u c = purge (t' - W) (times_of adm) -> Inv t' h' adm.
Proof.
  intros [_ [Hle Hcnt]] HT E. split; [|split].
  - exists (t' - W). split; [lia|exact E].
  - intros x Hx. specialize (Hle x Hx). lia.
  - exact Hcnt.
Qed.

Lemma Inv_other (T t' : Z) (h h' : History) (adm : list request) (r : request) :
  Inv T h adm -> T <= t' -> is_uc r = false -> hist h' u c = hist h u c ->
  Inv t' h' (adm ++ [r]).
Proof.
  intros HI HT Hr E. unfold Inv. rewrite times_of_app, Hr, app_nil_r.
  exact (Inv_same T t' h h' adm HI HT E).
Qed.

Lemma Inv_admit (T : Z) (h h' : History) (adm : list request) (r : request) :
  Inv T h adm -> T <= req_time r -> is_uc r = true ->
  Z.of_nat (length (purge (req_time r - W) (times_of adm))) < max_requests limit ->
  hist h' u c = purge (req_time r - W) (times_of adm) ++ [req_time r] ->
  Inv (req_time r) h' (adm ++ [r]).
Proof.
  intros [_ [Hle Hcnt]] HT Hr Hlt E. pose proof W_pos.
  set (t' := req_time r) in *.
  unfold Inv. rewrite times_of_app, Hr. split; [|split].
  - exists (t' - W). split; [lia|]. rewrite E, purge_app. simpl.
    rewrite (proj2 (Z.ltb_lt _ _)) by lia. reflexivity.
  - intros x Hx. apply in_app_or in Hx as [Hx|[<-|[]]]; [specialize (Hle x Hx); lia|lia].
  - intros t. rewrite List.filter_app, length_app. pose proof (Hcnt t) as Hct.
    cbn [List.filter]. fold t'. destruct (in_window t t') eqn:Ew; cbn [length]; [|lia].
    unfold in_window in Ew. apply andb_true_iff in Ew as [Ew1 Ew2].
    apply Z.ltb_lt in Ew1. apply Z.leb_le in Ew2.
    assert (Hm : (length (List.filter (in_window t) (times_of adm)) <=
                  length (purge (t' - W) (times_of adm)))%nat).
    { apply filter_length_mono. intros x Hx Hw.
      unfold in_window in Hw. apply andb_true_iff in Hw as [Hw _].
      apply Z.ltb_lt in Hw. apply Z.ltb_lt. lia. }
    lia.
Qed.

Lemma Inv_step (T : Z) (h : History) (adm : list request) (r : request) :
  Inv T h adm -> T <= req_time r ->
  Inv (req_time r) (snd (handle_request (req_user r) (req_type r) (req_time r) h))
      (adm ++ match fst (handle_request (req_user r) (req_type r) (req_time r) h) with
              | Ok true => [r] | _ => [] end).
Proof.
  intros HI HT.
  pose proof (check_rate_limit_hist_cat (req_user r) (req_type r) (req_time r) h) as Hc.
  pose proof HI as [[cut [Hcut Hh]] _].
  assert (HP : purge (req_time r - W) (hist h u c) = purge (req_time r - W) (times_of adm)).
  { rewrite Hh. apply purge_purge. lia. }
  unfold handle_request.
  destruct (check_rate_limit (req_user r) (req_type r) true (req_time r) h)
    as [[res hc] logs] eqn:EC.
  unfold history_of in Hc. cbn [fst snd] in Hc.
  destruct (decide (req_user r = u /\ req_type r = c)) as [[Hu Ht]|Huc].
  - assert (Hr : is_uc r = true) by (apply is_uc_iff; auto).
    destruct res as [[[] m]|e]; cbn [fst snd].
    + assert (Hlt := check_rate_limit_ok_cat (req_time r) h m).
      rewrite <- Hu, <- Ht, EC in Hlt. unfold result_of in Hlt. cbn [fst] in Hlt.
      specialize (Hlt eq_refl). rewrite Hu, Ht, HP in Hlt.
      apply (Inv_admit T h); [exact HI|exact HT|exact Hr|exact Hlt|].
      rewrite record_request_hist_cat, decide_True by auto. rewrite Hc, HP. reflexivity.
    + rewrite app_nil_r. apply (Inv_purged T _ h); [exact HI|exact HT|]. rewrite Hc, HP. reflexivity.
    + rewrite app_nil_r. apply (Inv_purged T _ h); [exact HI|exact HT|]. rewrite Hc, HP. reflexivity.
  - assert (Hr : is_uc r = false).
    { destruct (is_uc r) eqn:E; [|reflexivity]. apply is_uc_iff in E. contradiction. }
    destruct res as [[[] m]|e]; cbn [fst snd].
    + apply (Inv_other T _ h); [exact HI|exact HT|exact Hr|].
      rewrite record_request_hist_cat, decide_False by exact Huc. exact Hc.
    + rewrite app_nil_r. apply (Inv_same T _ h); [exact HI|exact HT|exact Hc].
    + rewrite app_nil_r. apply (Inv_same T _ h); [exact HI|exact HT|exact Hc].
Qed.

Lemma Inv_run (reqs : list request) (T : Z) (h : History) (adm : list request) :
  Inv T h adm -> Forall (fun r => T <= req_time r) reqs ->
  StronglySorted Z.le (map req_time reqs) ->
  exists T', Inv T' (snd (run_requests reqs h)) (adm ++ fst (run_requests reqs h)).
Proof.
  revert T h adm. induction reqs as [|r rest IH]; intros T h adm HI HF HS.
  - exists T. simpl. rewrite app_nil_r. exact HI.
  - inversion HF as [|? ? HTr HFr]; subst.
    simpl in HS. apply StronglySorted_inv in HS as [HSr HFm].
    pose proof (Inv_step T h adm r HI HTr) as Hstep.
    cbn [run_requests].
    destruct (handle_request (req_user r) (req_type r) (req_time r) h) as [res h1] eqn:EH.
    cbn [fst snd] in Hstep.
    assert (HF' : Forall (fun r' => req_time r <= req_time r') rest).
    { rewrite List.Forall_map in HFm. exact HFm. }
    destruct (IH (req_time r) h1 _ Hstep HF' HSr) as [T' HT'].
    destruct (run_requests rest h1) as [adm' h2]. exists T'. cbn [fst snd] in *.
    rewrite <- app_assoc in HT'.
    destruct res as [[]|e]; exact HT'.
Qed.

Lemma Inv_init (T : Z) (h : History) : hist h u c = [] -> Inv T h [].
Proof.
  intros E. split; [|split].
  - exists (T - W). split; [lia|]. rewrite E. reflexivity.
  - intros x [].
  - intros t. simpl. pose proof (limits_max_pos _ _ Hl). lia.
Qed.

(** Every request of [user_id] in [limit_type] admitted by a run of the
    gate from a history without such requests, with the clock never going
    back, stays within the policy: no window of [window_seconds] holds more
    than [max_requests] of them. *)
Lemma run_requests_window (reqs : list request) (h : History) :
  hist h u c = [] -> StronglySorted Z.le (map req_time reqs) ->
  forall t, Z.of_nat (length (List.filter (in_window t) (times_of (fst (run_requests reqs h)))))
            <= max_requests limit.
Proof.
  intros E HS.
  destruct reqs as [|r0 rest].
  - intros t. simpl. pose proof (limits_max_pos _ _ Hl). lia.
  - assert (HF : Forall (fun r => req_time r0 <= req_time r) (r0 :: rest)).
    { constructor; [lia|]. simpl in HS. apply StronglySorted_inv in HS as [_ HFm].
      rewrite List.Forall_map in HFm. exact HFm. }
    destruct (Inv_run (r0 :: rest) (req_time r0) h [] (Inv_init _ h E) HF HS) as [T' [_ [_ Hc]]].
    exact Hc.
Qed.

End Window.
End Gate.

(* ------------------------------------------------------------------ *)
(** ** Blocks and statistics of the corpus *)

Module Blocks.
Import KB.

Definition str_lt (a b : str) : Prop := str_ltb a b = true.

Lemma str_ltb_irrefl (a : str) : str_ltb a a = false.
Proof.
  induction a as [|x a IH]; [reflexivity|]. simpl.
  rewrite Z.ltb_irrefl, Z.eqb_refl, IH. reflexivity.
Qed.

Lemma str_ltb_trans (a b d : str) : str_lt a b -> str_lt b d -> str_lt a d.
Proof.
  unfold str_lt. revert b d. induction a as [|x a IH]; intros [|y b] [|z d]; simpl;
    try discriminate; try reflexivity.
  rewrite !orb_true_iff, !andb_true_iff, !Z.ltb_lt, !Z.eqb_eq.
  intros [Hxy|[-> Hab]] [Hyz|[<- Hbd]].
  - left. lia.
  - left. exact Hxy.
  - left. exact Hyz.
  - right. split; [reflexivity|]. exact (IH _ _ Hab Hbd).
Qed.

Lemma str_ltb_total (a b : str) : a <> b -> str_lt a b \/ str_lt b a.
Proof.
  unfold str_lt. revert b. induction a as [|x a IH]; intros [|y b] Hne; simpl;
    [congruence|left; reflexivity|right; reflexivity|].
  rewrite !orb_true_iff, !andb_true_iff, !Z.ltb_lt, !Z.eqb_eq.
  destruct (Z.lt_trichotomy x y) as [Hxy|[<-|Hxy]].
  - left. left. exact Hxy.
  - assert (a <> b) by congruence. destruct (IH b H) as [H1|H1].
    + left. right. auto.
    + right. right. auto.
  - right. left. exact Hxy.
Qed.

Lemma insert_str_in (x z : str) (l : list str) : In z (insert_str x l) <-> z = x \/ In z l.
Proof.
  induction l as [|y l IH]; simpl; [intuition congruence|].
  destruct (str_ltb y x); simpl; rewrite ?IH; intuition congruence.
Qed.

Lemma insert_str_sorted (x : str) (l : list str) :
  StronglySorted str_lt l -> ~ In x l -> StronglySorted str_lt (insert_str x l).
Proof.
  induction l as [|y l IH]; intros HS Hx; simpl.
  - repeat constructor.
  - apply StronglySorted_inv in HS as [HS HF].
    destruct (str_ltb y x) eqn:E.
    + constructor.
      * apply IH; [exact HS|]. intros H. apply Hx. right. exact H.
      * apply List.Forall_forall. intros z Hz. apply insert_str_in in Hz as [->|Hz].
        -- exact E.
        -- exact (proj1 (List.Forall_forall _ _) HF z Hz).
    + assert (Hxy : str_lt x y).
      { destruct (str_ltb_total x y) as [H|H]; [intros ->; apply Hx; left; reflexivity|exact H|].
        unfold str_lt in H. congruence. }
      constructor; [constructor; assumption|].
      constructor; [exact Hxy|].
      apply List.Forall_forall. intros z Hz.
      exact (str_ltb_trans _ _ _ Hxy (proj1 (List.Forall_forall _ _) HF z Hz)).
Qed.

Lemma py_sorted_str_spec (l : list str) :
  NoDup l -> StronglySorted str_lt (py_sorted_str l) /\
             (forall z, In z (py_sorted_str l) <-> In z l).
Proof.
  induction l as [|x l IH]; intros Hnd.
  - split; [constructor|]. simpl. tauto.
  - apply NoDup_cons in Hnd as [Hx Hnd]. rewrite list_elem_of_In in Hx.
    destruct (IH Hnd) as [HS Hin].
    unfold py_sorted_str in *. simpl. split.
    + apply insert_str_sorted; [exact HS|]. rewrite Hin. exact Hx.
    + intros z. rewrite insert_str_in, Hin. intuition.
Qed.

Lemma existsb_eq_in (x : str) (l : list str) :
  existsb (fun y => bool_decide (y = x)) l = true <-> In x l.
Proof.
  rewrite existsb_exists. split.
  - intros [y [Hy E]]. apply bool_decide_eq_true in E. subst. exact Hy.
  - intros H. exists x. split; [exact H|]. apply bool_decide_eq_true. reflexivity.
Qed.

Definition set_step (acc : list str) (x : str) : list str :=
  if existsb (fun y => bool_decide (y = x)) acc then acc else acc ++ [x].

Lemma py_set_of_aux (l acc : list str) :
  NoDup acc ->
  NoDup (fold_left set_step l acc) /\
  (forall z, In z (fold_left set_step l acc) <-> In z acc \/ In z l).
Proof.
  revert acc. induction l as [|x l IH]; intros acc Hnd; simpl.
  - split; [exact Hnd|]. tauto.
  - assert (Hnd' : NoDup (set_step acc x)).
    { unfold set_step. destruct (existsb _ acc) eqn:E; [exact Hnd|].
      apply NoDup_app. split; [exact Hnd|]. split; [|apply NoDup_singleton].
      intros y Hy Hy'. apply list_elem_of_singleton in Hy'. subst y.
      apply list_elem_of_In in Hy. apply existsb_eq_in in Hy. congruence. }
    destruct (IH _ Hnd') as [H1 H2]. split; [exact H1|].
    intros z. rewrite H2. unfold set_step.
    destruct (existsb _ acc) eqn:E.
    + apply existsb_eq_in in E. split; [tauto|]. intros [H|[<-|H]]; auto.
    + rewrite in_app_iff. simpl. intuition.
Qed.

Lemma py_set_of_spec (l : list str) :
  NoDup (py_set_of l) /\ (forall z, In z (py_set_of l) <-> In z l).
Proof.
  destruct (py_set_of_aux l [] (NoDup_nil_2)) as [H1 H2]. split; [exact H1|].
  intros z. unfold py_set_of. fold set_step. rewrite H2. simpl. tauto.
Qed.

Lemma filter_nonempty {A} (f : A -> bool) (l : list A) :
  List.filter f l <> [] <-> exists x, In x l /\ f x = true.
Proof.
  induction l as [|x l IH]; simpl.
  - split; [congruence|]. intros [? [[] _]].
  - destruct (f x) eqn:E.
    + split; [eauto|]. discriminate.
    + rewrite IH. split.
      * intros [y [Hy Hf]]. eauto.
      * intros [y [[<-|Hy] Hf]]; [congruence|eauto].
Qed.

Lemma in_blocks_iff (faq_data : list FAQEntry) (b : str) :
  In b (map block faq_data) <-> get_questions_by_block faq_data b <> [].
Proof.
  unfold get_questions_by_block. rewrite filter_nonempty, in_map_iff.
  split.
  - intros [e [<- He]]. exists e. split; [exact He|]. apply bool_decide_eq_true. reflexivity.
  - intros [e [He E]]. apply bool_decide_eq_true in E. eauto.
Qed.

Lemma get_questions_by_block_spec (faq_data : list FAQEntry) (b : str) (e : FAQEntry) :
  In e (get_questions_by_block faq_data b) <-> In e faq_data /\ block e = b.
Proof.
  unfold get_questions_by_block. rewrite filter_In, bool_decide_eq_true. reflexivity.
Qed.

(** Statistics. *)

Fixpoint dget (d : list (str * Z)) (k : str) : Z :=
  match d with
  | [] => 0
  | (k', v) :: r => if bool_decide (k' = k) then v else dget r k
  end.

Lemma dict_incr_keys (d : list (str * Z)) (k : str) :
  map fst (dict_incr d k) = set_step (map fst d) k.
Proof.
  unfold set_step. induction d as [|[k' v] r IH]; [reflexivity|]. simpl.
  destruct (bool_decide (k' = k)) eqn:E; simpl; [reflexivity|].
  rewrite IH. destruct (existsb _ (map fst r)); reflexivity.
Qed.

Lemma dict_incr_dget (d : list (str * Z)) (k b : str) :
  dget (dict_incr d k) b = dget d b + (if bool_decide (k = b) then 1 else 0).
Proof.
  induction d as [|[k' v] r IH]; simpl.
  - destruct (bool_decide (k = b)); reflexivity.
  - destruct (bool_decide (k' = k)) eqn:E1; simpl.
    + apply bool_decide_eq_true in E1. subst k'.
      destruct (bool_decide (k = b)); lia.
    + destruct (bool_decide (k' = b)) eqn:E2; [|exact IH].
      apply bool_decide_eq_true in E2. apply bool_decide_eq_false in E1. subst.
      rewrite bool_decide_false by congruence. lia.
Qed.

Lemma dget_in (d : list (str * Z)) (b : str) (v : Z) :
  NoDup (map fst d) -> In (b, v) d -> dget d b = v.
Proof.
  induction d as [|[k' v'] r IH]; intros Hnd Hin; [destruct Hin|]. simpl in *.
  apply NoDup_cons in Hnd as [Hk Hnd].
  destruct Hin as [E|Hin].
  - injection E as -> ->. rewrite bool_decide_true by reflexivity. reflexivity.
  - rewrite bool_decide_false; [exact (IH Hnd Hin)|].
    intros ->. apply Hk. apply list_elem_of_In. apply in_map_iff. exists (b, v). auto.
Qed.

Definition dict_step (d : list (str * Z)) (item : FAQEntry) : list (str * Z) :=
  dict_incr d (block item).

Lemma stats_fold (l : list FAQEntry) (d : list (str * Z)) (n : Z) :
  fold_left (fun '(blocks, urls_count) item =>
               (dict_incr blocks (block item),
                if has_url item then urls_count + 1 else urls_count)) l (d, n) =
  (fold_left dict_step l d, n + Z.of_nat (length (List.filter has_url l))).
Proof.
  revert d n. induction l as [|x l IH]; intros d n; simpl; [f_equal; lia|].
  rewrite IH. unfold dict_step. destruct (has_url x); simpl; f_equal; lia.
Qed.

Lemma dict_fold_keys (l : list FAQEntry) (d : list (str * Z)) :
  map fst (fold_left dict_step l d) = fold_left set_step (map block l) (map fst d).
Proof.
  revert d. induction l as [|x l IH]; intros d; [reflexivity|]. simpl.
  rewrite IH. unfold dict_step. rewrite dict_incr_keys. reflexivity.
Qed.

Lemma dict_fold_dget (l : list FAQEntry) (d : list (str * Z)) (b : str) :
  dget (fold_left dict_step l d) b =
  dget d b + Z.of_nat (length (get_questions_by_block l b)).
Proof.
  revert d. induction l as [|x l IH]; intros d; simpl; [lia|].
  rewrite IH. unfold dict_step. rewrite dict_incr_dget.
  unfold get_questions_by_block. simpl.
  destruct (bool_decide (block x = b)); simpl; lia.
Qed.

End Blocks.

(** * Remaining requests, clearing and cleanup of the rate limiter *)
Module RLX.
Import RL Limiter.

Lemma check_specific_empty (user_id : Z) (limit_type : str) (now : Z) (h : History)
    (limit : RateLimit) :
  limits limit_type = Some limit -> hist h user_id limit_type = [] ->
  check_specific_limit user_id limit_type now h =
    (Ok (true, None), set_hist h user_id limit_type [], []).
Proof.
  intros Hl He. pose proof (limits_max_pos _ _ Hl).
  unfold check_specific_limit. rewrite Hl, He. cbn [purge List.filter length Z.of_nat].
  rewrite (proj2 (Z.leb_gt _ _)) by lia. reflexivity.
Qed.

Lemma check_rate_limit_empty (user_id : Z) (limit_type : str) (check_global : bool)
    (now : Z) (h : History) :
  hist h user_id limit_type = [] -> hist h user_id GLOBAL = [] ->
  result_of (check_rate_limit user_id limit_type check_global now h) = Ok (true, None).
Proof.
  intros Hc Hg. unfold check_rate_limit.
  destruct (limits limit_type) as [limit|] eqn:El.
  - rewrite (check_specific_empty _ _ _ _ _ El Hc).
    destruct check_global; [|reflexivity].
    rewrite (check_specific_empty _ _ _ _ _ limits_global); [reflexivity|].
    rewrite hist_set_hist. destruct (decide _); [reflexivity|exact Hg].
  - rewrite (check_specific_unknown _ _ _ _ El).
    destruct check_global; [|reflexivity].
    rewrite (check_specific_empty _ _ _ _ _ limits_global Hg). reflexivity.
Qed.

Lemma remaining_bounds (user_id : Z) (limit_type : str) (now : Z) (h : History)
    (limit : RateLimit) :
  limits limit_type = Some limit ->
  0 <= fst (get_remaining_requests user_id limit_type now h) <= max_requests limit.
Proof.
  intros Hl. pose proof (limits_max_pos _ _ Hl).
  unfold get_remaining_requests. rewrite Hl.
  destruct (h !! user_id) as [uh|]; [|cbn [fst]; lia].
  destruct (uh !! limit_type) as [l|]; cbn [fst]; lia.
Qed.

Lemma remaining_value (user_id : Z) (limit_type : str) (now : Z) (h : History)
    (limit : RateLimit) :
  limits limit_type = Some limit ->
  fst (get_remaining_requests user_id limit_type now h) =
  Z.max 0 (max_requests limit -
           Z.of_nat (length (purge (now - window_seconds limit * usec)
                                   (hist h user_id limit_type)))).
Proof.
  intros Hl. pose proof (limits_max_pos _ _ Hl).
  unfold get_remaining_requests, hist. rewrite Hl.
  destruct (h !! user_id) as [uh|]; [|cbn [fst purge List.filter length Z.of_nat]; lia].
  destruct (uh !! limit_type) as [l|]; cbn [fst purge List.filter length Z.of_nat];
    [reflexivity|lia].
Qed.

Lemma check_specific_ok_iff (user_id : Z) (limit_type : str) (now : Z) (h : History)
    (limit : RateLimit) :
  limits limit_type = Some limit ->
  (result_of (check_specific_limit user_id limit_type now h) = Ok (true, None) <->
   Z.of_nat (length (purge (now - window_seconds limit * usec) (hist h user_id limit_type)))
     < max_requests limit).
Proof.
  intros Hl. unfold check_specific_limit. rewrite Hl.
  destruct (max_requests limit <=? _) eqn:E.
  - apply Z.leb_le in E. split; [|lia].
    destruct (purge _ _); unfold result_of; cbn [fst]; discriminate.
  - apply Z.leb_gt in E. split; [lia|reflexivity].
Qed.

Lemma remaining_check_agree (user_id : Z) (limit_type : str) (now : Z) (h : History)
    (limit : RateLimit) :
  limits limit_type = Some limit ->
  0 <= fst (get_remaining_requests user_id limit_type now h) <= max_requests limit /\
  (0 < fst (get_remaining_requests user_id limit_type now h) <->
   result_of (check_specific_limit user_id limit_type now h) = Ok (true, None)).
Proof.
  intros Hl. split; [exact (remaining_bounds _ _ _ _ _ Hl)|].
  rewrite (remaining_value _ _ _ _ _ Hl), (check_specific_ok_iff _ _ _ _ _ Hl). lia.
Qed.

Lemma clear_hist (user_id u : Z) (lt : str) (h : History) :
  hist (fst (clear_user_history user_id h)) u lt =
  if decide (u = user_id) then [] else hist h u lt.
Proof.
  unfold clear_user_history, hist.
  destruct (h !! user_id) as [uh|] eqn:E; cbn [fst].
  - rewrite lookup_delete. destruct (decide (user_id = u)), (decide (u = user_id));
      congruence.
  - destruct (decide (u = user_id)); [subst; rewrite E|]; reflexivity.
Qed.

Lemma clear_log (user_id : Z) (h : History) :
  snd (clear_user_history user_id h) = [] <-> h !! user_id = None.
Proof.
  unfold clear_user_history. destruct (h !! user_id); cbn [snd]; split; congruence.
Qed.

Lemma cleanup_raise (days now : Z) (h : History) :
  cleanup_overflows days now = true ->
  cleanup_old_history days now h = (Raise (py "OverflowError"), h, []).
Proof. intros Ho. unfold cleanup_old_history. rewrite Ho. reflexivity. Qed.

Lemma cleanup_ok (days now : Z) (h : History) :
  cleanup_overflows days now = false -> result_of (cleanup_old_history days now h) = Ok tt.
Proof. intros Ho. unfold cleanup_old_history. rewrite Ho. reflexivity. Qed.

Lemma cleanup_lookup (days now : Z) (h : History) (u : Z) :
  cleanup_overflows days now = false ->
  history_of (cleanup_old_history days now h) !! u =
  match h !! u with
  | Some uh =>
      if decide (map_Forall (fun (_ : str) (l : list Z) => l = [])
                            (purge (now - days * 86400 * usec) <$> uh))
      then None else Some (purge (now - days * 86400 * usec) <$> uh)
  | None => None
  end.
Proof.
  intros Ho. unfold cleanup_old_history. rewrite Ho. unfold history_of. cbn [fst snd].
  destruct (filter _ _ !! u) as [x|] eqn:E.
  - apply map_lookup_filter_Some in E as [E1 E2].
    rewrite lookup_fmap in E1. destruct (h !! u) as [uh|]; [|discriminate].
    injection E1 as <-. cbn in E2. rewrite decide_False by exact E2. reflexivity.
  - apply map_lookup_filter_None in E. rewrite lookup_fmap in E.
    destruct (h !! u) as [uh|]; [|reflexivity].
    destruct E as [E|E]; [discriminate|]. specialize (E _ eq_refl). cbn in E.
    destruct (decide _) as [HF|HF]; [reflexivity|tauto].
Qed.

Lemma cleanup_hist (days now : Z) (h : History) (u : Z) (lt : str) :
  cleanup_overflows days now = false ->
  hist (history_of (cleanup_old_history days now h)) u lt =
  purge (now - days * 86400 * usec) (hist h u lt).
Proof.
  intros Ho. unfold hist at 1. rewrite (cleanup_lookup _ _ _ _ Ho). unfold hist.
  destruct (h !! u) as [uh|]; [|reflexivity].
  destruct (decide _) as [HF|HF].
  - destruct (uh !! lt) as [l|] eqn:E; [|reflexivity].
    symmetry. apply (HF lt). rewrite lookup_fmap, E. reflexivity.
  - rewrite lookup_fmap. destruct (uh !! lt); reflexivity.
Qed.

Lemma cleanup_kept (days now : Z) (h : History) (u : Z) (uh : gmap str (list Z)) :
  cleanup_overflows days now = false ->
  history_of (cleanup_old_history days now h) !! u = Some uh ->
  exists lt l, uh !! lt = Some l /\ l <> [].
Proof.
  intros Ho. rewrite (cleanup_lookup _ _ _ _ Ho). destruct (h !! u) as [uh0|]; [|discriminate].
  destruct (decide _) as [HF|HF]; [discriminate|]. injection 1 as <-.
  apply (map_not_Forall (fun _ l => l = [])) in HF.
  destruct HF as [lt [l [E Hl]]]. exists lt, l. split; assumption.
Qed.

(** [cleanup_overflows] in arithmetic form. *)
Lemma cleanup_overflows_false (days now : Z) :
  cleanup_overflows days now = false <->
  Z.abs days <= 999999999 /\
  datetime_min <= now - days * 86400 * usec <= datetime_max.
Proof.
  unfold cleanup_overflows. rewrite orb_false_iff, negb_false_iff, andb_true_iff,
    Z.ltb_ge, !Z.leb_le. tauto.
Qed.

End RLX.

(** * The answer chosen by [get_answer_with_validation] *)
Module Best.
Import KB Ranking Answer.

Lemma filter_filter_andb {A} (f g : A -> bool) (l : list A) :
  List.filter g (List.filter f l) = List.filter (fun x => f x && g x) l.
Proof.
  induction l as [|x l IH]; cbn [List.filter]; [reflexivity|].
  destruct (f x); cbn [andb List.filter]; [destruct (g x)|]; rewrite ?IH; reflexivity.
Qed.

Lemma filter_map_first {A B} (f : A -> B) (g : B -> bool) (l : list A) y rest :
  List.filter g (map f l) = y :: rest ->
  exists pre x post, l = pre ++ x :: post /\ f x = y /\
    forall z, In z pre -> g (f z) = false.
Proof.
  induction l as [|x l IH]; cbn [map List.filter]; [discriminate|].
  destruct (g (f x)) eqn:E.
  - injection 1 as Hy _. exists [], x, l. split; [reflexivity|]. split; [exact Hy|].
    intros z [].
  - intros H. destruct (IH H) as [pre [x' [post [-> [Hf Hp]]]]].
    exists (x :: pre), x', post. split; [reflexivity|]. split; [exact Hf|].
    intros z [<-|Hz]; [exact E|auto].
Qed.

Lemma py_slice_to_one {A} (l : list A) : py_slice_to l 1 = firstn 1 l.
Proof. reflexivity. Qed.

Lemma sort_desc_same_score (v : Q) (l : list (FAQEntry * Q)) :
  List.filter (fun p => Qeq_bool (snd p) v) (sort_desc l) =
  List.filter (fun p => Qeq_bool (snd p) v) l.
Proof. exact (sort_desc_with_score v l). Qed.

Lemma Qeq_bool_refl' (x : Q) : Qeq_bool x x = true.
Proof. apply Qeq_bool_iff. reflexivity. Qed.

Lemma get_answer_best faq query check_urls head d :
  get_answer_with_validation faq query check_urls head = Some d ->
  exists pre e post, faq = pre ++ e :: post /\
    d = answer_of e (calculate_similarity query (question e)) (ad_url_valid d) (ad_url_status d) /\
    (1 # 2 <= ad_similarity_score d)%Q /\
    (forall e', In e' faq ->
       (calculate_similarity query (question e') <= ad_similarity_score d)%Q) /\
    (forall e', In e' pre ->
       (calculate_similarity query (question e') < ad_similarity_score d)%Q) /\
    (ad_url_valid d = None <-> check_urls = false \/ legal_url e = []).
Proof.
  unfold get_answer_with_validation.
  destruct (find_relevant_questions faq query (1 # 2) 1) as [|[best s] rest] eqn:Hf;
    [discriminate|].
  set (sc := fun item => (item, calculate_similarity query (question item))).
  set (P := List.filter (fun p => Qle_bool (1 # 2) (snd p)) (map sc faq)).
  assert (Hsort : exists rest', sort_desc P = (best, s) :: rest').
  { unfold find_relevant_questions in Hf. destruct faq as [|e0 faq0]; [discriminate|].
    rewrite py_slice_to_one in Hf. fold sc P in Hf.
    destruct (sort_desc P) as [|p l'] eqn:Es; cbn [firstn] in Hf; [discriminate|].
    injection Hf as -> _. exists l'. reflexivity. }
  destruct Hsort as [rest' Hsort].
  assert (HinP : In (best, s) P).
  { apply sort_desc_in. rewrite Hsort. left. reflexivity. }
  unfold P in HinP. apply filter_In in HinP as [Hm Hhalf]. apply Qle_bool_iff in Hhalf.
  apply in_map_iff in Hm as [e [He Hin]]. unfold sc in He. injection He as -> Hs.
  subst s.
  set (s := calculate_similarity query (question best)) in *.
  assert (Hmax : forall e', In e' faq -> (calculate_similarity query (question e') <= s)%Q).
  { intros e' He'. destruct (Qle_bool (1 # 2) (calculate_similarity query (question e')))
      eqn:Eq.
    - assert (Hp : In (sc e') (sort_desc P)).
      { apply sort_desc_in. unfold P. apply filter_In. split; [apply in_map; exact He'|].
        exact Eq. }
      rewrite Hsort in Hp. destruct Hp as [Hp|Hp].
      + unfold sc in Hp. injection Hp as _ <-. apply Qle_refl.
      + pose proof (sort_desc_sorted P) as Hss. rewrite Hsort in Hss.
        apply StronglySorted_inv in Hss as [_ Hall].
        rewrite List.Forall_forall in Hall. exact (Hall _ Hp).
    - apply Qle_trans with (1 # 2); [|exact Hhalf].
      apply Qlt_le_weak, Qnot_le_lt. intros Hle. apply Qle_bool_iff in Hle. congruence. }
  assert (Hfirst : exists pre post, faq = pre ++ best :: post /\
            forall e', In e' pre -> (calculate_similarity query (question e') < s)%Q).
  { pose proof (sort_desc_same_score s P) as Hw. rewrite Hsort in Hw.
    cbn [List.filter snd] in Hw.
    rewrite Qeq_bool_refl' in Hw. unfold P in Hw. rewrite filter_filter_andb in Hw.
    symmetry in Hw. apply filter_map_first in Hw as [pre [x [post [-> [Hx Hpre]]]]].
    unfold sc in Hx. injection Hx as -> _.
    exists pre, post. split; [reflexivity|]. intros z Hz.
    specialize (Hpre z Hz). unfold sc in Hpre. cbn [snd] in Hpre.
    assert (Hle : (calculate_similarity query (question z) <= s)%Q).
    { apply Hmax. apply in_or_app. left. exact Hz. }
    apply andb_false_iff in Hpre as [Hpre|Hpre].
    - apply Qlt_le_trans with (1 # 2); [|exact Hhalf].
      apply Qnot_le_lt. intros H'. apply Qle_bool_iff in H'. congruence.
    - apply Qle_lt_or_eq in Hle as [Hlt|Heq]; [exact Hlt|].
      apply Qeq_bool_iff in Heq. congruence. }
  destruct Hfirst as [pre [post [Hfaq Hpre]]].
  destruct (Qlt_bool s (3 # 10)); [discriminate|].
  destruct (check_urls && negb (bool_decide (legal_url best = []))) eqn:Ec.
  - destruct (check_url_validity (legal_url best) head) as [v st].
    injection 1 as <-. exists pre, best, post. cbn [ad_similarity_score ad_url_valid].
    split; [exact Hfaq|]. split; [reflexivity|]. split; [exact Hhalf|].
    split; [exact Hmax|]. split; [exact Hpre|].
    split; [discriminate|]. apply andb_true_iff in Ec as [-> Ec].
    rewrite negb_true_iff, bool_decide_eq_false in Ec. intros [H|H]; congruence.
  - injection 1 as <-. exists pre, best, post. cbn [ad_similarity_score ad_url_valid].
    split; [exact Hfaq|]. split; [reflexivity|]. split; [exact Hhalf|].
    split; [exact Hmax|]. split; [exact Hpre|].
    split; [|reflexivity]. intros _. destruct check_urls; [right|left; reflexivity].
    cbn [andb] in Ec. rewrite negb_false_iff, bool_decide_eq_true in Ec. exact Ec.
Qed.

End Best.

(** * [_extract_article_number] on a well-formed citation *)
Module Article.
Import KB.

Lemma space_range (c : Z) : is_space c = true -> 0 <= c <= 12288.
Proof.
  unfold is_space. intros E. repeat rewrite orb_true_iff in E.
  repeat destruct E as [E|E]; rewrite ?andb_true_iff, ?Z.leb_le, ?Z.eqb_eq in E; lia.
Qed.

Lemma digit_space_table :
  forallb (fun c => negb (is_digit c && is_space c)) (map Z.of_nat (seq 0 (Z.to_nat 12289))) = true.
Proof. vm_compute. reflexivity. Qed.

Lemma digit_not_space (c : Z) : is_digit c = true -> is_space c = false.
Proof.
  intros H. destruct (is_space c) eqn:E; [|reflexivity]. exfalso.
  pose proof (space_range c E) as Hr.
  assert (Hin : In c (map Z.of_nat (seq 0 (Z.to_nat 12289)))).
  { apply in_map_iff. exists (Z.to_nat c). split; [lia|]. apply in_seq. lia. }
  pose proof (proj1 (forallb_forall _ _) digit_space_table c Hin) as Hc.
  cbv beta in Hc. rewrite H, E in Hc. discriminate Hc.
Qed.

Lemma span_digits_app (d t : str) :
  forallb is_digit d = true ->
  (t = [] \/ exists c r, t = c :: r /\ is_digit c = false) ->
  span_digits (d ++ t) = (d, t).
Proof.
  intros Hd Ht. induction d as [|c d IH].
  - destruct Ht as [->|[c [r [-> Hc]]]]; [reflexivity|]. cbn [app span_digits]. rewrite Hc. reflexivity.
  - cbn [forallb] in Hd. apply andb_true_iff in Hd as [Hc Hd].
    cbn [app span_digits]. rewrite Hc, (IH Hd). reflexivity.
Qed.

Lemma drop_spaces_app (w s : str) :
  forallb is_space w = true ->
  (s = [] \/ exists c r, s = c :: r /\ is_space c = false) ->
  drop_spaces (w ++ s) = s.
Proof.
  intros Hw Hs. induction w as [|c w IH].
  - destruct Hs as [->|[c [r [-> Hc]]]]; [reflexivity|]. cbn. rewrite Hc. reflexivity.
  - cbn [forallb] in Hw. apply andb_true_iff in Hw as [Hc Hw].
    cbn [app drop_spaces]. rewrite Hc. exact (IH Hw).
Qed.

Lemma py_st : py "ст." = [1089; 1090; 46].
Proof. vm_compute. reflexivity. Qed.

Lemma article_search_skip (p s : str) :
  ~ In 1089 p -> article_search (p ++ s) = article_search s.
Proof.
  induction p as [|c p IH]; intros Hp; [reflexivity|].
  cbn [app]. unfold article_search at 1. fold article_search.
  unfold article_match_at. rewrite py_st. cbn [is_prefix].
  rewrite (proj2 (Z.eqb_neq 1089 c)) by (intros <-; apply Hp; left; reflexivity).
  cbn [andb]. apply IH. intros H. apply Hp. right. exact H.
Qed.

Lemma extract_article_number_app (p w d tail : str) :
  ~ In 1089 p -> forallb is_space w = true ->
  d <> [] -> forallb is_digit d = true ->
  (tail = [] \/ exists c r, tail = c :: r /\ is_digit c = false /\ c <> 46) ->
  extract_article_number (p ++ py "ст." ++ w ++ d ++ tail) = py "st-" ++ d.
Proof.
  intros Hp Hw Hd Hdig Ht. unfold extract_article_number.
  rewrite article_search_skip by exact Hp.
  assert (Hm : article_match_at (py "ст." ++ w ++ d ++ tail) = Some d).
  { unfold article_match_at. rewrite py_st.
    cbn [app is_prefix Z.eqb Pos.eqb andb skipn]. rewrite skipn_O.
    rewrite (drop_spaces_app w (d ++ tail) Hw).
    2:{ right. destruct d as [|c d']; [congruence|]. exists c, (d' ++ tail).
        split; [reflexivity|]. apply digit_not_space.
        cbn [forallb] in Hdig. apply andb_true_iff in Hdig. tauto. }
    rewrite (span_digits_app d tail Hdig).
    2:{ destruct Ht as [->|[c [r [-> [Hc _]]]]]; [left; reflexivity|].
        right. exists c, r. split; [reflexivity|exact Hc]. }
    destruct d as [|c d']; [congruence|].
    destruct Ht as [->|[c' [r [-> [_ Hc']]]]]; [reflexivity|].
    destruct (Z.eq_dec c' 46) as [->|Hne]; [congruence|].
    destruct c' as [|q|q]; try reflexivity.
    do 6 (destruct q as [q|q|]; try reflexivity). congruence. }
  rewrite py_st in Hm |- *. cbn [app] in Hm |- *.
  unfold article_search. rewrite Hm. reflexivity.
Qed.

End Article.

(** * Rendering of the citation in [format_answer_for_user] *)
Module Render.
Import KB Answer.

(** The same answer with another stored link and link-check result. *)
Definition relink (d : AnswerData) (url : str) (url_valid : option bool)
    (url_status : option Z) : AnswerData :=
  {| ad_question := ad_question d;
     ad_answer := ad_answer d;
     ad_legal_reference := ad_legal_reference d;
     ad_legal_url := url;
     ad_block := ad_block d;
     ad_current_as_of := ad_current_as_of d;
     ad_similarity_score := ad_similarity_score d;
     ad_url_valid := url_valid;
     ad_url_status := url_status |}.

Lemma contains_nil_tk : contains (py "ТК РФ") [] = false.
Proof. vm_compute. reflexivity. Qed.

Lemma format_lines_tk (d : AnswerData) (url : str) (v : option bool) (st : option Z) :
  contains (py "ТК РФ") (ad_legal_reference d) = true ->
  format_lines (relink d url v st) = format_lines d /\
  (extract_article_number (ad_legal_reference d) <> [] ->
   In (py "✅ <b>Ссылка:</b> " ++ py "https://www.consultant.ru/document/cons_doc_LAW_34683/"
       ++ extract_article_number (ad_legal_reference d) ++ py "/") (format_lines d)) /\
  (extract_article_number (ad_legal_reference d) = [] ->
   In advisory_line (format_lines d)).
Proof.
  intros Htk.
  assert (Hne : ad_legal_reference d <> []).
  { intros He. rewrite He, contains_nil_tk in Htk. discriminate. }
  unfold format_lines, relink. cbv zeta.
  cbn [ad_legal_reference ad_legal_url ad_question ad_answer ad_block ad_current_as_of
       ad_similarity_score ad_url_valid ad_url_status].
  rewrite Htk, (bool_decide_false _ Hne). cbn [negb andb].
  split; [reflexivity|]. split.
  - intros Ha. rewrite (bool_decide_false _ Ha). cbn [negb].
    apply in_or_app. right. apply in_or_app. left. right. left. reflexivity.
  - intros Ha. rewrite Ha, bool_decide_true by reflexivity. cbn [negb].
    apply in_or_app. right. apply in_or_app. left. right. left. reflexivity.
Qed.

Lemma format_lines_government (d : AnswerData) :
  ad_legal_url d <> [] ->
  contains (py "ТК РФ") (ad_legal_reference d) = false ->
  is_government_source (ad_legal_url d) = true ->
  In (legal_ref_line (ad_legal_reference d)) (format_lines d) /\
  (ad_url_valid d = Some true ->
   In (py "✅" ++ py " <b>Ссылка:</b> " ++ ad_legal_url d) (format_lines d)) /\
  (ad_url_valid d <> Some true ->
   In (py "⚠️" ++ py " <b>Ссылка:</b> " ++ ad_legal_url d) (format_lines d)) /\
  (ad_url_valid d = Some false ->
   In (py "<i>⚠️ Внимание: ссылка может быть недоступна (код "
       ++ show_status (ad_url_status d) ++ py ")</i>") (format_lines d)).
Proof.
  intros Hu Htk Hg.
  assert (Hpart : forall x, In x ([legal_ref_line (ad_legal_reference d);
       (if bool_decide (ad_url_valid d = Some true) then py "✅" else py "⚠️")
       ++ py " <b>Ссылка:</b> " ++ ad_legal_url d]
       ++ (if bool_decide (ad_url_valid d = Some false)
           then [py "<i>⚠️ Внимание: ссылка может быть недоступна (код "
                 ++ show_status (ad_url_status d) ++ py ")</i>"] else [])) ->
       In x (format_lines d)).
  { intros x Hx. unfold format_lines. cbv zeta.
    rewrite Htk, andb_false_r, (bool_decide_false _ Hu), Hg. cbn [negb andb].
    apply in_or_app. right. apply in_or_app. left. exact Hx. }
  split; [|split; [|split]].
  - apply Hpart. left. reflexivity.
  - intros Hv. apply Hpart. right. left. rewrite bool_decide_true by exact Hv.
    reflexivity.
  - intros Hv. apply Hpart. right. left. rewrite bool_decide_false by exact Hv.
    reflexivity.
  - intros Hv. apply Hpart. apply in_or_app. right.
    rewrite bool_decide_true by exact Hv. left. reflexivity.
Qed.

End Render.

(** * Verdicts that depend only on the timestamps inside the windows *)
Module RLY.
Import RL Limiter.

Lemma limits_window (lt : str) (limit : RateLimit) :
  limits lt = Some limit -> 0 < window_seconds limit <= 300.
Proof.
  unfold limits. intros H.
  repeat (case_bool_decide; [injection H as <-; cbn; lia|]). discriminate.
Qed.

Lemma check_specific_congr (u : Z) (lt : str) (now : Z) (h h' : History) (limit : RateLimit) :
  limits lt = Some limit ->
  purge (now - window_seconds limit * usec) (hist h u lt) =
  purge (now - window_seconds limit * usec) (hist h' u lt) ->
  result_of (check_specific_limit u lt now h) = result_of (check_specific_limit u lt now h').
Proof.
  intros Hl E. unfold check_specific_limit, result_of. rewrite Hl, E.
  destruct (_ <=? _); [|reflexivity].
  destruct (purge _ (hist h' u lt)); reflexivity.
Qed.

(** Agreement of two histories on the windows of every configured
    category at time [now]. *)
Definition same_windows (u : Z) (now : Z) (h h' : History) : Prop :=
  forall k limit, limits k = Some limit ->
    purge (now - window_seconds limit * usec) (hist h u k) =
    purge (now - window_seconds limit * usec) (hist h' u k).

Lemma same_windows_set (u : Z) (lt : str) (now : Z) (h h' : History) (P : list Z) :
  same_windows u now h h' -> same_windows u now (set_hist h u lt P) (set_hist h' u lt P).
Proof.
  intros Hs k limit Hk. rewrite !hist_set_hist.
  destruct (decide _); [reflexivity|]. exact (Hs k limit Hk).
Qed.

Lemma check_specific_same (u : Z) (lt : str) (now : Z) (h h' : History) :
  same_windows u now h h' ->
  result_of (check_specific_limit u lt now h) = result_of (check_specific_limit u lt now h') /\
  same_windows u now (history_of (check_specific_limit u lt now h))
                     (history_of (check_specific_limit u lt now h')).
Proof.
  intros Hs. destruct (limits lt) as [limit|] eqn:Hl.
  - split; [exact (check_specific_congr _ _ _ _ _ _ Hl (Hs _ _ Hl))|].
    rewrite !(check_specific_history _ _ _ _ _ Hl), (Hs _ _ Hl).
    apply same_windows_set. exact Hs.
  - rewrite !(check_specific_unknown _ _ _ _ Hl). split; [reflexivity|exact Hs].
Qed.

Lemma check_rate_limit_same (u : Z) (lt : str) (cg : bool) (now : Z) (h h' : History) :
  same_windows u now h h' ->
  result_of (check_rate_limit u lt cg now h) = result_of (check_rate_limit u lt cg now h').
Proof.
  intros Hs. destruct (check_specific_same u lt now h h' Hs) as [Er Hs1].
  unfold check_rate_limit.
  unfold result_of, history_of in Er, Hs1.
  destruct (check_specific_limit u lt now h) as [[r h1] l1].
  destruct (check_specific_limit u lt now h') as [[r' h1'] l1'].
  cbn [fst snd] in Er, Hs1. subst r'.
  destruct r as [[[] m]|e]; [|reflexivity|reflexivity].
  destruct cg; [|reflexivity].
  destruct (check_specific_same u GLOBAL now h1 h1' Hs1) as [Er2 _].
  unfold result_of in Er2.
  destruct (check_specific_limit u GLOBAL now h1) as [[r2 h2] l2].
  destruct (check_specific_limit u GLOBAL now h1') as [[r2' h2'] l2'].
  cbn [fst] in Er2. subst r2'.
  destruct r2 as [[[] m2]|e2]; reflexivity.
Qed.

Lemma remaining_same (u : Z) (lt : str) (now : Z) (h h' : History) :
  same_windows u now h h' ->
  fst (get_remaining_requests u lt now h) = fst (get_remaining_requests u lt now h').
Proof.
  intros Hs. destruct (limits lt) as [limit|] eqn:Hl.
  - rewrite !(RLX.remaining_value _ _ _ _ _ Hl), (Hs _ _ Hl). reflexivity.
  - rewrite !remaining_unknown by exact Hl. reflexivity.
Qed.

Lemma cleanup_same_windows (days now now' : Z) (u : Z) (h : History) :
  1 <= days -> now <= now' ->
  same_windows u now' (history_of (cleanup_old_history days now h)) h.
Proof.
  intros Hd Hn k limit Hk. destruct (cleanup_overflows days now) eqn:Ho.
  - rewrite RLX.cleanup_raise by exact Ho. reflexivity.
  - rewrite (RLX.cleanup_hist _ _ _ _ _ Ho).
    apply Gate.purge_purge. pose proof (limits_window _ _ Hk). unfold usec. nia.
Qed.

Lemma purge_snoc_new (cut now : Z) (l : list Z) :
  cut < now -> purge cut (l ++ [now]) = purge cut l ++ [now].
Proof.
  intros H. rewrite Gate.purge_app. cbn [purge List.filter].
  rewrite (proj2 (Z.ltb_lt _ _) H). reflexivity.
Qed.

Lemma remaining_after_record (u : Z) (lt : str) (now : Z) (h : History) (limit : RateLimit) :
  limits lt = Some limit -> lt <> GLOBAL ->
  fst (get_remaining_requests u lt now (fst (record_request u lt true now h))) =
    Z.max 0 (fst (get_remaining_requests u lt now h) - 1) /\
  fst (get_remaining_requests u GLOBAL now (fst (record_request u lt true now h))) =
    Z.max 0 (fst (get_remaining_requests u GLOBAL now h) - 1).
Proof.
  intros Hl Hg. destruct (proj1 (record_request_hist u lt now h) Hg) as [E1 E2].
  pose proof (limits_window _ _ Hl). pose proof (limits_window _ _ limits_global).
  rewrite !(RLX.remaining_value _ _ _ _ _ Hl), !(RLX.remaining_value _ _ _ _ _ limits_global).
  rewrite E1, E2, !purge_snoc_new by (unfold usec; lia).
  rewrite !length_app. cbn [length]. split; lia.
Qed.

Lemma remaining_after_record_global (u : Z) (now : Z) (h : History) :
  fst (get_remaining_requests u GLOBAL now (fst (record_request u GLOBAL true now h))) =
    Z.max 0 (fst (get_remaining_requests u GLOBAL now h) - 2).
Proof.
  pose proof (limits_window _ _ limits_global).
  rewrite !(RLX.remaining_value _ _ _ _ _ limits_global).
  rewrite (proj2 (record_request_hist u GLOBAL now h) eq_refl).
  change [now; now] with ([now] ++ [now]).
  rewrite app_assoc, !purge_snoc_new by (unfold usec; lia).
  rewrite !length_app. cbn [length]. lia.
Qed.

End RLY.

(** * Further properties of the code *)
Module Extras.
Import KB RL Limiter Answer.

Lemma window_filter_length (u : Z) (c : str) (limit : RateLimit) (t : Z)
    (adm : list request) :
  length (List.filter (Gate.in_window limit t) (Gate.times_of u c adm)) =
  length (List.filter (fun r => bool_decide (req_user r = u) && bool_decide (req_type r = c)
                                && (t - window_seconds limit * usec <? req_time r)
                                && (req_time r <=? t)) adm).
Proof.
  unfold Gate.times_of. induction adm as [|r adm IH]; [reflexivity|].
  cbn [List.filter]. unfold Gate.is_uc at 1.
  destruct (bool_decide (req_user r = u)), (bool_decide (req_type r = c));
    cbn [andb map List.filter]; try exact IH.
  unfold Gate.in_window at 1.
  destruct (t - window_seconds limit * usec <? req_time r), (req_time r <=? t);
    cbn [andb length]; rewrite ?IH; reflexivity.
Qed.

(** X1. Whatever sequence of requests (in time order) reaches the handlers'
    gate ([check_rate_limit] then [record_request] when allowed), starting
    from a state with no history of the user in the category, the admitted
    requests of one user in a configured category other than ["global"]
    never number more than the category's [max_requests] within any window
    [(t - window_seconds, t]]. *)
Theorem handlers_admit_at_most_max (reqs : list request) (h : History)
    (user_id : Z) (limit_type : str) (limit : RateLimit)
    (Hl : limits limit_type = Some limit) (Hg : limit_type <> GLOBAL)
    (Hh : hist h user_id limit_type = [])
    (Hs : StronglySorted Z.le (map req_time reqs)) (t : Z) :
  Z.of_nat (length (List.filter
    (fun r => bool_decide (req_user r = user_id) && bool_decide (req_type r = limit_type)
              && (t - window_seconds limit * usec <? req_time r) && (req_time r <=? t))
    (fst (run_requests reqs h)))) <= max_requests limit.
Proof.
  rewrite <- window_filter_length.
  exact (Gate.run_requests_window user_id limit_type limit Hl Hg reqs h Hh Hs t).
Qed.

Definition burst (n : nat) : list request :=
  repeat {| req_user := 1; req_type := py "question"; req_time := 0 |} n.

Lemma handlers_admit_at_most_max_witness :
  Z.of_nat (length (List.filter
    (fun r => bool_decide (req_user r = 1) && bool_decide (req_type r = py "question")
              && (0 - window_seconds question_limit * usec <? req_time r)
              && (req_time r <=? 0))
    (fst (run_requests (burst 12) empty_history)))) <= max_requests question_limit.
Proof.
  apply (handlers_admit_at_most_max (burst 12) empty_history 1 (py "question")
           question_limit).
  - reflexivity.
  - intros H. vm_compute in H. discriminate.
  - reflexivity.
  - vm_compute. repeat constructor; discriminate.
Defined.

(** X2. For a configured category, [get_remaining_requests] lies between 0
    and [max_requests], and it is positive exactly when the category check
    [_check_specific_limit] at the same instant allows the request. *)
Theorem remaining_matches_check (user_id : Z) (limit_type : str) (now : Z) (h : History)
    (limit : RateLimit) (Hl : limits limit_type = Some limit) :
  0 <= fst (get_remaining_requests user_id limit_type now h) <= max_requests limit /\
  (0 < fst (get_remaining_requests user_id limit_type now h) <->
   result_of (check_specific_limit user_id limit_type now h) = Ok (true, None)).
Proof. exact (RLX.remaining_check_agree user_id limit_type now h limit Hl). Qed.

Lemma remaining_matches_check_witness :
  (0 <= fst (get_remaining_requests 7 (py "question") 0
               (record_all 7 (py "question") [0; 0; 0] empty_history))
     <= max_requests question_limit /\
   (0 < fst (get_remaining_requests 7 (py "question") 0
               (record_all 7 (py "question") [0; 0; 0] empty_history)) <->
    result_of (check_specific_limit 7 (py "question") 0
                 (record_all 7 (py "question") [0; 0; 0] empty_history)) = Ok (true, None))).
Proof. apply remaining_matches_check. reflexivity. Defined.

(** X3. After [clear_user_history(user_id)]: every [check_rate_limit] of
    that user allows the request, [get_remaining_requests] gives the full
    [max_requests] of every configured category, the histories of the other
    users are unchanged, and a log line is written exactly when the user
    had a history. *)
Theorem clear_user_history_spec (user_id : Z) (h : History) :
  (forall limit_type check_global now,
     result_of (check_rate_limit user_id limit_type check_global now
                  (fst (clear_user_history user_id h))) = Ok (true, None)) /\
  (forall limit_type limit now, limits limit_type = Some limit ->
     fst (get_remaining_requests user_id limit_type now
            (fst (clear_user_history user_id h))) = max_requests limit) /\
  (forall u' limit_type, u' <> user_id ->
     hist (fst (clear_user_history user_id h)) u' limit_type = hist h u' limit_type) /\
  (snd (clear_user_history user_id h) = [] <-> h !! user_id = None).
Proof.
  split; [|split; [|split]].
  - intros lt cg now. apply RLX.check_rate_limit_empty;
      rewrite RLX.clear_hist, decide_True; reflexivity.
  - intros lt limit now Hl. apply (remaining_fresh _ _ _ _ _ Hl).
    rewrite RLX.clear_hist, decide_True; reflexivity.
  - intros u' lt Hu. rewrite RLX.clear_hist, decide_False by exact Hu. reflexivity.
  - apply RLX.clear_log.
Qed.

(** X4. [cleanup_old_history(days)] at time [now]. When [now - days]
    is a datetime ([|days| <= 999999999] and the difference between
    [datetime.min] and [datetime.max]) it returns and keeps, for every user
    and category, exactly the timestamps later than [now - days], and a
    user is kept only when one of their lists is non-empty. Otherwise it
    raises [OverflowError] and leaves the history unchanged. *)
Theorem cleanup_old_history_spec (days now : Z) (h : History) :
  (Z.abs days <= 999999999 /\ datetime_min <= now - days * 86400 * usec <= datetime_max ->
     result_of (cleanup_old_history days now h) = Ok tt /\
     (forall user_id limit_type,
        hist (history_of (cleanup_old_history days now h)) user_id limit_type =
        purge (now - days * 86400 * usec) (hist h user_id limit_type)) /\
     (forall user_id uh, history_of (cleanup_old_history days now h) !! user_id = Some uh ->
        exists limit_type l, uh !! limit_type = Some l /\ l <> [])) /\
  (~ (Z.abs days <= 999999999 /\ datetime_min <= now - days * 86400 * usec <= datetime_max) ->
     result_of (cleanup_old_history days now h) = Raise (py "OverflowError") /\
     history_of (cleanup_old_history days now h) = h).
Proof.
  split.
  - intros Hr. apply RLX.cleanup_overflows_false in Hr.
    split; [exact (RLX.cleanup_ok _ _ h Hr)|]. split.
    + intros u lt. exact (RLX.cleanup_hist _ _ _ u lt Hr).
    + intros u uh. exact (RLX.cleanup_kept _ _ _ u uh Hr).
  - intros Hr. destruct (cleanup_overflows days now) eqn:Ho.
    + rewrite (RLX.cleanup_raise _ _ h Ho). split; reflexivity.
    + exfalso. apply Hr. apply RLX.cleanup_overflows_false. exact Ho.
Qed.

(** X5. [get_blocks] lists the block names in strictly increasing string
    order (so without repetition), and a name is listed exactly when
    [get_questions_by_block] returns at least one entry for it;
    [get_questions_by_block] returns the entries of that block. *)
Theorem get_blocks_spec (faq_data : list FAQEntry) :
  StronglySorted Blocks.str_lt (get_blocks faq_data) /\
  (forall b, In b (get_blocks faq_data) <-> get_questions_by_block faq_data b <> []) /\
  (forall b e, In e (get_questions_by_block faq_data b) <-> In e faq_data /\ block e = b).
Proof.
  unfold get_blocks.
  destruct (Blocks.py_set_of_spec (map block faq_data)) as [Hnd Hin].
  destruct (Blocks.py_sorted_str_spec _ Hnd) as [Hs Hin'].
  split; [exact Hs|]. split.
  - intros b. rewrite Hin', Hin. apply Blocks.in_blocks_iff.
  - intros b e. apply Blocks.get_questions_by_block_spec.
Qed.

(** X6. [get_statistics]: ["total_questions"] is the number of entries and
    ["questions_with_urls"] the number whose [legal_url] is non-blank, the
    two URL counts add up to the total; for an empty corpus ["blocks"] is an
    empty list, otherwise a dictionary whose keys are the block names, each
    once, mapped to the number of entries of the block. *)
Theorem get_statistics_spec (faq_data : list FAQEntry) :
  total_questions (get_statistics faq_data) = Z.of_nat (length faq_data) /\
  questions_with_urls (get_statistics faq_data) =
    Z.of_nat (length (List.filter has_url faq_data)) /\
  questions_with_urls (get_statistics faq_data) +
    questions_without_urls (get_statistics faq_data) = total_questions (get_statistics faq_data) /\
  0 <= questions_without_urls (get_statistics faq_data) /\
  (faq_data = [] -> stat_blocks (get_statistics faq_data) = BlocksList []) /\
  (faq_data <> [] -> exists d, stat_blocks (get_statistics faq_data) = BlocksDict d /\
     NoDup (map fst d) /\
     (forall b, In b (map fst d) <-> In b (map block faq_data)) /\
     (forall b v, In (b, v) d ->
        v = Z.of_nat (length (get_questions_by_block faq_data b)))).
Proof.
  assert (Hlen : (length (List.filter has_url faq_data) <= length faq_data)%nat)
    by apply List.filter_length_le.
  destruct faq_data as [|e0 faq0].
  { cbn. repeat split; try lia; intros; congruence. }
  set (F := e0 :: faq0) in *. unfold get_statistics.
  change (match F with [] => ?x | _ => ?y end) with y.
  rewrite Blocks.stats_fold. cbn [total_questions questions_with_urls
    questions_without_urls stat_blocks].
  split; [reflexivity|]. split; [lia|]. split; [lia|]. split; [lia|].
  split; [discriminate|]. intros _.
  exists (fold_left Blocks.dict_step F []). split; [reflexivity|].
  assert (Hk : map fst (fold_left Blocks.dict_step F []) = py_set_of (map block F)).
  { rewrite Blocks.dict_fold_keys. reflexivity. }
  destruct (Blocks.py_set_of_spec (map block F)) as [Hnd Hin].
  rewrite Hk. split; [exact Hnd|]. split; [exact Hin|].
  intros b v Hbv. rewrite <- (Blocks.dget_in _ b v) by (rewrite ?Hk; assumption).
  rewrite Blocks.dict_fold_dget. reflexivity.
Qed.

(** X7. An answer of [get_answer_with_validation] is built from a corpus
    entry [e] with its own score: the best score of the corpus, at least
    0.5, and [e] is the first entry with that score; [url_valid] is [None]
    exactly when URL checking is off or [e] has no [legal_url]. *)
Theorem get_answer_picks_first_best (faq_data : list FAQEntry) (query : str)
    (check_urls : bool) (head : head_outcome) (d : AnswerData)
    (H : get_answer_with_validation faq_data query check_urls head = Some d) :
  exists pre e post, faq_data = pre ++ e :: post /\
    d = answer_of e (calculate_similarity query (question e))
          (ad_url_valid d) (ad_url_status d) /\
    (1 # 2 <= ad_similarity_score d)%Q /\
    (forall e', In e' faq_data ->
       (calculate_similarity query (question e') <= ad_similarity_score d)%Q) /\
    (forall e', In e' pre ->
       (calculate_similarity query (question e') < ad_similarity_score d)%Q) /\
    (ad_url_valid d = None <-> check_urls = false \/ legal_url e = []).
Proof. exact (Best.get_answer_best faq_data query check_urls head d H). Qed.

Definition faq_entry (q u : str) : FAQEntry :=
  {| question := q; short_answer := py "answer"; legal_reference := [];
     legal_url := u; block := py "block"; current_as_of := [] |}.

Definition small_corpus : list FAQEntry :=
  [faq_entry (py "fire safety training") [];
   faq_entry (py "first aid kit") (py "https://pravo.gov.ru/");
   faq_entry (py "first aid kit") []].

Definition small_answer : AnswerData :=
  answer_of (faq_entry (py "first aid kit") (py "https://pravo.gov.ru/"))
    (calculate_similarity (py "first aid kit") (py "first aid kit")) None None.

Lemma get_answer_picks_first_best_witness :
  exists pre e post, small_corpus = pre ++ e :: post /\
    small_answer = answer_of e (calculate_similarity (py "first aid kit") (question e))
                     (ad_url_valid small_answer) (ad_url_status small_answer) /\
    (1 # 2 <= ad_similarity_score small_answer)%Q /\
    (forall e', In e' small_corpus ->
       (calculate_similarity (py "first aid kit") (question e')
        <= ad_similarity_score small_answer)%Q) /\
    (forall e', In e' pre ->
       (calculate_similarity (py "first aid kit") (question e')
        < ad_similarity_score small_answer)%Q) /\
    (ad_url_valid small_answer = None <-> false = false \/ legal_url e = []).
Proof.
  apply (get_answer_picks_first_best small_corpus (py "first aid kit") false HeadOtherError).
  vm_compute. reflexivity.
Defined.

(** X8. For a citation [p ++ "ст." ++ w ++ d ++ tail] in which [p] has no
    letter "с", [w] is white space, [d] a non-empty run of decimal digits ([\d]) and
    [tail] empty or starting with an ASCII character that is neither a digit
    nor a dot, [_extract_article_number] returns ["st-" ++ d]. *)
Theorem extract_article_number_citation (p w d tail : str)
    (Hp : ~ In 1089 p) (Hw : forallb is_space w = true)
    (Hd : d <> []) (Hdig : forallb is_digit d = true)
    (Ht : tail = [] \/
          exists c r, tail = c :: r /\ c < 128 /\ is_digit c = false /\ c <> 46) :
  extract_article_number (p ++ py "ст." ++ w ++ d ++ tail) = py "st-" ++ d.
Proof.
  apply Article.extract_article_number_app; try assumption.
  destruct Ht as [->|[c [r [-> [_ Hc]]]]]; [left; reflexivity|].
  right. exists c, r. split; [reflexivity|exact Hc].
Qed.

Lemma extract_article_number_citation_witness :
  extract_article_number (py "ТК РФ, " ++ py "ст." ++ py " " ++ py "212" ++ py ", ч. 2")
  = py "st-" ++ py "212".
Proof.
  apply extract_article_number_citation.
  - intros H. vm_compute in H. repeat (destruct H as [H|H]; [discriminate|]). exact H.
  - reflexivity.
  - discriminate.
  - reflexivity.
  - right. exists 44, (py " ч. 2"). split; [vm_compute; reflexivity|].
    split; [lia|]. split; [vm_compute; reflexivity|discriminate].
Defined.

(** X9. When the legal reference contains "ТК РФ", the rendered answer does
    not depend on the stored [legal_url] nor on the link check: it links
    the article page built from [_extract_article_number] on consultant.ru
    when an article number is found, and shows the advisory line
    otherwise. *)
Theorem format_answer_labour_code (d : AnswerData) (url : str) (v : option bool)
    (st : option Z)
    (Htk : contains (py "ТК РФ") (ad_legal_reference d) = true) :
  format_lines (Render.relink d url v st) = format_lines d /\
  (extract_article_number (ad_legal_reference d) <> [] ->
   In (py "✅ <b>Ссылка:</b> " ++ py "https://www.consultant.ru/document/cons_doc_LAW_34683/"
       ++ extract_article_number (ad_legal_reference d) ++ py "/") (format_lines d)) /\
  (extract_article_number (ad_legal_reference d) = [] ->
   In advisory_line (format_lines d)).
Proof. exact (Render.format_lines_tk d url v st Htk). Qed.

Definition tk_answer : AnswerData :=
  {| ad_question := py "q"; ad_answer := py "a"; ad_legal_reference := py "ст. 212 ТК РФ";
     ad_legal_url := py "https://example.com/"; ad_block := py "b"; ad_current_as_of := [];
     ad_similarity_score := 1; ad_url_valid := Some true; ad_url_status := Some 200 |}.

Lemma format_answer_labour_code_witness :
  format_lines (Render.relink tk_answer [] None None) = format_lines tk_answer /\
  (extract_article_number (ad_legal_reference tk_answer) <> [] ->
   In (py "✅ <b>Ссылка:</b> " ++ py "https://www.consultant.ru/document/cons_doc_LAW_34683/"
       ++ extract_article_number (ad_legal_reference tk_answer) ++ py "/")
      (format_lines tk_answer)) /\
  (extract_article_number (ad_legal_reference tk_answer) = [] ->
   In advisory_line (format_lines tk_answer)).
Proof. apply format_answer_labour_code. vm_compute. reflexivity. Defined.

(** X10. For a stored government URL (outside the "ТК РФ" case) the
    rendered answer shows the legal reference and the stored URL, marked ✅
    only when the link check returned [True] and ⚠️ otherwise (also when no
    check was made); when the check returned [False] it adds the warning
    with [str(url_status)], which is ["None"] when the request failed. *)
Theorem format_answer_government_link (d : AnswerData)
    (Hu : ad_legal_url d <> [])
    (Htk : contains (py "ТК РФ") (ad_legal_reference d) = false)
    (Hg : is_government_source (ad_legal_url d) = true) :
  In (legal_ref_line (ad_legal_reference d)) (format_lines d) /\
  (ad_url_valid d = Some true ->
   In (py "✅" ++ py " <b>Ссылка:</b> " ++ ad_legal_url d) (format_lines d)) /\
  (ad_url_valid d <> Some true ->
   In (py "⚠️" ++ py " <b>Ссылка:</b> " ++ ad_legal_url d) (format_lines d)) /\
  (ad_url_valid d = Some false ->
   In (py "<i>⚠️ Внимание: ссылка может быть недоступна (код "
       ++ show_status (ad_url_status d) ++ py ")</i>") (format_lines d)).
Proof. exact (Render.format_lines_government d Hu Htk Hg). Qed.

Definition gov_answer : AnswerData :=
  {| ad_question := py "q"; ad_answer := py "a"; ad_legal_reference := py "ФЗ-116";
     ad_legal_url := py "https://pravo.gov.ru/"; ad_block := py "b"; ad_current_as_of := [];
     ad_similarity_score := 1; ad_url_valid := Some false; ad_url_status := None |}.

Lemma format_answer_government_link_witness :
  In (legal_ref_line (ad_legal_reference gov_answer)) (format_lines gov_answer) /\
  (ad_url_valid gov_answer = Some true ->
   In (py "✅" ++ py " <b>Ссылка:</b> " ++ ad_legal_url gov_answer) (format_lines gov_answer)) /\
  (ad_url_valid gov_answer <> Some true ->
   In (py "⚠️" ++ py " <b>Ссылка:</b> " ++ ad_legal_url gov_answer) (format_lines gov_answer)) /\
  (ad_url_valid gov_answer = Some false ->
   In (py "<i>⚠️ Внимание: ссылка может быть недоступна (код "
       ++ show_status (ad_url_status gov_answer) ++ py ")</i>") (format_lines gov_answer)).
Proof.
  apply format_answer_government_link.
  - discriminate.
  - vm_compute. reflexivity.
  - vm_compute. reflexivity.
Defined.

(** X12. [cleanup_old_history(days)] with [days >= 1] at time [now] changes
    no later verdict: every [check_rate_limit] and [get_remaining_requests]
    at a time [now' >= now] gives the same result as without the cleanup
    (also when the cleanup raises [OverflowError], which leaves the history
    unchanged). *)
Theorem cleanup_old_history_keeps_verdicts (days now now' : Z) (h : History)
    (Hd : 1 <= days) (Hn : now <= now') :
  (forall user_id limit_type check_global,
     result_of (check_rate_limit user_id limit_type check_global now'
                  (history_of (cleanup_old_history days now h))) =
     result_of (check_rate_limit user_id limit_type check_global now' h)) /\
  (forall user_id limit_type,
     fst (get_remaining_requests user_id limit_type now'
            (history_of (cleanup_old_history days now h))) =
     fst (get_remaining_requests user_id limit_type now' h)).
Proof.
  split.
  - intros u lt cg. apply RLY.check_rate_limit_same.
    apply RLY.cleanup_same_windows; assumption.
  - intros u lt. apply RLY.remaining_same.
    apply RLY.cleanup_same_windows; assumption.
Qed.

Lemma cleanup_old_history_keeps_verdicts_witness :
  (forall user_id limit_type check_global,
     result_of (check_rate_limit user_id limit_type check_global usec
                  (history_of (cleanup_old_history 1 0
                          (record_all 1 (py "question") [0] empty_history)))) =
     result_of (check_rate_limit user_id limit_type check_global usec
                  (record_all 1 (py "question") [0] empty_history))) /\
  (forall user_id limit_type,
     fst (get_remaining_requests user_id limit_type usec
            (history_of (cleanup_old_history 1 0
                    (record_all 1 (py "question") [0] empty_history)))) =
     fst (get_remaining_requests user_id limit_type usec
            (record_all 1 (py "question") [0] empty_history))).
Proof. apply cleanup_old_history_keeps_verdicts; unfold usec; lia. Defined.

(** X13. One [record_request(user_id, limit_type)] call lowers
    [get_remaining_requests] at the same instant by one (down to 0) for its
    configured category and for ["global"]; for [limit_type = "global"] it
    lowers the global count by two. *)
Theorem record_request_lowers_remaining (user_id : Z) (limit_type : str) (now : Z)
    (h : History) (limit : RateLimit)
    (Hl : limits limit_type = Some limit) (Hg : limit_type <> GLOBAL) :
  fst (get_remaining_requests user_id limit_type now
         (fst (record_request user_id limit_type true now h))) =
    Z.max 0 (fst (get_remaining_requests user_id limit_type now h) - 1) /\
  fst (get_remaining_requests user_id GLOBAL now
         (fst (record_request user_id limit_type true now h))) =
    Z.max 0 (fst (get_remaining_requests user_id GLOBAL now h) - 1) /\
  fst (get_remaining_requests user_id GLOBAL now
         (fst (record_request user_id GLOBAL true now h))) =
    Z.max 0 (fst (get_remaining_requests user_id GLOBAL now h) - 2).
Proof.
  destruct (RLY.remaining_after_record user_id limit_type now h limit Hl Hg) as [E1 E2].
  split; [exact E1|]. split; [exact E2|].
  apply RLY.remaining_after_record_global.
Qed.

Lemma record_request_lowers_remaining_witness :
  fst (get_remaining_requests 1 (py "question") 0
         (fst (record_request 1 (py "question") true 0 empty_history))) =
    Z.max 0 (fst (get_remaining_requests 1 (py "question") 0 empty_history) - 1) /\
  fst (get_remaining_requests 1 GLOBAL 0
         (fst (record_request 1 (py "question") true 0 empty_history))) =
    Z.max 0 (fst (get_remaining_requests 1 GLOBAL 0 empty_history) - 1) /\
  fst (get_remaining_requests 1 GLOBAL 0
         (fst (record_request 1 GLOBAL true 0 empty_history))) =
    Z.max 0 (fst (get_remaining_requests 1 GLOBAL 0 empty_history) - 2).
Proof.
  apply (record_request_lowers_remaining 1 (py "question") 0 empty_history question_limit).
  - reflexivity.
  - intros H. vm_compute in H. discriminate.
Defined.

End Extras.
